(** * TaskFlow: authentication, accounts and tasks

    A shallow embedding of the server side of the TaskFlow repository:
    [server/storage.ts] (the in-memory store of users, refresh tokens
    and tasks), [server/middleware/auth.ts] (token issuer, auth
    middleware, role guard), [server/middleware/errorHandler.ts], the
    schemas of [shared/schema.ts] and the routes of [server/routes.ts].

    Conventions.
    - A JavaScript string is held as its UTF-8 encoding: [===] is
      equality of the bytes, [length] counts UTF-16 code units
      ([Js.length]), and [toLowerCase], which follows the Unicode case
      tables, is the runtime's ([Js.Runtime]).
    - A JavaScript [Date] is its epoch value in milliseconds, an [N];
      calendar arithmetic in the local time zone ([setDate]) is the
      runtime's ([addDays]).
    - A JavaScript [Map] is an insertion-ordered association list
      ([JsMap]): [getUserByEmail] takes the first match in iteration
      order, so the order is part of the behaviour.
    - Every [async] store method is run to completion; a handler is one
      atomic step on the store (no interleaving of requests).
    - Results that the runtime draws from outside the program
      ([Date.now()], [randomUUID()], the bcrypt salt) are explicit inputs,
      gathered per request in the record [Ambient].
    - The npm dependencies are not part of the repository: the HMAC and
      bcrypt primitives, the reading of a request body into typed
      properties and the email format of Zod are fields of the class
      [Platform]; the token format of [jsonwebtoken] and the counter of
      [express-rate-limit] are modelled in the modules [Jwt] and
      [RateLimit]. *)

From Stdlib Require Import List String Ascii NArith Bool Lia.
From Stdlib Require Import DecimalString DecimalN.
Import ListNotations.

Local Open Scope string_scope.
Local Open Scope N_scope.

(* ------------------------------------------------------------------ *)
(** ** JavaScript strings *)

Module Js.

(** [s.startsWith(p)] *)
Fixpoint startsWith (p s : string) : bool :=
  match p, s with
  | EmptyString, _ => true
  | String a p', String b s' => Ascii.eqb a b && startsWith p' s'
  | String _ _, EmptyString => false
  end.

(** [s.substring(n)]: the characters of [s] from index [n] to the end;
    it is applied to a string that starts with [n] ASCII characters. *)
Fixpoint substring (n : nat) (s : string) : string :=
  match n, s with
  | O, _ => s
  | S n', String _ s' => substring n' s'
  | S _, EmptyString => EmptyString
  end.

(** [s.toLowerCase()] maps every cased letter of Unicode, so it is taken
    from the runtime.  All that is used of it is that the empty string,
    and no other, is mapped to the empty string. *)
Class Runtime : Type :=
  { toLowerCase : string -> string;
    toLowerCase_empty : forall s, toLowerCase s = EmptyString <-> s = EmptyString }.

(** The UTF-16 code units that the character starting with the byte [c]
    takes: none for a continuation byte [10xxxxxx], two for the first
    byte [11110xxx] of a character beyond the Basic Multilingual Plane,
    one for every other first byte. *)
Definition units (c : ascii) : nat :=
  let n := N_of_ascii c in
  if n <? 128 then 1%nat
  else if n <? 192 then 0%nat
  else if n <? 240 then 1%nat
  else 2%nat.

(** [s.length] *)
Fixpoint length (s : string) : nat :=
  match s with
  | EmptyString => 0%nat
  | String c s' => (units c + length s')%nat
  end.

(** Truthiness of a value of type [string | undefined]: [undefined] and
    the empty string are falsy. *)
Definition truthy (v : option string) : bool :=
  match v with
  | None => false
  | Some s => negb (s =? "")%string
  end.

(** [s.split(c)] for a one-character separator. *)
Fixpoint split (c : ascii) (s : string) : list string :=
  match s with
  | EmptyString => [EmptyString]
  | String a r =>
      if Ascii.eqb a c then EmptyString :: split c r
      else match split c r with
           | [] => [String a EmptyString]
           | h :: t => String a h :: t
           end
  end.

(** [s.includes(c)] for a one-character needle. *)
Fixpoint includes (c : ascii) (s : string) : bool :=
  match s with
  | EmptyString => false
  | String a r => Ascii.eqb a c || includes c r
  end.

End Js.

(* ------------------------------------------------------------------ *)
(** ** JavaScript [Map<string, V>] *)

Module JsMap.

Section Ops.
Context {V : Type}.

Definition t := list (string * V).

Definition empty : t := [].

Definition key_is (k : string) (e : string * V) : bool :=
  (k =? fst e)%string.

(** [m.get(k)] *)
Definition get (k : string) (m : t) : option V :=
  option_map snd (find (key_is k) m).

(** [m.has(k)] *)
Definition has (k : string) (m : t) : bool :=
  existsb (key_is k) m.

(** [m.set(k, v)]: an existing key keeps its position, a new key goes
    to the end of the iteration order. *)
Definition set (k : string) (v : V) (m : t) : t :=
  if has k m
  then map (fun e => if key_is k e then (k, v) else e) m
  else (m ++ [(k, v)])%list.

(** [m.delete(k)]: the map without [k]; the boolean that [delete]
    returns is [has k m]. *)
Definition delete (k : string) (m : t) : t :=
  filter (fun e => negb (key_is k e)) m.

(** [Array.from(m.values())] *)
Definition values (m : t) : list V := map snd m.

Definition keys (m : t) : list string := map fst m.

End Ops.

Arguments t : clear implicits.

End JsMap.

(* ------------------------------------------------------------------ *)
(** ** Data model ([shared/schema.ts]) *)

(** [UserRole] of [shared/schema.ts]: the two strings ["ADMIN"] and
    ["MEMBER"]. *)
Inductive UserRole : Type := ADMIN | MEMBER.

Definition UserRole_eqb (a b : UserRole) : bool :=
  match a, b with
  | ADMIN, ADMIN | MEMBER, MEMBER => true
  | _, _ => false
  end.

(** A [Date], as milliseconds since the epoch. *)
Definition Date := N.

Module User.
Record t : Type := mk
  { id : string;
    email : string;
    username : string;
    password : string;
    role : UserRole;
    firstName : string;
    lastName : string;
    createdAt : Date }.
End User.

Module UserPublic.
Record t : Type := mk
  { id : string;
    email : string;
    username : string;
    role : UserRole;
    firstName : string;
    lastName : string;
    createdAt : Date }.
End UserPublic.

Module RefreshToken.
Record t : Type := mk
  { id : string;
    userId : string;
    token : string;
    expiresAt : Date;
    createdAt : Date }.
End RefreshToken.

(** The value that [registerSchema.parse] returns. *)
Module RegisterInput.
Record t : Type := mk
  { email : string;
    username : string;
    password : string;
    firstName : string;
    lastName : string }.
End RegisterInput.

(** The value that [loginSchema.parse] returns. *)
Module LoginInput.
Record t : Type := mk
  { email : string;
    password : string }.
End LoginInput.

(* ------------------------------------------------------------------ *)
(** ** What the program takes from its platform

    [hmac_sha256 key message], [bcrypt_hash plaintext salt] (cost factor
    10) and [bcrypt_compare plaintext hash] are the primitives of the
    [jsonwebtoken] and [bcryptjs] packages; no property of them is
    assumed.  The two environment variables are those the code reads.
    [addDays days d] is [d.setDate(d.getDate() + days)]: the instant that
    is [days] calendar days later in the local time zone of the process,
    which is not always [days] times 24 hours later.
    [Body] is the type of [req.body].  Of Zod, [is_email] is the format
    that [z.string().email()] accepts, and [register_fields] and
    [login_fields] read the body as an object with the properties of the
    schema, each a string; they give [None] when a property is missing or
    has another type. *)
Class Platform `{Js.Runtime} : Type :=
  { hmac_sha256 : string -> string -> string;
    bcrypt_hash : string -> string -> string;
    bcrypt_compare : string -> string -> bool;
    env_SESSION_SECRET : option string;
    env_NODE_ENV : option string;
    addDays : N -> Date -> Date;
    Body : Type;
    is_email : string -> bool;
    register_fields : Body -> option RegisterInput.t;
    login_fields : Body -> option LoginInput.t }.

(** [z.string().min(n)] *)
Definition min_length (n : nat) (s : string) : bool := Nat.leb n (Js.length s).

Section AuthSchemas.
Context `{Platform}.

(** [registerSchema] ([shared/schema.ts]); [parse] returns the typed
    input or throws a [ZodError] ([None]). *)
Definition registerSchema_parse (body : Body) : option RegisterInput.t :=
  match register_fields body with
  | Some data =>
      if is_email (RegisterInput.email data)
         && min_length 3 (RegisterInput.username data)
         && min_length 8 (RegisterInput.password data)
         && min_length 1 (RegisterInput.firstName data)
         && min_length 1 (RegisterInput.lastName data)
      then Some data else None
  | None => None
  end.

(** [loginSchema] *)
Definition loginSchema_parse (body : Body) : option LoginInput.t :=
  match login_fields body with
  | Some data =>
      if is_email (LoginInput.email data)
         && min_length 1 (LoginInput.password data)
      then Some data else None
  | None => None
  end.

End AuthSchemas.

(* ------------------------------------------------------------------ *)
(** ** Text encodings used by the token format *)

Module Codec.

Definition hex_alphabet : string := "0123456789abcdef".

Definition hex_digit (n : N) : ascii :=
  match String.get (N.to_nat n) hex_alphabet with
  | Some c => c
  | None => "0"%char
  end.

Fixpoint position (c : ascii) (s : string) : option N :=
  match s with
  | EmptyString => None
  | String a r =>
      if Ascii.eqb a c then Some 0 else option_map N.succ (position c r)
  end.

Definition hex_value (c : ascii) : option N := position c hex_alphabet.

Definition hex_of_ascii (c : ascii) : string :=
  let n := N_of_ascii c in
  String (hex_digit (n / 16)) (String (hex_digit (n mod 16)) EmptyString).

(** Two lower-case hexadecimal digits per byte. *)
Fixpoint hex_encode (s : string) : string :=
  match s with
  | EmptyString => EmptyString
  | String c r => hex_of_ascii c ++ hex_encode r
  end.

Fixpoint hex_decode (s : string) : option string :=
  match s with
  | EmptyString => Some EmptyString
  | String a (String b r) =>
      match hex_value a, hex_value b, hex_decode r with
      | Some x, Some y, Some t => Some (String (ascii_of_N (16 * x + y)) t)
      | _, _, _ => None
      end
  | String _ EmptyString => None
  end.

(** Decimal numerals. *)
Definition dec (n : N) : string := NilEmpty.string_of_uint (N.to_uint n).

Definition undec (s : string) : option N :=
  match s with
  | EmptyString => None
  | _ => option_map N.of_uint (NilEmpty.uint_of_string s)
  end.

End Codec.

(* ------------------------------------------------------------------ *)
(** ** The [jsonwebtoken] package (HS256)

    A token is [header.payload.signature].  The real package writes the
    header and the payload as base64url-encoded JSON and the signature as
    the base64url-encoded HMAC-SHA256 of [header.payload]; here the
    payload segment is a comma-separated record with hexadecimal string
    fields and the signature is the hexadecimal HMAC, which keeps what
    matters for [verify]: the three dot-separated segments, a payload that
    decodes to what was signed, a signature recomputed from the first two
    segments, and the [exp] claim compared with the clock in seconds. *)

Module Jwt.

(** The payload of a token.  [type] is the optional tag that
    [generateRefreshToken] adds; [iat] and [exp] are in seconds. *)
Record Payload : Type := mkPayload
  { userId : string;
    type : option string;
    iat : N;
    exp : N }.

Inductive VerifyError : Type :=
  | JsonWebTokenError (message : string)
  | TokenExpiredError.

(** base64url of [{"alg":"HS256","typ":"JWT"}] *)
Definition header : string := "eyJhbGciOiJIUzI1NiIsInR5cCI6IkpXVCJ9".

Definition encode_type (t : option string) : string :=
  match t with
  | None => "-"
  | Some s => String "+"%char (Codec.hex_encode s)
  end.

Definition decode_type (s : string) : option (option string) :=
  match s with
  | String c r =>
      if Ascii.eqb c "-"%char then
        match r with EmptyString => Some None | _ => None end
      else if Ascii.eqb c "+"%char then option_map Some (Codec.hex_decode r)
      else None
  | EmptyString => None
  end.

Definition encode_payload (p : Payload) : string :=
  Codec.hex_encode (userId p) ++ "," ++ encode_type (type p) ++ ","
  ++ Codec.dec (iat p) ++ "," ++ Codec.dec (exp p).

Definition decode_payload (s : string) : option Payload :=
  match Js.split ","%char s with
  | [u; t; i; e] =>
      match Codec.hex_decode u, decode_type t, Codec.undec i, Codec.undec e with
      | Some u', Some t', Some i', Some e' => Some (mkPayload u' t' i' e')
      | _, _, _, _ => None
      end
  | _ => None
  end.

Section WithPlatform.
Context `{Platform}.

Definition signature (secret signingInput : string) : string :=
  Codec.hex_encode (hmac_sha256 secret signingInput).

(** [jwt.sign({userId, type?}, secret, {expiresIn})] at clock reading
    [now] (milliseconds); [expiresIn] is in seconds. *)
Definition sign (userId : string) (type : option string) (secret : string)
    (expiresIn : N) (now : Date) : string :=
  let iat := now / 1000 in
  let signingInput :=
    header ++ "." ++ encode_payload (mkPayload userId type iat (iat + expiresIn)) in
  signingInput ++ "." ++ signature secret signingInput.

(** [jwt.verify(token, secret)] at clock reading [now]: the decoded
    payload, or the error that the package throws. *)
Definition verify (token secret : string) (now : Date)
  : VerifyError + Payload :=
  match Js.split "."%char token with
  | [h; p; s] =>
      match (h =? header)%string, decode_payload p with
      | true, Some payload =>
          if (s =? signature secret (h ++ "." ++ p))%string then
            if exp payload <=? now / 1000 then inl TokenExpiredError
            else inr payload
          else inl (JsonWebTokenError "invalid signature")
      | _, _ => inl (JsonWebTokenError "invalid token")
      end
  | _ => inl (JsonWebTokenError "jwt malformed")
  end.

End WithPlatform.

End Jwt.

(* ------------------------------------------------------------------ *)
(** ** The credential store ([server/storage.ts]) *)

(** The argument of [createUser]: [Omit<User, "id" | "createdAt">]. *)
Module NewUser.
Record t : Type := mk
  { email : string;
    username : string;
    password : string;
    firstName : string;
    lastName : string;
    role : UserRole }.
End NewUser.

(** The fields of [MemStorage] that the auth core uses (the [tasks] map
    is left out: no operation below reads or writes it). *)
Record MemStorage : Type := mkMemStorage
  { users : JsMap.t User.t;
    refreshTokens : JsMap.t RefreshToken.t;
    initialized : bool }.

(** [new MemStorage()] *)
Definition MemStorage_new : MemStorage := mkMemStorage JsMap.empty JsMap.empty false.

(** What one request draws from outside the program: the clock reading
    (the readings of one request are taken at the same instant), and the
    values that [randomUUID()] and the bcrypt salt generator return at
    each of their call sites.  [init_uuid] and [init_salt] are consumed
    only if the request is the one that initializes the store. *)
Record Ambient : Type := mkAmbient
  { now : Date;
    init_uuid : string;
    init_salt : string;
    user_uuid : string;
    user_salt : string;
    token_uuid : string }.

(** What a [throw] can carry ([server/middleware/errorHandler.ts]). *)
Inductive Thrown : Type :=
  | AppError (statusCode : N) (message : string)
  | ZodError
  | OtherError.

(** A computation on the store that returns or throws; the writes made
    before a [throw] stay. *)
Definition Action (A : Type) : Type := MemStorage -> MemStorage * (Thrown + A).

Definition ret {A} (a : A) : Action A := fun st => (st, inr a).

Definition throw {A} (e : Thrown) : Action A := fun st => (st, inl e).

Definition bind {A B} (c : Action A) (k : A -> Action B) : Action B :=
  fun st =>
    match c st with
    | (st', inr a) => k a st'
    | (st', inl e) => (st', inl e)
    end.

Definition gets {A} (f : MemStorage -> A) : Action A := fun st => (st, inr (f st)).

Definition modify (f : MemStorage -> MemStorage) : Action unit :=
  fun st => (f st, inr tt).

Declare Scope action_scope.
Delimit Scope action_scope with action.
Notation "x <- c ;; k" := (bind c (fun x => k))
  (at level 61, c at next level, right associativity) : action_scope.
Notation "c ;; k" := (bind c (fun _ => k))
  (at level 61, right associativity) : action_scope.
Local Open Scope action_scope.

Definition set_users (f : JsMap.t User.t -> JsMap.t User.t) (st : MemStorage) : MemStorage :=
  mkMemStorage (f (users st)) (refreshTokens st) (initialized st).

Definition set_refreshTokens (f : JsMap.t RefreshToken.t -> JsMap.t RefreshToken.t)
    (st : MemStorage) : MemStorage :=
  mkMemStorage (users st) (f (refreshTokens st)) (initialized st).

Section Storage.
Context `{Platform}.

Definition adminUser (amb : Ambient) : User.t :=
  User.mk (init_uuid amb) "admin@taskflow.com" "admin"
    (bcrypt_hash "admin123" (init_salt amb)) ADMIN "System" "Admin" (now amb).

Definition ensureInitialized (amb : Ambient) : Action unit :=
  fun st =>
    if initialized st then (st, inr tt)
    else
      let adminUser := adminUser amb in
      (mkMemStorage (JsMap.set (User.id adminUser) adminUser (users st))
         (refreshTokens st) true, inr tt).

Definition toPublicUser (user : User.t) : UserPublic.t :=
  UserPublic.mk (User.id user) (User.email user) (User.username user)
    (User.role user) (User.firstName user) (User.lastName user)
    (User.createdAt user).

Definition getUser (amb : Ambient) (id : string) : Action (option User.t) :=
  ensureInitialized amb ;;
  gets (fun st => JsMap.get id (users st)).

Definition getUserByEmail (amb : Ambient) (email : string) : Action (option User.t) :=
  ensureInitialized amb ;;
  gets (fun st =>
    find (fun user => (Js.toLowerCase (User.email user) =? Js.toLowerCase email)%string)
      (JsMap.values (users st))).

Definition getUserByUsername (amb : Ambient) (username : string) : Action (option User.t) :=
  ensureInitialized amb ;;
  gets (fun st =>
    find (fun user => (Js.toLowerCase (User.username user) =? Js.toLowerCase username)%string)
      (JsMap.values (users st))).

Definition createUser (amb : Ambient) (userData : NewUser.t) : Action User.t :=
  ensureInitialized amb ;;
  let id := user_uuid amb in
  let user :=
    User.mk id (NewUser.email userData) (NewUser.username userData)
      (NewUser.password userData) (NewUser.role userData)
      (NewUser.firstName userData) (NewUser.lastName userData) (now amb) in
  modify (set_users (JsMap.set id user)) ;;
  ret user.

Definition deleteUser (amb : Ambient) (id : string) : Action bool :=
  ensureInitialized amb ;;
  deleted <- gets (fun st => JsMap.has id (users st)) ;;
  modify (set_users (JsMap.delete id)) ;;
  ret deleted.

Definition createRefreshToken (amb : Ambient) (userId token : string) (expiresAt : Date)
  : Action RefreshToken.t :=
  ensureInitialized amb ;;
  let id := token_uuid amb in
  let refreshToken := RefreshToken.mk id userId token expiresAt (now amb) in
  modify (set_refreshTokens (JsMap.set token refreshToken)) ;;
  ret refreshToken.

Definition getRefreshToken (amb : Ambient) (token : string) : Action (option RefreshToken.t) :=
  ensureInitialized amb ;;
  gets (fun st => JsMap.get token (refreshTokens st)).

Definition deleteRefreshToken (amb : Ambient) (token : string) : Action bool :=
  ensureInitialized amb ;;
  deleted <- gets (fun st => JsMap.has token (refreshTokens st)) ;;
  modify (set_refreshTokens (JsMap.delete token)) ;;
  ret deleted.

Definition deleteRefreshTokensByUser (amb : Ambient) (userId : string) : Action bool :=
  ensureInitialized amb ;;
  tokensToDelete <- gets (fun st =>
    filter (fun token => (RefreshToken.userId token =? userId)%string)
      (JsMap.values (refreshTokens st))) ;;
  modify (set_refreshTokens (fun m =>
    fold_left (fun m token => JsMap.delete (RefreshToken.token token) m)
      tokensToDelete m)) ;;
  ret true.

End Storage.

(* ------------------------------------------------------------------ *)
(** ** Requests and responses (Express) *)

Module Cookie.
Record t : Type := mk
  { name : string;
    value : string;
    httpOnly : bool;
    secure : bool;
    sameSite : string;
    maxAge : N }.
End Cookie.

(** The JSON bodies that the modelled routes send. *)
Inductive Json : Type :=
  | JMessage (message : string)
  | JValidation (message : string)
  | JUserAndToken (user : UserPublic.t) (accessToken : string)
  | JAccessToken (accessToken : string)
  | JUser (user : option UserPublic.t).

Module Response.
Record t : Type := mk
  { status : N;
    json : Json;
    cookie : list Cookie.t;
    clearCookie : list string }.
End Response.

(** [res.status(code).json({ message })] *)
Definition send_message (code : N) (message : string) : Response.t :=
  Response.mk code (JMessage message) [] [].

(** The [message] property of a response body, when it has one. *)
Definition message_of (r : Response.t) : option string :=
  match Response.json r with
  | JMessage m | JValidation m => Some m
  | _ => None
  end.

Module Request.
Section WithPlatform.
Context `{Platform}.
Record t : Type := mk
  { ip : string;
    authorization : option string;
    cookies_refreshToken : option string;
    body : Body;
    params_id : string;
    user : option UserPublic.t }.

Definition with_user (req : t) (u : UserPublic.t) : t :=
  mk (ip req) (authorization req) (cookies_refreshToken req) (body req)
    (params_id req) (Some u).
End WithPlatform.
End Request.

(** What a middleware does with a request: it answers, or it calls
    [next()] with the (possibly extended) request. *)
Inductive Outcome `{Platform} : Type :=
  | Respond (res : Response.t)
  | Next (req : Request.t).

(** [server/middleware/errorHandler.ts] *)
Definition errorHandler (err : Thrown) : Response.t :=
  match err with
  | AppError statusCode message => send_message statusCode message
  | ZodError => Response.mk 400 (JValidation "Validation error") [] []
  | OtherError => send_message 500 "Internal server error"
  end.

(* ------------------------------------------------------------------ *)
(** ** Token issuer, auth middleware and role guard
       ([server/middleware/auth.ts]) *)

Section Auth.
Context `{Platform}.

Definition JWT_SECRET : string :=
  if Js.truthy env_SESSION_SECRET
  then match env_SESSION_SECRET with Some s => s | None => EmptyString end
  else "your-super-secret-jwt-key-change-in-production".

(** [expiresIn: "15m"] and [expiresIn: "7d"], in seconds. *)
Definition expiresIn_15m : N := 15 * 60.
Definition expiresIn_7d : N := 7 * 24 * 60 * 60.

Definition generateAccessToken (now : Date) (userId : string) : string :=
  Jwt.sign userId None JWT_SECRET expiresIn_15m now.

Definition generateRefreshToken (now : Date) (userId : string) : string :=
  Jwt.sign userId (Some "refresh") JWT_SECRET expiresIn_7d now.

Definition verifyToken (now : Date) (token : string) : option Jwt.Payload :=
  match Jwt.verify token JWT_SECRET now with
  | inr decoded => Some decoded
  | inl _ => None
  end.

(** The body of the [try] block of [authenticate]. *)
Definition authenticate_try (amb : Ambient) (req : Request.t) : Action Outcome :=
  let authHeader := Request.authorization req in
  match authHeader with
  | None => ret (Respond (send_message 401 "No token provided"))
  | Some header =>
      if negb (Js.truthy authHeader) || negb (Js.startsWith "Bearer " header)
      then ret (Respond (send_message 401 "No token provided"))
      else
        let token := Js.substring 7 header in
        let decoded := verifyToken (now amb) token in
        match decoded with
        | None => ret (Respond (send_message 401 "Invalid or expired token"))
        | Some decoded =>
            user <- getUser amb (Jwt.userId decoded) ;;
            match user with
            | None => ret (Respond (send_message 401 "User not found"))
            | Some user =>
                let publicUser :=
                  UserPublic.mk (User.id user) (User.email user)
                    (User.username user) (User.role user)
                    (User.firstName user) (User.lastName user)
                    (User.createdAt user) in
                ret (Next (Request.with_user req publicUser))
            end
        end
  end.

(** [authenticate]: anything thrown inside the [try] is answered with
    401. *)
Definition authenticate (amb : Ambient) (req : Request.t) (st : MemStorage)
  : MemStorage * Outcome :=
  match authenticate_try amb req st with
  | (st', inr outcome) => (st', outcome)
  | (st', inl _) => (st', Respond (send_message 401 "Authentication failed"))
  end.

(** [roles.includes(role)] *)
Definition includes_role (roles : list UserRole) (role : UserRole) : bool :=
  existsb (UserRole_eqb role) roles.

Definition requireRole (roles : list UserRole) (req : Request.t) : Outcome :=
  match Request.user req with
  | None => Respond (send_message 401 "Not authenticated")
  | Some user =>
      if negb (includes_role roles (UserPublic.role user))
      then Respond (send_message 403 "Insufficient permissions")
      else Next req
  end.

Definition requireAdmin (req : Request.t) : Outcome :=
  match Request.user req with
  | None => Respond (send_message 401 "Not authenticated")
  | Some user =>
      if negb (UserRole_eqb (UserPublic.role user) ADMIN)
      then Respond (send_message 403 "Admin access required")
      else Next req
  end.

End Auth.

(* ------------------------------------------------------------------ *)
(** ** The [express-rate-limit] package

    The default in-memory store keeps, per client key, a hit counter
    and the instant at which it is reset.  A hit on a key that has no
    counter, or whose reset instant has passed, opens a new window of
    [windowMs]; the request is refused once the counter exceeds [max]. *)

Module RateLimit.

Record Options : Type := mkOptions
  { windowMs : N;
    max : N;
    message : string }.

Record Client : Type := mkClient
  { totalHits : N;
    resetTime : Date }.

Definition Store : Type := JsMap.t Client.

Definition current (o : Options) (now : Date) (key : string) (s : Store) : Client :=
  match JsMap.get key s with
  | Some c => if resetTime c <=? now then mkClient 0 (now + windowMs o) else c
  | None => mkClient 0 (now + windowMs o)
  end.

(** [store.increment(key)] *)
Definition increment (o : Options) (now : Date) (key : string) (s : Store)
  : Store * Client :=
  let c := current o now key s in
  let c' := mkClient (totalHits c + 1) (resetTime c) in
  (JsMap.set key c' s, c').

(** The middleware: the new store, and whether the request goes on. *)
Definition hit (o : Options) (now : Date) (key : string) (s : Store)
  : Store * bool :=
  let (s', c) := increment o now key s in
  (s', totalHits c <=? max o).

End RateLimit.

(* ------------------------------------------------------------------ *)
(** ** The auth routes ([server/routes.ts]) *)

Definition authLimiter : RateLimit.Options :=
  RateLimit.mkOptions (15 * 60 * 1000) 20 "Too many requests, please try again later".

Section Routes.
Context `{Platform}.

(** [try { ... } catch (error) { next(error) }] followed by the
    [errorHandler] that [registerRoutes] installs last. *)
Definition handle (h : Action Response.t) (st : MemStorage) : MemStorage * Response.t :=
  match h st with
  | (st', inr res) => (st', res)
  | (st', inl err) => (st', errorHandler err)
  end.

(** [schema.parse(req.body)] *)
Definition parse {A} (parsed : option A) : Action A :=
  match parsed with
  | Some data => ret data
  | None => throw ZodError
  end.

(** The options of [res.cookie("refreshToken", refreshToken, ...)]. *)
Definition refreshTokenCookie (refreshToken : string) : Cookie.t :=
  Cookie.mk "refreshToken" refreshToken true
    (match env_NODE_ENV with
     | Some v => (v =? "production")%string
     | None => false
     end)
    "lax" (7 * 24 * 60 * 60 * 1000).

Definition register_try (amb : Ambient) (req : Request.t) : Action Response.t :=
  data <- parse (registerSchema_parse (Request.body req)) ;;
  existingEmail <- getUserByEmail amb (RegisterInput.email data) ;;
  match existingEmail with
  | Some _ => throw (AppError 400 "Email already registered")
  | None =>
      existingUsername <- getUserByUsername amb (RegisterInput.username data) ;;
      match existingUsername with
      | Some _ => throw (AppError 400 "Username already taken")
      | None =>
          let hashedPassword := bcrypt_hash (RegisterInput.password data) (user_salt amb) in
          user <- createUser amb
                    (NewUser.mk (RegisterInput.email data) (RegisterInput.username data)
                       hashedPassword (RegisterInput.firstName data)
                       (RegisterInput.lastName data) MEMBER) ;;
          let accessToken := generateAccessToken (now amb) (User.id user) in
          let refreshToken := generateRefreshToken (now amb) (User.id user) in
          let expiresAt := addDays 7 (now amb) in
          createRefreshToken amb (User.id user) refreshToken expiresAt ;;
          let publicUser := toPublicUser user in
          ret (Response.mk 201 (JUserAndToken publicUser accessToken)
                 [refreshTokenCookie refreshToken] [])
      end
  end.

(** [POST /api/auth/register] *)
Definition register (amb : Ambient) (req : Request.t) := handle (register_try amb req).

Definition login_try (amb : Ambient) (req : Request.t) : Action Response.t :=
  data <- parse (loginSchema_parse (Request.body req)) ;;
  user <- getUserByEmail amb (LoginInput.email data) ;;
  match user with
  | None => throw (AppError 401 "Invalid email or password")
  | Some user =>
      let validPassword := bcrypt_compare (LoginInput.password data) (User.password user) in
      if negb validPassword then throw (AppError 401 "Invalid email or password")
      else
        deleteRefreshTokensByUser amb (User.id user) ;;
        let accessToken := generateAccessToken (now amb) (User.id user) in
        let refreshToken := generateRefreshToken (now amb) (User.id user) in
        let expiresAt := addDays 7 (now amb) in
        createRefreshToken amb (User.id user) refreshToken expiresAt ;;
        let publicUser := toPublicUser user in
        ret (Response.mk 200 (JUserAndToken publicUser accessToken)
               [refreshTokenCookie refreshToken] [])
  end.

(** [POST /api/auth/login] *)
Definition login (amb : Ambient) (req : Request.t) := handle (login_try amb req).

Definition refresh_try (amb : Ambient) (req : Request.t) : Action Response.t :=
  match Request.cookies_refreshToken req with
  | None => throw (AppError 401 "No refresh token provided")
  | Some refreshToken =>
      if negb (Js.truthy (Some refreshToken))
      then throw (AppError 401 "No refresh token provided")
      else
        storedToken <- getRefreshToken amb refreshToken ;;
        match storedToken with
        | None => throw (AppError 401 "Invalid refresh token")
        | Some storedToken =>
            if RefreshToken.expiresAt storedToken <? now amb then
              deleteRefreshToken amb refreshToken ;;
              throw (AppError 401 "Refresh token expired")
            else
              match verifyToken (now amb) refreshToken with
              | None =>
                  deleteRefreshToken amb refreshToken ;;
                  throw (AppError 401 "Invalid refresh token")
              | Some decoded =>
                  user <- getUser amb (Jwt.userId decoded) ;;
                  match user with
                  | None => throw (AppError 401 "User not found")
                  | Some user =>
                      let accessToken := generateAccessToken (now amb) (User.id user) in
                      ret (Response.mk 200 (JAccessToken accessToken) [] [])
                  end
              end
        end
  end.

(** [POST /api/auth/refresh] *)
Definition refresh (amb : Ambient) (req : Request.t) := handle (refresh_try amb req).

Definition logout_try (amb : Ambient) (req : Request.t) : Action Response.t :=
  (match Request.cookies_refreshToken req with
   | Some refreshToken =>
       if Js.truthy (Some refreshToken)
       then deleteRefreshToken amb refreshToken ;; ret tt
       else ret tt
   | None => ret tt
   end) ;;
  (match Request.user req with
   | Some user => deleteRefreshTokensByUser amb (UserPublic.id user) ;; ret tt
   | None => ret tt
   end) ;;
  ret (Response.mk 200 (JMessage "Logged out successfully") [] ["refreshToken"]).

(** [POST /api/auth/logout] *)
Definition logout (amb : Ambient) (req : Request.t) := handle (logout_try amb req).

(** [GET /api/auth/me] *)
Definition me (req : Request.t) (st : MemStorage) : MemStorage * Response.t :=
  (st, Response.mk 200 (JUser (Request.user req)) [] []).

Definition deleteUserById_try (amb : Ambient) (req : Request.t) : Action Response.t :=
  if match Request.user req with
     | Some user => (UserPublic.id user =? Request.params_id req)%string
     | None => false
     end
  then throw (AppError 400 "Cannot delete your own account")
  else
    deleted <- deleteUser amb (Request.params_id req) ;;
    if negb deleted then throw (AppError 404 "User not found")
    else
      deleteRefreshTokensByUser amb (Request.params_id req) ;;
      ret (send_message 200 "User deleted successfully").

(** [DELETE /api/users/:id] *)
Definition deleteUserById (amb : Ambient) (req : Request.t) :=
  handle (deleteUserById_try amb req).

(** *** The application: routes, their middleware chains, dispatch

    The five auth routes and the admin delete of a user, with the rate
    limiter; the other user routes and the task routes follow further
    down, with their middleware as [behind_authenticate] and
    [behind_requireAdmin]. *)

Inductive Route : Type :=
  | POST_auth_register
  | POST_auth_login
  | POST_auth_refresh
  | POST_auth_logout
  | GET_auth_me
  | DELETE_users_id.

Inductive Middleware : Type :=
  | UseAuthLimiter
  | UseAuthenticate
  | UseRequireAdmin.

(** The middleware that each [app.METHOD(path, ...)] call lists before
    its handler. *)
Definition middlewares (r : Route) : list Middleware :=
  match r with
  | POST_auth_register => [UseAuthLimiter]
  | POST_auth_login => [UseAuthLimiter]
  | POST_auth_refresh => [UseAuthLimiter]
  | POST_auth_logout => [UseAuthenticate]
  | GET_auth_me => [UseAuthenticate]
  | DELETE_users_id => [UseAuthenticate; UseRequireAdmin]
  end.

Definition handler (r : Route) (amb : Ambient) (req : Request.t)
  : MemStorage -> MemStorage * Response.t :=
  match r with
  | POST_auth_register => register amb req
  | POST_auth_login => login amb req
  | POST_auth_refresh => refresh amb req
  | POST_auth_logout => logout amb req
  | GET_auth_me => me req
  | DELETE_users_id => deleteUserById amb req
  end.

(** The process state: the [storage] singleton and the counters of
    [authLimiter]. *)
Record Server : Type := mkServer
  { storage : MemStorage;
    limiter : RateLimit.Store }.

Definition Server_new : Server := mkServer MemStorage_new JsMap.empty.

Definition run_middleware (m : Middleware) (amb : Ambient) (req : Request.t)
    (srv : Server) : Server * Outcome :=
  match m with
  | UseAuthLimiter =>
      let (l', pass) := RateLimit.hit authLimiter (now amb) (Request.ip req) (limiter srv) in
      (mkServer (storage srv) l',
       if pass then Next req
       else Respond (send_message 429 (RateLimit.message authLimiter)))
  | UseAuthenticate =>
      let (st', o) := authenticate amb req (storage srv) in
      (mkServer st' (limiter srv), o)
  | UseRequireAdmin => (srv, requireAdmin req)
  end.

Fixpoint run_chain (ms : list Middleware) (amb : Ambient) (req : Request.t)
    (srv : Server) : Server * Outcome :=
  match ms with
  | [] => (srv, Next req)
  | m :: ms' =>
      match run_middleware m amb req srv with
      | (srv', Next req') => run_chain ms' amb req' srv'
      | (srv', Respond res) => (srv', Respond res)
      end
  end.

(** One request, from the first middleware of its route to the response. *)
Definition dispatch (r : Route) (amb : Ambient) (req : Request.t) (srv : Server)
  : Server * Response.t :=
  match run_chain (middlewares r) amb req srv with
  | (srv', Respond res) => (srv', res)
  | (srv', Next req') =>
      let (st', res) := handler r amb req' (storage srv') in
      (mkServer st' (limiter srv'), res)
  end.

End Routes.

(* ------------------------------------------------------------------ *)
(** ** A concrete platform, for running the model on examples *)

Module Demo.

(** A 32-bit rolling checksum of key and message stands in for the MAC. *)
Fixpoint checksum (acc : N) (s : string) : N :=
  match s with
  | EmptyString => acc
  | String c r => checksum ((acc * 31 + N_of_ascii c) mod 4294967296) r
  end.

Definition hmac (key message : string) : string :=
  Codec.dec (checksum (checksum 7 key) message).

Definition hash (plaintext salt : string) : string := salt ++ "$" ++ plaintext.

Definition compare (plaintext hashed : string) : bool :=
  match Js.split "$"%char hashed with
  | [_; p] => (p =? plaintext)%string
  | _ => false
  end.

(** The fold of the letters [A]..[Z] stands in for [toLowerCase]: it is
    what [toLowerCase] does to text in ASCII. *)
Definition lower_ascii (c : ascii) : ascii :=
  let n := N_of_ascii c in
  if (65 <=? n) && (n <=? 90) then ascii_of_N (n + 32) else c.

Fixpoint fold (s : string) : string :=
  match s with
  | EmptyString => EmptyString
  | String c s' => String (lower_ascii c) (fold s')
  end.

Definition fold_empty (s : string) : fold s = EmptyString <-> s = EmptyString :=
  match s with
  | EmptyString => conj (fun _ => eq_refl) (fun _ => eq_refl)
  | String c s' =>
      conj (fun e : fold (String c s') = EmptyString =>
              match e in _ = x
                    return match x with EmptyString => String c s' = EmptyString | _ => True end
              with eq_refl => I end)
           (fun e : String c s' = EmptyString =>
              match e in _ = x
                    return match x with
                           | EmptyString => fold (String c s') = EmptyString
                           | _ => True
                           end
              with eq_refl => I end)
  end.

#[export] Instance runtime : Js.Runtime :=
  {| Js.toLowerCase := fold; Js.toLowerCase_empty := fold_empty |}.

(** A time zone without daylight saving stands in for the local one: a
    calendar day is 86 400 000 ms. *)
Definition plus_days (days : N) (d : Date) : Date := d + days * 86400000.

(** An address with an [@] stands in for Zod's email format. *)
Definition email_format (s : string) : bool := Js.includes "@"%char s.

Inductive body : Type :=
  | NoBody
  | RegisterBody (data : RegisterInput.t)
  | LoginBody (data : LoginInput.t).

#[export] Instance platform : Platform :=
  {| hmac_sha256 := hmac;
     bcrypt_hash := hash;
     bcrypt_compare := compare;
     env_SESSION_SECRET := None;
     env_NODE_ENV := Some "production";
     addDays := plus_days;
     Body := body;
     is_email := email_format;
     register_fields := fun b =>
       match b with RegisterBody data => Some data | _ => None end;
     login_fields := fun b =>
       match b with LoginBody data => Some data | _ => None end |}.

Definition request (ip : string) (authorization cookie : option string) (b : body)
    (param : string) : Request.t :=
  Request.mk ip authorization cookie b param None.

Definition ambient (t : Date) (tag : string) : Ambient :=
  mkAmbient t "uuid-admin" "salt0" ("uuid-" ++ tag) ("salt-" ++ tag) ("rt-" ++ tag).

Definition alice : RegisterInput.t :=
  RegisterInput.mk "a@x.com" "alice" "password123" "A" "L".

(** The store after Alice registered at instant 1000. *)
Definition store1 : MemStorage :=
  fst (register (ambient 1000 "alice") (request "10.0.0.1" None None (RegisterBody alice) "")
         MemStorage_new).

Definition alice_access : string := generateAccessToken 1000 "uuid-alice".
Definition alice_refresh : string := generateRefreshToken 1000 "uuid-alice".
Definition admin_access : string := generateAccessToken 2000 "uuid-admin".

Definition member_request : Request.t :=
  Request.with_user (request "10.0.0.1" None None NoBody "")
    (UserPublic.mk "uuid-alice" "a@x.com" "alice" MEMBER "A" "L" 1000).

Definition admin_request : Request.t :=
  Request.with_user (request "10.0.0.1" None None NoBody "")
    (UserPublic.mk "uuid-admin" "admin@taskflow.com" "admin" ADMIN "System" "Admin" 1000).

(** A request that carries only the refresh-token cookie. *)
Definition refresh_request (cookie : option string) : Request.t :=
  request "10.0.0.1" None cookie NoBody "".

(** [store1] with Alice's user record removed and the token row left. *)
Definition store_orphan : MemStorage :=
  set_users (JsMap.delete "uuid-alice") store1.

(** The server after Alice registered at instant 1000, and after the
    seeded administrator deleted that account at instant 2000. *)
Definition server1 : Server :=
  fst (dispatch POST_auth_register (ambient 1000 "alice")
         (request "10.0.0.1" None None (RegisterBody alice) "") Server_new).

Definition delete_alice : Request.t :=
  request "10.0.0.9" (Some ("Bearer " ++ admin_access)%string) None NoBody "uuid-alice".

Definition server2 : Server :=
  fst (dispatch DELETE_users_id (ambient 2000 "del") delete_alice server1).

(** A login attempt with a wrong password from a client that has not
    been seen before, and a logout by Alice, as entries of a request
    sequence. *)
Definition wrong_login (t : Date) : Route * Ambient * Request.t :=
  (POST_auth_login, ambient t "login",
   request "10.0.0.7" None None (LoginBody (LoginInput.mk "a@x.com" "nope")) "").


End Demo.

(* ------------------------------------------------------------------ *)
(** ** Vocabulary of the statements *)

(** The separators of the token format. *)
Definition separator (c : ascii) : Prop := c = ","%char \/ c = "."%char.

(** The instant, in milliseconds, at which a token issued at [issued]
    with a lifetime of [expiresIn] seconds expires: the [exp] claim. *)
Definition expiryInstant (issued : Date) (expiresIn : N) : Date :=
  (issued / 1000 + expiresIn) * 1000.

(** The ways in which a token string can fail [jwt.verify] at the clock
    reading [now]: it is malformed (not three segments, or a header or
    payload that does not decode), its signature is not the one the
    secret gives, or its [exp] claim has been reached. *)
Inductive Defect `{Platform} (now : Date) (token : string) : Prop :=
  | NotThreeSegments :
      (forall h p s, Js.split "."%char token <> [h; p; s]) -> Defect now token
  | Undecodable (h p s : string) :
      Js.split "."%char token = [h; p; s] ->
      h <> Jwt.header \/ Jwt.decode_payload p = None -> Defect now token
  | BadSignature (h p s : string) :
      Js.split "."%char token = [h; p; s] ->
      s <> Jwt.signature JWT_SECRET (h ++ "." ++ p) -> Defect now token
  | Expired (h p s : string) (payload : Jwt.Payload) :
      Js.split "."%char token = [h; p; s] ->
      Jwt.decode_payload p = Some payload ->
      Jwt.exp payload * 1000 <= now -> Defect now token.

(** The store once [ensureInitialized] has run. *)
Definition initialize `{Platform} (amb : Ambient) (st : MemStorage) : MemStorage :=
  fst (ensureInitialized amb st).

(** The answer of a middleware that refuses with 401: a response, so
    [next()] is not called. *)
Definition rejects401 `{Platform} (o : Outcome) : Prop :=
  exists message, o = Respond (send_message 401 message).

(** What a middleware leaves for the rest of the pipeline: the response
    it sent, or the identity attached to the request it passed on. *)
Definition verdict `{Platform} (o : Outcome) : Response.t + option UserPublic.t :=
  match o with
  | Respond res => inl res
  | Next req => inr (Request.user req)
  end.

(** Every entry of the map is filed under the key that [key] reads off
    its value. *)
Definition filed_under {V} (key : V -> string) (m : JsMap.t V) : Prop :=
  forall k v, In (k, v) m -> key v = k.

(** The store is a pair of proper maps: no key occurs twice, a user is
    filed under its id and a refresh token under its token string.  The
    store methods keep it so (see [dispatch_wf]). *)
Record wf_store (st : MemStorage) : Prop := mk_wf_store
  { users_unique : NoDup (JsMap.keys (users st));
    users_by_id : filed_under User.id (users st);
    tokens_unique : NoDup (JsMap.keys (refreshTokens st));
    tokens_by_token : filed_under RefreshToken.token (refreshTokens st) }.

(** The refresh token rows owned by a user. *)
Definition owned_by (userId : string) (token : RefreshToken.t) : bool :=
  (RefreshToken.userId token =? userId)%string.

Definition tokensOf (userId : string) (st : MemStorage) : list RefreshToken.t :=
  filter (owned_by userId) (JsMap.values (refreshTokens st)).

(** The map without the rows of [userId], as [deleteRefreshTokensByUser]
    computes it. *)
Definition without_tokens_of (userId : string) (m : JsMap.t RefreshToken.t)
  : JsMap.t RefreshToken.t :=
  fold_left (fun m token => JsMap.delete (RefreshToken.token token) m)
    (filter (owned_by userId) (JsMap.values m)) m.

(** The tests of [getUserByEmail] and [getUserByUsername]: equality
    after [toLowerCase] on both sides. *)
Definition by_email `{Js.Runtime} (email : string) (user : User.t) : bool :=
  (Js.toLowerCase (User.email user) =? Js.toLowerCase email)%string.

Definition by_username `{Js.Runtime} (username : string) (user : User.t) : bool :=
  (Js.toLowerCase (User.username user) =? Js.toLowerCase username)%string.

(** The states of the server: the fresh process, and whatever a request
    leaves. *)
Inductive reachable `{Platform} : Server -> Prop :=
  | reachable_new : reachable Server_new
  | reachable_step (r : Route) (amb : Ambient) (req : Request.t) (srv : Server) :
      reachable srv -> reachable (fst (dispatch r amb req srv)).



(** Requests served one after the other, with their responses. *)
Fixpoint serve `{Platform} (reqs : list (Route * Ambient * Request.t)) (srv : Server)
  : Server * list Response.t :=
  match reqs with
  | [] => (srv, [])
  | (r, amb, req) :: rest =>
      let (srv', res) := dispatch r amb req srv in
      let (srv'', out) := serve rest srv' in
      (srv'', res :: out)
  end.

(* ------------------------------------------------------------------ *)
(** ** More examples on the concrete platform *)

Module Fixtures.

#[local] Existing Instance Demo.runtime.
#[local] Existing Instance Demo.platform.

Definition bob : RegisterInput.t :=
  RegisterInput.mk "bob@x.com" "bob" "hunter2hunter2" "B" "O".

(** The store after Alice (instant 1000) and Bob (instant 2000)
    registered. *)
Definition store2 : MemStorage :=
  fst (register (Demo.ambient 2000 "bob")
         (Demo.request "10.0.0.2" None None (Demo.RegisterBody bob) "") Demo.store1).

Definition bob_refresh : string := generateRefreshToken 2000 "uuid-bob".

Definition alice_public : UserPublic.t :=
  UserPublic.mk "uuid-alice" "a@x.com" "alice" MEMBER "A" "L" 1000.

Definition alice_user : User.t :=
  User.mk "uuid-alice" "a@x.com" "alice" "salt-alice$password123" MEMBER "A" "L" 1000.

End Fixtures.

Module Fixtures2.

#[local] Existing Instance Demo.runtime.
#[local] Existing Instance Demo.platform.

Definition register_bob : Request.t :=
  Demo.request "10.0.0.2" None None (Demo.RegisterBody Fixtures.bob) "".

Definition login_as (email password : string) : Request.t :=
  Demo.request "10.0.0.2" None None (Demo.LoginBody (LoginInput.mk email password)) "".

Definition bearer (token : string) : Request.t :=
  Demo.request "10.0.0.2" (Some ("Bearer " ++ token)%string) None Demo.NoBody "".

Definition bob_public : UserPublic.t :=
  UserPublic.mk "uuid-bob" "bob@x.com" "bob" MEMBER "B" "O" 2000.

End Fixtures2.

(* ------------------------------------------------------------------ *)
(** ** The credential store, continued: updates and listings
       ([server/storage.ts]) *)

From Stdlib Require Import ZArith Sorted Permutation.

(** [Partial<Omit<User, "id" | "createdAt">>]: the properties that are
    present carry a value. *)
Module UserPatch.
Record t : Type := mk
  { email : option string;
    username : option string;
    password : option string;
    role : option UserRole;
    firstName : option string;
    lastName : option string }.

Definition empty : t := mk None None None None None None.
End UserPatch.

(** [{ ...user, ...data }] *)
Definition spread_user (user : User.t) (data : UserPatch.t) : User.t :=
  let pick {A} (o : option A) (d : A) := match o with Some v => v | None => d end in
  User.mk (User.id user)
    (pick (UserPatch.email data) (User.email user))
    (pick (UserPatch.username data) (User.username user))
    (pick (UserPatch.password data) (User.password user))
    (pick (UserPatch.role data) (User.role user))
    (pick (UserPatch.firstName data) (User.firstName user))
    (pick (UserPatch.lastName data) (User.lastName user))
    (User.createdAt user).

(** The JavaScript numbers of the listings: the values that [parseInt]
    gives (an integer, an infinity for a long run of digits, or [NaN])
    and what the arithmetic of a page makes of them.  An integer stands
    for the double that denotes it and zero for both zeros, which the
    listings do not tell apart; a product or a sum that the code rounds
    is beyond 2^53 in size, where [slice] clamps it to the array all the
    same. *)
Inductive JsNumber : Type :=
  | Finite (z : Z)
  | PlusInfinity
  | MinusInfinity
  | NaN.

(** [a - 1] *)
Definition js_pred (a : JsNumber) : JsNumber :=
  match a with
  | Finite z => Finite (z - 1)%Z
  | _ => a
  end.

(** The sign of a number that is neither zero nor [NaN]. *)
Definition js_negative (a : JsNumber) : bool :=
  match a with
  | Finite z => (z <? 0)%Z
  | MinusInfinity => true
  | _ => false
  end.

(** The product of a finite number and an infinity: zero times an
    infinity is [NaN]. *)
Definition js_scale (x : Z) (infinity : JsNumber) : JsNumber :=
  if (x =? 0)%Z then NaN
  else if xorb (x <? 0)%Z (js_negative infinity) then MinusInfinity
  else PlusInfinity.

(** [a * b] *)
Definition js_mul (a b : JsNumber) : JsNumber :=
  match a, b with
  | Finite x, Finite y => Finite (x * y)%Z
  | NaN, _ | _, NaN => NaN
  | Finite x, _ => js_scale x b
  | _, Finite y => js_scale y a
  | _, _ => if xorb (js_negative a) (js_negative b) then MinusInfinity else PlusInfinity
  end.

(** [a + b]: the sum of the two infinities is [NaN]. *)
Definition js_add (a b : JsNumber) : JsNumber :=
  match a, b with
  | Finite x, Finite y => Finite (x + y)%Z
  | NaN, _ | _, NaN => NaN
  | PlusInfinity, MinusInfinity | MinusInfinity, PlusInfinity => NaN
  | PlusInfinity, _ | _, PlusInfinity => PlusInfinity
  | MinusInfinity, _ | _, MinusInfinity => MinusInfinity
  end.

(** [Math.ceil(total / limit)] for an integer [total >= 0]. *)
Definition ceil_div (total : Z) (limit : JsNumber) : JsNumber :=
  match limit with
  | Finite l =>
      if (l =? 0)%Z then (if (total =? 0)%Z then NaN else PlusInfinity)
      else Finite (- ((- total) / l))%Z
  | PlusInfinity | MinusInfinity => Finite 0%Z
  | NaN => NaN
  end.

(** [n || 1] *)
Definition or_one (n : JsNumber) : JsNumber :=
  match n with
  | Finite 0%Z | NaN => Finite 1%Z
  | _ => n
  end.

(** The index that [slice] makes of an argument, for an array of
    length [len]: [NaN] counts as 0, a negative index counts from the
    end, and the result is clamped to the array. *)
Definition slice_index (len : Z) (n : JsNumber) : Z :=
  match n with
  | Finite i => if (i <? 0)%Z then Z.max (len + i) 0 else Z.min i len
  | PlusInfinity => len
  | MinusInfinity | NaN => 0%Z
  end.

(** [array.slice(start, end)] *)
Definition slice {A} (start stop : JsNumber) (l : list A) : list A :=
  let len := Z.of_nat (List.length l) in
  let k := slice_index len start in
  let final := slice_index len stop in
  firstn (Z.to_nat (final - k)) (skipn (Z.to_nat k) l).

(** [array.sort(compare)]: the sort is stable, so for a comparator that
    orders by a key the result is the one of a stable insertion sort;
    [before a b] says that [compare(a, b) <= 0]. *)
Section Sort.
Context {A : Type} (before : A -> A -> bool).

Fixpoint insert_sorted (x : A) (l : list A) : list A :=
  match l with
  | [] => [x]
  | y :: l' => if before x y then x :: l else y :: insert_sorted x l'
  end.

Definition sort (l : list A) : list A := fold_right insert_sorted [] l.

End Sort.

(** [PaginatedResponse<T>] *)
Module Paginated.
Record t (A : Type) : Type := mk
  { data : list A;
    total : Z;
    page : JsNumber;
    limit : JsNumber;
    totalPages : JsNumber }.
Arguments mk {A}.
Arguments data {A}.
Arguments total {A}.
Arguments page {A}.
Arguments limit {A}.
Arguments totalPages {A}.
End Paginated.

Section StorageUsers.
Context `{Platform}.

Definition updateUser (amb : Ambient) (id : string) (data : UserPatch.t)
  : Action (option User.t) :=
  ensureInitialized amb ;;
  user <- gets (fun st => JsMap.get id (users st)) ;;
  match user with
  | None => ret None
  | Some user =>
      let updatedUser := spread_user user data in
      modify (set_users (JsMap.set id updatedUser)) ;;
      ret (Some updatedUser)
  end.

(** The comparator of the listings: [b.createdAt - a.createdAt], which
    is [<= 0] when [a] is at least as recent as [b]. *)
Definition newest_first (a b : User.t) : bool :=
  (User.createdAt b <=? User.createdAt a).

Definition getAllUsers (amb : Ambient) (page limit : JsNumber)
  : Action (Paginated.t UserPublic.t) :=
  ensureInitialized amb ;;
  allUsers <- gets (fun st => sort newest_first (JsMap.values (users st))) ;;
  let total := Z.of_nat (List.length allUsers) in
  let totalPages := ceil_div total limit in
  let offset := js_mul (js_pred page) limit in
  let data := map toPublicUser (slice offset (js_add offset limit) allUsers) in
  ret (Paginated.mk data total page limit totalPages).

End StorageUsers.

(** The [data] of the page that a listing returns. *)
Definition page_data {S A} (r : S * (Thrown + Paginated.t A)) : list A :=
  match snd r with
  | inr listing => Paginated.data listing
  | inl _ => []
  end.

(* ------------------------------------------------------------------ *)
(** ** The user routes ([server/routes.ts]) and their schemas
       ([shared/schema.ts])

    The schemas are translated as they are written, like
    [registerSchema] and [loginSchema] above. *)

(** The value that [createUserSchema.parse] returns. *)
Module CreateUserInput.
Record t : Type := mk
  { email : string;
    username : string;
    password : string;
    firstName : string;
    lastName : string;
    role : UserRole }.
End CreateUserInput.

(** The value that [updateUserSchema.parse] returns; a property that is
    absent is [None].  The schema has no [password], and Zod drops the
    properties of the body that the schema does not name. *)
Module UpdateUserInput.
Record t : Type := mk
  { email : option string;
    username : option string;
    firstName : option string;
    lastName : option string;
    role : option UserRole }.
End UpdateUserInput.

(** The value that [updateProfileSchema.parse] returns; a property that
    is absent is [None]. *)
Module ProfileInput.
Record t : Type := mk
  { email : option string;
    username : option string;
    firstName : option string;
    lastName : option string;
    currentPassword : option string;
    newPassword : option string }.
End ProfileInput.

(** What the Zod schemas of the user routes take from the library:
    [..._fields] reads [req.body] as an object with the properties of
    the schema, each a string (a role for [z.enum]) or absent; it is
    [None] when a property has another type or a required one is
    missing. *)
Class UserSchemas `{Platform} : Type :=
  { createUser_fields : Body -> option CreateUserInput.t;
    updateUser_fields : Body -> option UpdateUserInput.t;
    updateProfile_fields : Body -> option ProfileInput.t }.

(** [check.optional()]: an absent property passes. *)
Definition optional {A} (check : A -> bool) (v : option A) : bool :=
  match v with
  | Some x => check x
  | None => true
  end.

Section UserSchemaDefs.
Context `{UserSchemas}.

(** [createUserSchema] ([shared/schema.ts]) *)
Definition createUserSchema_parse (body : Body) : option CreateUserInput.t :=
  match createUser_fields body with
  | Some data =>
      if is_email (CreateUserInput.email data)
         && min_length 3 (CreateUserInput.username data)
         && min_length 8 (CreateUserInput.password data)
         && min_length 1 (CreateUserInput.firstName data)
         && min_length 1 (CreateUserInput.lastName data)
      then Some data else None
  | None => None
  end.

(** [updateUserSchema] *)
Definition updateUserSchema_parse (body : Body) : option UpdateUserInput.t :=
  match updateUser_fields body with
  | Some data =>
      if optional is_email (UpdateUserInput.email data)
         && optional (min_length 3) (UpdateUserInput.username data)
         && optional (min_length 1) (UpdateUserInput.firstName data)
         && optional (min_length 1) (UpdateUserInput.lastName data)
      then Some data else None
  | None => None
  end.

(** [updateProfileSchema]: the checks of the properties, then the
    [refine] on the whole object. *)
Definition updateProfileSchema_parse (body : Body) : option ProfileInput.t :=
  match updateProfile_fields body with
  | Some data =>
      if optional is_email (ProfileInput.email data)
         && optional (min_length 3) (ProfileInput.username data)
         && optional (min_length 1) (ProfileInput.firstName data)
         && optional (min_length 1) (ProfileInput.lastName data)
         && optional (min_length 8) (ProfileInput.newPassword data)
         && negb (Js.truthy (ProfileInput.newPassword data)
                  && negb (Js.truthy (ProfileInput.currentPassword data)))
      then Some data else None
  | None => None
  end.

End UserSchemaDefs.

(** The object that [PATCH /api/users/:id] hands to [updateUser]: the
    parsed body as it is. *)
Definition patch_of_update (data : UpdateUserInput.t) : UserPatch.t :=
  UserPatch.mk (UpdateUserInput.email data) (UpdateUserInput.username data) None
    (UpdateUserInput.role data) (UpdateUserInput.firstName data)
    (UpdateUserInput.lastName data).

(** The query string of a listing, after [parseInt]: an absent
    parameter gives [NaN], like one that starts with no digit; [status]
    is taken as it is. *)
Module Query.
Record t : Type := mk
  { page : JsNumber;
    limit : JsNumber;
    status : option string }.
End Query.

(** [parseInt(...) || fallback]: zero and [NaN] are falsy. *)
Definition or_default (parsed : JsNumber) (fallback : Z) : JsNumber :=
  match parsed with
  | Finite 0%Z | NaN => Finite fallback
  | _ => parsed
  end.

(** A property of an object that is written only when the value is
    truthy: [if (v) updateData.k = v]. *)
Definition when_truthy (v : option string) : option string :=
  if Js.truthy v then v else None.

Section UserRoutes.
Context `{UserSchemas}.

(** [GET /api/users] *)
Definition listUsers_try (amb : Ambient) (query : Query.t)
  : Action (Paginated.t UserPublic.t) :=
  let page := or_default (Query.page query) 1 in
  let limit := or_default (Query.limit query) 10 in
  getAllUsers amb page limit.

(** [GET /api/users] with its [try]/[catch]: the listing, sent with
    [res.json], or what the error handler sends. *)
Definition listUsers (amb : Ambient) (query : Query.t) (st : MemStorage)
  : MemStorage * (Response.t + Paginated.t UserPublic.t) :=
  match listUsers_try amb query st with
  | (st', inr listing) => (st', inr listing)
  | (st', inl err) => (st', inl (errorHandler err))
  end.

(** [GET /api/users/:id] *)
Definition getUserById_try (amb : Ambient) (req : Request.t) : Action Response.t :=
  user <- getUser amb (Request.params_id req) ;;
  match user with
  | None => throw (AppError 404 "User not found")
  | Some user => ret (Response.mk 200 (JUser (Some (toPublicUser user))) [] [])
  end.

Definition getUserById (amb : Ambient) (req : Request.t) := handle (getUserById_try amb req).

(** [POST /api/users] *)
Definition createUserByAdmin_try (amb : Ambient) (req : Request.t) : Action Response.t :=
  data <- parse (createUserSchema_parse (Request.body req)) ;;
  existingEmail <- getUserByEmail amb (CreateUserInput.email data) ;;
  match existingEmail with
  | Some _ => throw (AppError 400 "Email already registered")
  | None =>
      existingUsername <- getUserByUsername amb (CreateUserInput.username data) ;;
      match existingUsername with
      | Some _ => throw (AppError 400 "Username already taken")
      | None =>
          let hashedPassword := bcrypt_hash (CreateUserInput.password data) (user_salt amb) in
          user <- createUser amb
                    (NewUser.mk (CreateUserInput.email data) (CreateUserInput.username data)
                       hashedPassword (CreateUserInput.firstName data)
                       (CreateUserInput.lastName data) (CreateUserInput.role data)) ;;
          ret (Response.mk 201 (JUser (Some (toPublicUser user))) [] [])
      end
  end.

Definition createUserByAdmin (amb : Ambient) (req : Request.t) :=
  handle (createUserByAdmin_try amb req).

(** The two uniqueness checks that the update routes share:
    [if (v && v !== current) { if (await lookup(v)) throw ... }]. *)
Definition check_free (v : option string) (current : string)
    (lookup : string -> Action (option User.t)) (message : string) : Action unit :=
  match v with
  | Some value =>
      if Js.truthy v && negb (value =? current)%string then
        found <- lookup value ;;
        match found with
        | Some _ => throw (AppError 400 message)
        | None => ret tt
        end
      else ret tt
  | None => ret tt
  end.

(** [PATCH /api/users/profile] *)
Definition updateProfile_try (amb : Ambient) (req : Request.t) : Action Response.t :=
  data <- parse (updateProfileSchema_parse (Request.body req)) ;;
  match Request.user req with
  | None => throw OtherError
  | Some principal =>
      let userId := UserPublic.id principal in
      existingUser <- getUser amb userId ;;
      match existingUser with
      | None => throw (AppError 404 "User not found")
      | Some existingUser =>
          check_free (ProfileInput.email data) (User.email existingUser)
            (getUserByEmail amb) "Email already registered" ;;
          check_free (ProfileInput.username data) (User.username existingUser)
            (getUserByUsername amb) "Username already taken" ;;
          let updateData :=
            UserPatch.mk (when_truthy (ProfileInput.email data))
              (when_truthy (ProfileInput.username data)) None None
              (when_truthy (ProfileInput.firstName data))
              (when_truthy (ProfileInput.lastName data)) in
          updateData <-
            (if Js.truthy (ProfileInput.newPassword data) then
               match ProfileInput.currentPassword data, ProfileInput.newPassword data with
               | Some currentPassword, Some newPassword =>
                   if negb (Js.truthy (Some currentPassword))
                   then throw (AppError 400 "Current password is required")
                   else
                     let validPassword :=
                       bcrypt_compare currentPassword (User.password existingUser) in
                     if negb validPassword
                     then throw (AppError 400 "Current password is incorrect")
                     else ret (UserPatch.mk (UserPatch.email updateData)
                                 (UserPatch.username updateData)
                                 (Some (bcrypt_hash newPassword (user_salt amb)))
                                 None
                                 (UserPatch.firstName updateData)
                                 (UserPatch.lastName updateData))
               | _, _ => throw (AppError 400 "Current password is required")
               end
             else ret updateData) ;;
          updatedUser <- updateUser amb userId updateData ;;
          match updatedUser with
          | None => throw (AppError 404 "User not found")
          | Some updatedUser =>
              ret (Response.mk 200 (JUser (Some (toPublicUser updatedUser))) [] [])
          end
      end
  end.

Definition updateProfile (amb : Ambient) (req : Request.t) :=
  handle (updateProfile_try amb req).

(** [PATCH /api/users/:id] *)
Definition updateUserById_try (amb : Ambient) (req : Request.t) : Action Response.t :=
  data <- parse (updateUserSchema_parse (Request.body req)) ;;
  existingUser <- getUser amb (Request.params_id req) ;;
  match existingUser with
  | None => throw (AppError 404 "User not found")
  | Some existingUser =>
      check_free (UpdateUserInput.email data) (User.email existingUser)
        (getUserByEmail amb) "Email already registered" ;;
      check_free (UpdateUserInput.username data) (User.username existingUser)
        (getUserByUsername amb) "Username already taken" ;;
      updatedUser <- updateUser amb (Request.params_id req) (patch_of_update data) ;;
      match updatedUser with
      | None => throw (AppError 404 "User not found")
      | Some updatedUser =>
          ret (Response.mk 200 (JUser (Some (toPublicUser updatedUser))) [] [])
      end
  end.

Definition updateUserById (amb : Ambient) (req : Request.t) :=
  handle (updateUserById_try amb req).

End UserRoutes.

(** Whether a uniqueness check of the update routes throws: the value
    is truthy, differs from the current one, and [matches] finds a user
    of the store. *)
Definition taken (matches : string -> User.t -> bool) (v : option string)
    (current : string) (st : MemStorage) : bool :=
  match v with
  | Some value =>
      Js.truthy v && negb (value =? current)%string
      && match find (matches value) (JsMap.values (users st)) with
         | Some _ => true
         | None => false
         end
  | None => false
  end.

(** The [updateData] that [PATCH /api/users/profile] builds for the
    stored user [existingUser], or what it throws on the way. *)
Definition profile_patch `{Platform} (amb : Ambient) (data : ProfileInput.t)
    (existingUser : User.t) : Thrown + UserPatch.t :=
  let updateData (password : option string) :=
    UserPatch.mk (when_truthy (ProfileInput.email data))
      (when_truthy (ProfileInput.username data)) password None
      (when_truthy (ProfileInput.firstName data))
      (when_truthy (ProfileInput.lastName data)) in
  match ProfileInput.newPassword data with
  | Some newPassword =>
      if Js.truthy (Some newPassword) then
        if negb (Js.truthy (ProfileInput.currentPassword data))
        then inl (AppError 400 "Current password is required")
        else
          match ProfileInput.currentPassword data with
          | Some currentPassword =>
              if bcrypt_compare currentPassword (User.password existingUser)
              then inr (updateData (Some (bcrypt_hash newPassword (user_salt amb))))
              else inl (AppError 400 "Current password is incorrect")
          | None => inl (AppError 400 "Current password is required")
          end
      else inr (updateData None)
  | None => inr (updateData None)
  end.

(** No two users have emails, or user names, that [toLowerCase] takes
    to the same string, and a store that has not been initialized holds
    no user. *)
Definition folded_emails `{Js.Runtime} (st : MemStorage) : list string :=
  map (fun u => Js.toLowerCase (User.email u)) (JsMap.values (users st)).

Definition folded_usernames `{Js.Runtime} (st : MemStorage) : list string :=
  map (fun u => Js.toLowerCase (User.username u)) (JsMap.values (users st)).

Record unique_accounts `{Js.Runtime} (st : MemStorage) : Prop := mk_unique_accounts
  { accounts_wf : wf_store st;
    fresh_store : initialized st = false -> users st = [];
    unique_emails : NoDup (folded_emails st);
    unique_usernames : NoDup (folded_usernames st) }.

(* ------------------------------------------------------------------ *)
(** ** Tasks ([shared/schema.ts], [server/storage.ts]) *)

Inductive TaskStatus : Type := TODO | IN_PROGRESS | DONE.

(** The string that a status is at run time. *)
Definition TaskStatus_name (s : TaskStatus) : string :=
  match s with
  | TODO => "TODO"
  | IN_PROGRESS => "IN_PROGRESS"
  | DONE => "DONE"
  end.

(** What [new Date(string)] gives: a date, or [Invalid Date]. *)
Inductive JsDate : Type :=
  | ValidDate (t : Date)
  | InvalidDate.

Module Task.
Record t : Type := mk
  { id : string;
    title : string;
    description : string;
    status : TaskStatus;
    assignedTo : string;
    createdBy : string;
    dueDate : option JsDate;
    createdAt : Date;
    updatedAt : Date }.
End Task.

(** [{ ...task, assignee }] *)
Module TaskWithAssignee.
Record t : Type := mk
  { task : Task.t;
    assignee : option UserPublic.t }.
End TaskWithAssignee.

(** [Omit<Task, "id" | "createdAt" | "updatedAt">] *)
Module NewTask.
Record t : Type := mk
  { title : string;
    description : string;
    status : TaskStatus;
    assignedTo : string;
    createdBy : string;
    dueDate : option JsDate }.
End NewTask.

(** [Partial<Omit<Task, "id" | "createdAt" | "updatedAt">>]: the
    properties that are present carry a value ([dueDate] may carry
    [null]). *)
Module TaskPatch.
Record t : Type := mk
  { title : option string;
    description : option string;
    status : option TaskStatus;
    assignedTo : option string;
    createdBy : option string;
    dueDate : option (option JsDate) }.
End TaskPatch.

(** [{ ...task, ...data, updatedAt }] *)
Definition spread_task (task : Task.t) (data : TaskPatch.t) (updatedAt : Date) : Task.t :=
  let pick {A} (o : option A) (d : A) := match o with Some v => v | None => d end in
  Task.mk (Task.id task)
    (pick (TaskPatch.title data) (Task.title task))
    (pick (TaskPatch.description data) (Task.description task))
    (pick (TaskPatch.status data) (Task.status task))
    (pick (TaskPatch.assignedTo data) (Task.assignedTo task))
    (pick (TaskPatch.createdBy data) (Task.createdBy task))
    (pick (TaskPatch.dueDate data) (Task.dueDate task))
    (Task.createdAt task)
    updatedAt.

(** The store with its third map: [accounts] holds the two maps and the
    flag of [MemStorage] above, [tasks] is [this.tasks]. *)
Record TaskStorage : Type := mkTaskStorage
  { accounts : MemStorage;
    tasks : JsMap.t Task.t }.

(** [new MemStorage()], with its empty map of tasks. *)
Definition TaskStorage_new : TaskStorage := mkTaskStorage MemStorage_new JsMap.empty.

(** What a request that makes a task draws from outside the program:
    the values of [Ambient], and the [randomUUID()] of [createTask]. *)
Record TaskAmbient : Type := mkTaskAmbient
  { ambient : Ambient;
    task_uuid : string }.

(** Computations on the whole store that return or throw. *)
Definition TaskAction (A : Type) : Type := TaskStorage -> TaskStorage * (Thrown + A).

Definition task_ret {A} (a : A) : TaskAction A := fun s => (s, inr a).

Definition task_throw {A} (e : Thrown) : TaskAction A := fun s => (s, inl e).

Definition task_bind {A B} (c : TaskAction A) (k : A -> TaskAction B) : TaskAction B :=
  fun s =>
    match c s with
    | (s', inr a) => k a s'
    | (s', inl e) => (s', inl e)
    end.

Definition task_gets {A} (f : TaskStorage -> A) : TaskAction A := fun s => (s, inr (f s)).

Definition set_tasks (f : JsMap.t Task.t -> JsMap.t Task.t) (s : TaskStorage) : TaskStorage :=
  mkTaskStorage (accounts s) (f (tasks s)).

Definition task_modify (f : TaskStorage -> TaskStorage) : TaskAction unit :=
  fun s => (f s, inr tt).

(** A method of the account part, run on the whole store. *)
Definition on_accounts {A} (c : Action A) : TaskAction A :=
  fun s =>
    let (st', r) := c (accounts s) in
    (mkTaskStorage st' (tasks s), r).

(** A handler of the account part, run on the whole store. *)
Definition on_accounts_handler {R} (h : MemStorage -> MemStorage * R) (s : TaskStorage)
  : TaskStorage * R :=
  let (st', r) := h (accounts s) in
  (mkTaskStorage st' (tasks s), r).

Declare Scope task_scope.
Delimit Scope task_scope with task.
Notation "x <- c ;; k" := (task_bind c (fun x => k))
  (at level 61, c at next level, right associativity) : task_scope.
Notation "c ;; k" := (task_bind c (fun _ => k))
  (at level 61, right associativity) : task_scope.

(** [if (status) tasks = tasks.filter((task) => task.status === status)] *)
Definition filter_status (status : option string) (l : list Task.t) : list Task.t :=
  match status with
  | Some name =>
      if Js.truthy status
      then filter (fun task => (TaskStatus_name (Task.status task) =? name)%string) l
      else l
  | None => l
  end.

(** The comparator of the task listings: [b.createdAt - a.createdAt]. *)
Definition newest_task_first (a b : Task.t) : bool :=
  (Task.createdAt b <=? Task.createdAt a).

Section TaskStore.
Context `{Platform}.
Local Open Scope task_scope.

Definition getTask (amb : Ambient) (id : string) : TaskAction (option Task.t) :=
  on_accounts (ensureInitialized amb) ;;
  task_gets (fun s => JsMap.get id (tasks s)).

(** [{ ...task, assignee: assignee ? this.toPublicUser(assignee) : undefined }]
    for [assignee = this.users.get(task.assignedTo)] *)
Definition with_assignee (s : TaskStorage) (task : Task.t) : TaskWithAssignee.t :=
  TaskWithAssignee.mk task
    (option_map toPublicUser (JsMap.get (Task.assignedTo task) (users (accounts s)))).

Definition getTaskWithAssignee (amb : Ambient) (id : string)
  : TaskAction (option TaskWithAssignee.t) :=
  on_accounts (ensureInitialized amb) ;;
  task <- task_gets (fun s => JsMap.get id (tasks s)) ;;
  match task with
  | None => task_ret None
  | Some task => s <- task_gets (fun s => s) ;; task_ret (Some (with_assignee s task))
  end.

Definition createTask (tamb : TaskAmbient) (taskData : NewTask.t) : TaskAction Task.t :=
  on_accounts (ensureInitialized (ambient tamb)) ;;
  let id := task_uuid tamb in
  let now := now (ambient tamb) in
  let task :=
    Task.mk id (NewTask.title taskData) (NewTask.description taskData)
      (NewTask.status taskData) (NewTask.assignedTo taskData)
      (NewTask.createdBy taskData) (NewTask.dueDate taskData) now now in
  task_modify (set_tasks (JsMap.set id task)) ;;
  task_ret task.

Definition updateTask (amb : Ambient) (id : string) (data : TaskPatch.t)
  : TaskAction (option Task.t) :=
  on_accounts (ensureInitialized amb) ;;
  task <- task_gets (fun s => JsMap.get id (tasks s)) ;;
  match task with
  | None => task_ret None
  | Some task =>
      let updatedTask := spread_task task data (now amb) in
      task_modify (set_tasks (JsMap.set id updatedTask)) ;;
      task_ret (Some updatedTask)
  end.

Definition deleteTask (amb : Ambient) (id : string) : TaskAction bool :=
  on_accounts (ensureInitialized amb) ;;
  deleted <- task_gets (fun s => JsMap.has id (tasks s)) ;;
  task_modify (set_tasks (JsMap.delete id)) ;;
  task_ret deleted.

Definition getAllTasks (amb : Ambient) (page limit : JsNumber) (status : option string)
  : TaskAction (Paginated.t TaskWithAssignee.t) :=
  on_accounts (ensureInitialized amb) ;;
  s <- task_gets (fun s => s) ;;
  let allTasks := sort newest_task_first (JsMap.values (tasks s)) in
  let allTasks := filter_status status allTasks in
  let total := Z.of_nat (List.length allTasks) in
  let totalPages := or_one (ceil_div total limit) in
  let offset := js_mul (js_pred page) limit in
  let paginatedTasks := slice offset (js_add offset limit) allTasks in
  let data := map (with_assignee s) paginatedTasks in
  task_ret (Paginated.mk data total page limit totalPages).

Definition getTasksByUser (amb : Ambient) (userId : string) (page limit : JsNumber)
    (status : option string) : TaskAction (Paginated.t TaskWithAssignee.t) :=
  on_accounts (ensureInitialized amb) ;;
  s <- task_gets (fun s => s) ;;
  let userTasks :=
    sort newest_task_first
      (filter (fun task => (Task.assignedTo task =? userId)%string)
         (JsMap.values (tasks s))) in
  let userTasks := filter_status status userTasks in
  let total := Z.of_nat (List.length userTasks) in
  let totalPages := or_one (ceil_div total limit) in
  let offset := js_mul (js_pred page) limit in
  let paginatedTasks := slice offset (js_add offset limit) userTasks in
  let assignee := JsMap.get userId (users (accounts s)) in
  let data :=
    map (fun task => TaskWithAssignee.mk task (option_map toPublicUser assignee))
      paginatedTasks in
  task_ret (Paginated.mk data total page limit totalPages).

End TaskStore.

(* ------------------------------------------------------------------ *)
(** ** The task routes ([server/routes.ts]) *)

(** The value that [createTaskSchema.parse] returns: [description] and
    [status] have their defaults, [dueDate] is absent ([None]), [null]
    ([Some None]) or a string. *)
Module CreateTaskInput.
Record t : Type := mk
  { title : string;
    description : string;
    status : TaskStatus;
    assignedTo : string;
    dueDate : option (option string) }.
End CreateTaskInput.

(** The properties of a body for [createTaskSchema], before the
    defaults. *)
Module CreateTaskFields.
Record t : Type := mk
  { title : string;
    description : option string;
    status : option TaskStatus;
    assignedTo : string;
    dueDate : option (option string) }.
End CreateTaskFields.

(** The value that [updateTaskSchema.parse] returns. *)
Module UpdateTaskInput.
Record t : Type := mk
  { title : option string;
    description : option string;
    status : option TaskStatus;
    assignedTo : option string;
    dueDate : option (option string) }.
End UpdateTaskInput.

(** What the Zod schemas of the task routes take from the library and
    the runtime: [..._fields] reads [req.body] as an object with the
    properties of the schema ([None] when a property has another type, a
    status is none of the three, or a required one is missing), and
    [parseDate] is [new Date(string)]. *)
Class TaskSchemas `{Platform} : Type :=
  { createTask_fields : Body -> option CreateTaskFields.t;
    updateTask_fields : Body -> option UpdateTaskInput.t;
    updateTaskStatus_fields : Body -> option TaskStatus;
    parseDate : string -> JsDate }.

(** [value.default(d)] *)
Definition default {A} (d : A) (v : option A) : A :=
  match v with
  | Some x => x
  | None => d
  end.

Section TaskSchemaDefs.
Context `{TaskSchemas}.

(** [createTaskSchema] *)
Definition createTaskSchema_parse (body : Body) : option CreateTaskInput.t :=
  match createTask_fields body with
  | Some data =>
      if min_length 1 (CreateTaskFields.title data)
         && min_length 1 (CreateTaskFields.assignedTo data)
      then Some (CreateTaskInput.mk (CreateTaskFields.title data)
                   (default "" (CreateTaskFields.description data))
                   (default TODO (CreateTaskFields.status data))
                   (CreateTaskFields.assignedTo data)
                   (CreateTaskFields.dueDate data))
      else None
  | None => None
  end.

(** [updateTaskSchema] *)
Definition updateTaskSchema_parse (body : Body) : option UpdateTaskInput.t :=
  match updateTask_fields body with
  | Some data =>
      if optional (min_length 1) (UpdateTaskInput.title data)
      then Some data else None
  | None => None
  end.

(** [updateTaskStatusSchema] *)
Definition updateTaskStatusSchema_parse (body : Body) : option TaskStatus :=
  updateTaskStatus_fields body.

(** [dueDate ? new Date(dueDate) : null] *)
Definition dueDate_of (dueDate : option (option string)) : option JsDate :=
  match dueDate with
  | Some (Some text) => if Js.truthy (Some text) then Some (parseDate text) else None
  | _ => None
  end.

End TaskSchemaDefs.

Section TaskRoutes.
Context `{TaskSchemas}.
Local Open Scope task_scope.

(** [try { ... } catch (error) { next(error) }] with the [errorHandler]:
    [inl] is what the error handler sends, [inr] the value that the
    handler sends with [res.json]. *)
Definition task_handle {A} (h : TaskAction A) (s : TaskStorage)
  : TaskStorage * (Response.t + A) :=
  match h s with
  | (s', inr a) => (s', inr a)
  | (s', inl err) => (s', inl (errorHandler err))
  end.

(** [schema.parse(req.body)] *)
Definition task_parse {A} (parsed : option A) : TaskAction A :=
  match parsed with
  | Some data => task_ret data
  | None => task_throw ZodError
  end.

(** [req.user!]: reading a property of [undefined] throws a
    [TypeError]. *)
Definition the_user (req : Request.t) : TaskAction UserPublic.t :=
  match Request.user req with
  | Some user => task_ret user
  | None => task_throw OtherError
  end.

(** [GET /api/tasks] *)
Definition listTasks (amb : Ambient) (query : Query.t) :=
  task_handle
    (let page := or_default (Query.page query) 1 in
     let limit := or_default (Query.limit query) 10 in
     let status := Query.status query in
     getAllTasks amb page limit status).

(** [GET /api/tasks/my] *)
Definition listMyTasks (amb : Ambient) (query : Query.t) (req : Request.t) :=
  task_handle
    (let page := or_default (Query.page query) 1 in
     let limit := or_default (Query.limit query) 10 in
     let status := Query.status query in
     user <- the_user req ;;
     getTasksByUser amb (UserPublic.id user) page limit status).

(** [GET /api/tasks/:id] *)
Definition getTaskById (amb : Ambient) (req : Request.t) :=
  task_handle
    (task <- getTaskWithAssignee amb (Request.params_id req) ;;
     match task with
     | None => task_throw (AppError 404 "Task not found")
     | Some task =>
         user <- the_user req ;;
         if negb (UserRole_eqb (UserPublic.role user) ADMIN)
            && negb (Task.assignedTo (TaskWithAssignee.task task)
                     =? UserPublic.id user)%string
         then task_throw (AppError 403 "Not authorized to view this task")
         else task_ret task
     end).

(** [POST /api/tasks]; the value is sent with status 201. *)
Definition createTaskByAdmin (tamb : TaskAmbient) (req : Request.t) :=
  task_handle
    (data <- task_parse (createTaskSchema_parse (Request.body req)) ;;
     assignee <- on_accounts (getUser (ambient tamb) (CreateTaskInput.assignedTo data)) ;;
     match assignee with
     | None => task_throw (AppError 400 "Assignee not found")
     | Some _ =>
         user <- the_user req ;;
         task <- createTask tamb
                   (NewTask.mk (CreateTaskInput.title data)
                      (if Js.truthy (Some (CreateTaskInput.description data))
                       then CreateTaskInput.description data else "")
                      (if Js.truthy (Some (TaskStatus_name (CreateTaskInput.status data)))
                       then CreateTaskInput.status data else TODO)
                      (CreateTaskInput.assignedTo data)
                      (UserPublic.id user)
                      (dueDate_of (CreateTaskInput.dueDate data))) ;;
         getTaskWithAssignee (ambient tamb) (Task.id task)
     end).

(** The [updateData] of [PATCH /api/tasks/:id]: the properties that are
    not [undefined]. *)
Definition task_updateData (data : UpdateTaskInput.t) : TaskPatch.t :=
  TaskPatch.mk (UpdateTaskInput.title data) (UpdateTaskInput.description data)
    (UpdateTaskInput.status data) (UpdateTaskInput.assignedTo data) None
    (match UpdateTaskInput.dueDate data with
     | Some dueDate => Some (dueDate_of (Some dueDate))
     | None => None
     end).

(** [PATCH /api/tasks/:id] *)
Definition updateTaskById (amb : Ambient) (req : Request.t) :=
  task_handle
    (data <- task_parse (updateTaskSchema_parse (Request.body req)) ;;
     existingTask <- getTask amb (Request.params_id req) ;;
     match existingTask with
     | None => task_throw (AppError 404 "Task not found")
     | Some _ =>
         (match UpdateTaskInput.assignedTo data with
          | Some assignedTo =>
              if Js.truthy (Some assignedTo) then
                assignee <- on_accounts (getUser amb assignedTo) ;;
                match assignee with
                | None => task_throw (AppError 400 "Assignee not found")
                | Some _ => task_ret tt
                end
              else task_ret tt
          | None => task_ret tt
          end) ;;
         let updateData := task_updateData data in
         updatedTask <- updateTask amb (Request.params_id req) updateData ;;
         match updatedTask with
         | None => task_throw (AppError 404 "Task not found")
         | Some updatedTask => getTaskWithAssignee amb (Task.id updatedTask)
         end
     end).

(** [PATCH /api/tasks/:id/status] *)
Definition updateTaskStatus (amb : Ambient) (req : Request.t) :=
  task_handle
    (data <- task_parse (updateTaskStatusSchema_parse (Request.body req)) ;;
     existingTask <- getTask amb (Request.params_id req) ;;
     match existingTask with
     | None => task_throw (AppError 404 "Task not found")
     | Some existingTask =>
         user <- the_user req ;;
         if negb (UserRole_eqb (UserPublic.role user) ADMIN)
            && negb (Task.assignedTo existingTask =? UserPublic.id user)%string
         then task_throw (AppError 403 "Not authorized to update this task")
         else
           updatedTask <- updateTask amb (Request.params_id req)
                            (TaskPatch.mk None None (Some data) None None None) ;;
           match updatedTask with
           | None => task_throw (AppError 404 "Task not found")
           | Some updatedTask => getTaskWithAssignee amb (Task.id updatedTask)
           end
     end).

(** [DELETE /api/tasks/:id] *)
Definition deleteTaskById (amb : Ambient) (req : Request.t) :=
  task_handle
    (deleted <- deleteTask amb (Request.params_id req) ;;
     if negb deleted then task_throw (AppError 404 "Task not found")
     else task_ret (send_message 200 "Task deleted successfully")).

End TaskRoutes.

(** The whole store once [ensureInitialized] has run. *)
Definition task_initialize `{Platform} (amb : Ambient) (s : TaskStorage) : TaskStorage :=
  mkTaskStorage (initialize amb (accounts s)) (tasks s).

(** The tasks of a user, as [getTasksByUser] selects them. *)
Definition assigned_to (userId : string) (task : Task.t) : bool :=
  (Task.assignedTo task =? userId)%string.

(** Whether [GET /api/tasks/:id] and [PATCH /api/tasks/:id/status] let
    the user act on the task: administrators, and the assignee. *)
Definition may_touch (user : UserPublic.t) (task : Task.t) : bool :=
  UserRole_eqb (UserPublic.role user) ADMIN
  || (Task.assignedTo task =? UserPublic.id user)%string.

(** The map of tasks is a proper map, and every task is filed under its
    id. *)
Record wf_tasks (s : TaskStorage) : Prop := mk_wf_tasks
  { tasks_unique : NoDup (JsMap.keys (tasks s));
    tasks_by_id : filed_under Task.id (tasks s) }.

(** Whether [PATCH /api/tasks/:id] refuses the assignee that the body
    names: the name is truthy and the store has no such user. *)
Definition assignee_missing (assignedTo : option string) (st : MemStorage) : bool :=
  match assignedTo with
  | Some userId =>
      Js.truthy assignedTo
      && match JsMap.get userId (users st) with
         | Some _ => false
         | None => true
         end
  | None => false
  end.

(* ------------------------------------------------------------------ *)
(** ** The user and task routes with their middleware *)

Section Guards.
Context `{Platform} {R : Type}.

(** [app.METHOD(path, authenticate, handler)] on the whole store: [inl]
    is the answer of the middleware when it refuses, [inr] what the
    handler gives for the request that the middleware passes on. *)
Definition behind_authenticate (h : Request.t -> TaskStorage -> TaskStorage * R)
    (amb : Ambient) (req : Request.t) (s : TaskStorage)
  : TaskStorage * (Response.t + R) :=
  match on_accounts_handler (authenticate amb req) s with
  | (s', Respond res) => (s', inl res)
  | (s', Next req') => let (s'', r) := h req' s' in (s'', inr r)
  end.

(** [app.METHOD(path, authenticate, requireAdmin, handler)] *)
Definition behind_requireAdmin (h : Request.t -> TaskStorage -> TaskStorage * R)
    (amb : Ambient) (req : Request.t) (s : TaskStorage)
  : TaskStorage * (Response.t + R) :=
  match on_accounts_handler (authenticate amb req) s with
  | (s', Respond res) => (s', inl res)
  | (s', Next req') =>
      match requireAdmin req' with
      | Respond res => (s', inl res)
      | Next req'' => let (s'', r) := h req'' s' in (s'', inr r)
      end
  end.

End Guards.

Section RouteTable.
Context `{UserSchemas} `{!TaskSchemas}.

Definition GET_users (amb : Ambient) (query : Query.t) :=
  behind_requireAdmin (fun _ => on_accounts_handler (listUsers amb query)) amb.

Definition GET_users_id (amb : Ambient) :=
  behind_requireAdmin (fun req => on_accounts_handler (getUserById amb req)) amb.

Definition POST_users (amb : Ambient) :=
  behind_requireAdmin (fun req => on_accounts_handler (createUserByAdmin amb req)) amb.

Definition PATCH_users_profile (amb : Ambient) :=
  behind_authenticate (fun req => on_accounts_handler (updateProfile amb req)) amb.

Definition PATCH_users_id (amb : Ambient) :=
  behind_requireAdmin (fun req => on_accounts_handler (updateUserById amb req)) amb.

Definition GET_tasks (amb : Ambient) (query : Query.t) :=
  behind_requireAdmin (fun _ => listTasks amb query) amb.

Definition GET_tasks_my (amb : Ambient) (query : Query.t) :=
  behind_authenticate (listMyTasks amb query) amb.

Definition GET_tasks_id (amb : Ambient) := behind_authenticate (getTaskById amb) amb.

Definition POST_tasks (tamb : TaskAmbient) :=
  behind_requireAdmin (createTaskByAdmin tamb) (ambient tamb).

Definition PATCH_tasks_id (amb : Ambient) := behind_requireAdmin (updateTaskById amb) amb.

Definition PATCH_tasks_id_status (amb : Ambient) :=
  behind_authenticate (updateTaskStatus amb) amb.

Definition DELETE_tasks_id (amb : Ambient) := behind_requireAdmin (deleteTaskById amb) amb.

End RouteTable.

(** The bearer token of the request verifies at the instant of the
    request and names the stored user [user]. *)
Definition authenticates `{Platform} (amb : Ambient) (req : Request.t) (st : MemStorage)
    (user : User.t) : Prop :=
  exists header decoded,
    Request.authorization req = Some header
    /\ Js.startsWith "Bearer " header = true
    /\ verifyToken (now amb) (Js.substring 7 header) = Some decoded
    /\ JsMap.get (Jwt.userId decoded) (users (initialize amb st)) = Some user.
(* ------------------------------------------------------------------ *)
(** ** A concrete platform with the bodies of the user and task routes *)

Module Office.

#[local] Existing Instance Demo.runtime.

Inductive body : Type :=
  | NoBody
  | RegisterBody (data : RegisterInput.t)
  | LoginBody (data : LoginInput.t)
  | CreateUserBody (data : CreateUserInput.t)
  | UpdateUserBody (data : UpdateUserInput.t)
  | ProfileBody (data : ProfileInput.t)
  | CreateTaskBody (data : CreateTaskFields.t)
  | UpdateTaskBody (data : UpdateTaskInput.t)
  | StatusBody (status : TaskStatus).

#[export] Instance platform : Platform :=
  {| hmac_sha256 := Demo.hmac;
     bcrypt_hash := Demo.hash;
     bcrypt_compare := Demo.compare;
     env_SESSION_SECRET := None;
     env_NODE_ENV := Some "production";
     addDays := Demo.plus_days;
     Body := body;
     is_email := Demo.email_format;
     register_fields := fun b =>
       match b with RegisterBody data => Some data | _ => None end;
     login_fields := fun b =>
       match b with LoginBody data => Some data | _ => None end |}.

#[export] Instance schemas : UserSchemas :=
  {| createUser_fields := fun b =>
       match b with CreateUserBody data => Some data | _ => None end;
     updateUser_fields := fun b =>
       match b with UpdateUserBody data => Some data | _ => None end;
     updateProfile_fields := fun b =>
       match b with ProfileBody data => Some data | _ => None end |}.

(** For the examples only: a decimal number of milliseconds stands in
    for a date string.  No statement depends on it; the theorems hold
    for every [parseDate]. *)
#[export] Instance task_schemas : TaskSchemas :=
  {| createTask_fields := fun b =>
       match b with CreateTaskBody data => Some data | _ => None end;
     updateTask_fields := fun b =>
       match b with UpdateTaskBody data => Some data | _ => None end;
     updateTaskStatus_fields := fun b =>
       match b with StatusBody status => Some status | _ => None end;
     parseDate := fun text =>
       match Codec.undec text with
       | Some t => ValidDate t
       | None => InvalidDate
       end |}.

Definition request (authorization : option string) (b : body) (param : string)
  : Request.t :=
  Request.mk "10.0.0.3" authorization None b param None.

(** A request as [authenticate] passes it on for [identity]. *)
Definition request_of (identity : UserPublic.t) (b : body) (param : string)
  : Request.t :=
  Request.with_user (request None b param) identity.

Definition admin_access : string := generateAccessToken 3000 "uuid-admin".
Definition alice_access : string := generateAccessToken 3000 "uuid-alice".

Definition admin_public : UserPublic.t :=
  UserPublic.mk "uuid-admin" "admin@taskflow.com" "admin" ADMIN "System" "Admin" 1000.

Definition carol : CreateUserInput.t :=
  CreateUserInput.mk "carol@x.com" "carol" "carolcarol" "C" "R" ADMIN.

Definition report : CreateTaskFields.t :=
  CreateTaskFields.mk "Write the report" (Some "quarterly") None "uuid-alice"
    (Some (Some "9000")).

Definition audit : CreateTaskFields.t :=
  CreateTaskFields.mk "Audit the accounts" None (Some IN_PROGRESS) "uuid-admin" None.

(** The store after Alice registered, and after the administrator made
    a task for Alice (instant 3000) and one for the administrator
    (instant 4000). *)
Definition tasks1 : TaskStorage :=
  fst (createTaskByAdmin (mkTaskAmbient (Demo.ambient 3000 "t1") "task-1")
         (request_of admin_public (CreateTaskBody report) "")
         (mkTaskStorage Demo.store1 JsMap.empty)).

Definition tasks2 : TaskStorage :=
  fst (createTaskByAdmin (mkTaskAmbient (Demo.ambient 4000 "t2") "task-2")
         (request_of admin_public (CreateTaskBody audit) "") tasks1).

Definition report_task : Task.t :=
  Task.mk "task-1" "Write the report" "quarterly" TODO "uuid-alice" "uuid-admin"
    (Some (ValidDate 9000)) 3000 3000.

Definition audit_task : Task.t :=
  Task.mk "task-2" "Audit the accounts" "" IN_PROGRESS "uuid-admin" "uuid-admin"
    None 4000 4000.

End Office.
(* ================================================================== *)
(** * Properties *)

(** ** Strings *)

Lemma append_assoc (a b c : string) : ((a ++ b) ++ c = a ++ (b ++ c))%string.
Proof. induction a as [|x a IH]; simpl; [reflexivity | now rewrite IH]. Qed.

Lemma includes_append (c : ascii) (a b : string) :
  Js.includes c (a ++ b) = Js.includes c a || Js.includes c b.
Proof.
  induction a as [|x a IH]; simpl; [reflexivity|].
  rewrite IH. now rewrite orb_assoc.
Qed.

(** A string without the separator is one piece. *)
Lemma split_free (c : ascii) (s : string) :
  Js.includes c s = false -> Js.split c s = [s].
Proof.
  induction s as [|x s IH]; simpl; [reflexivity|].
  intros Hf. apply orb_false_iff in Hf as [Hx Hs].
  rewrite Hx, (IH Hs). reflexivity.
Qed.

(** The first piece ends at the first separator. *)
Lemma split_append (c : ascii) (a b : string) :
  Js.includes c a = false ->
  Js.split c (a ++ String c b) = a :: Js.split c b.
Proof.
  induction a as [|x a IH]; simpl.
  - intros _. now rewrite Ascii.eqb_refl.
  - intros Hf. apply orb_false_iff in Hf as [Hx Ha].
    rewrite Hx, (IH Ha). reflexivity.
Qed.

Lemma startsWith_append (p s : string) : Js.startsWith p (p ++ s) = true.
Proof.
  induction p as [|x p IH]; simpl; [reflexivity|].
  now rewrite Ascii.eqb_refl, IH.
Qed.

(** ** Encodings *)

Lemma hex_decode_cons (a : ascii) (r : string) :
  Codec.hex_decode (Codec.hex_of_ascii a ++ r)
  = option_map (String a) (Codec.hex_decode r).
Proof.
  destruct a as [[] [] [] [] [] [] [] []]; cbn;
    destruct (Codec.hex_decode r); reflexivity.
Qed.

Lemma hex_decode_encode (s : string) :
  Codec.hex_decode (Codec.hex_encode s) = Some s.
Proof.
  induction s as [|a s IH]; [reflexivity|].
  cbn [Codec.hex_encode]. now rewrite hex_decode_cons, IH.
Qed.

Lemma hex_of_ascii_free (c a : ascii) (r : string) :
  separator c ->
  Js.includes c (Codec.hex_of_ascii a ++ r) = Js.includes c r.
Proof.
  intros [-> | ->]; destruct a as [[] [] [] [] [] [] [] []]; reflexivity.
Qed.

Lemma hex_encode_free (c : ascii) (s : string) :
  separator c -> Js.includes c (Codec.hex_encode s) = false.
Proof.
  intros Hc. induction s as [|a s IH]; [reflexivity|].
  cbn [Codec.hex_encode]. now rewrite hex_of_ascii_free.
Qed.

Lemma string_of_uint_free (c : ascii) (d : Decimal.uint) :
  separator c -> Js.includes c (NilEmpty.string_of_uint d) = false.
Proof.
  intros [-> | ->]; induction d; simpl; auto.
Qed.

Lemma dec_free (c : ascii) (n : N) : separator c -> Js.includes c (Codec.dec n) = false.
Proof. intros Hc. now apply string_of_uint_free. Qed.

Lemma undec_dec (n : N) : Codec.undec (Codec.dec n) = Some n.
Proof.
  unfold Codec.undec, Codec.dec.
  assert (Hne : N.to_uint n <> Decimal.Nil).
  { destruct n as [|p]; [discriminate | apply DecimalPos.Unsigned.to_uint_nonnil]. }
  rewrite NilEmpty.usu. simpl. rewrite DecimalN.Unsigned.of_to.
  destruct (N.to_uint n); [contradiction | reflexivity ..].
Qed.

(** ** The token format *)

Lemma append_char (c : ascii) (x : string) :
  (String c EmptyString ++ x)%string = String c x.
Proof. reflexivity. Qed.

Lemma header_free : Js.includes "."%char Jwt.header = false.
Proof. reflexivity. Qed.

Lemma encode_type_free (c : ascii) (t : option string) :
  separator c -> Js.includes c (Jwt.encode_type t) = false.
Proof.
  intros Hc. destruct t as [s|]; simpl.
  - rewrite hex_encode_free by assumption.
    destruct Hc as [-> | ->]; reflexivity.
  - destruct Hc as [-> | ->]; reflexivity.
Qed.

Lemma decode_encode_type (t : option string) :
  Jwt.decode_type (Jwt.encode_type t) = Some t.
Proof.
  destruct t as [s|]; simpl; [|reflexivity].
  now rewrite hex_decode_encode.
Qed.

Lemma encode_payload_free (p : Jwt.Payload) :
  Js.includes "."%char (Jwt.encode_payload p) = false.
Proof.
  assert (Hc : separator "."%char) by (now right).
  unfold Jwt.encode_payload.
  rewrite !includes_append, hex_encode_free, encode_type_free, !dec_free by assumption.
  reflexivity.
Qed.

(** What was signed is what [decode_payload] reads back. *)
Lemma decode_encode_payload (p : Jwt.Payload) :
  Jwt.decode_payload (Jwt.encode_payload p) = Some p.
Proof.
  assert (Hc : separator ","%char) by (now left).
  unfold Jwt.decode_payload, Jwt.encode_payload.
  rewrite !append_char.
  rewrite split_append by (now apply hex_encode_free).
  rewrite split_append by (now apply encode_type_free).
  rewrite split_append by (now apply dec_free).
  rewrite split_free by (now apply dec_free).
  rewrite hex_decode_encode, decode_encode_type, !undec_dec.
  now destruct p.
Qed.

Section JwtFacts.
Context `{Platform}.

Lemma signature_free (secret input : string) :
  Js.includes "."%char (Jwt.signature secret input) = false.
Proof. apply hex_encode_free. now right. Qed.

(** A signed token has exactly the three segments it was built from. *)
Lemma split_sign (u : string) (t : option string) (secret : string) (ttl : N) (now : Date) :
  let p := Jwt.mkPayload u t (now / 1000) (now / 1000 + ttl) in
  Js.split "."%char (Jwt.sign u t secret ttl now)
  = [Jwt.header; Jwt.encode_payload p;
     Jwt.signature secret (Jwt.header ++ "." ++ Jwt.encode_payload p)].
Proof.
  intros p. unfold Jwt.sign. fold p.
  rewrite !append_assoc, !append_char.
  rewrite split_append by apply header_free.
  rewrite split_append by apply encode_payload_free.
  rewrite split_free by apply signature_free.
  reflexivity.
Qed.

(** [verify] after [sign] with the same secret: the payload, until the
    clock (in whole seconds) reaches [exp]. *)
Lemma verify_sign (u : string) (t : option string) (secret : string) (ttl : N)
    (issued now : Date) :
  Jwt.verify (Jwt.sign u t secret ttl issued) secret now
  = if issued / 1000 + ttl <=? now / 1000 then inl Jwt.TokenExpiredError
    else inr (Jwt.mkPayload u t (issued / 1000) (issued / 1000 + ttl)).
Proof.
  unfold Jwt.verify. rewrite split_sign.
  rewrite String.eqb_refl, decode_encode_payload, String.eqb_refl.
  reflexivity.
Qed.

End JwtFacts.

(** ** Token issuer *)

Section IssuerFacts.
Context `{Platform}.

Lemma verifyToken_sign (u : string) (t : option string) (ttl : N) (issued now : Date) :
  verifyToken now (Jwt.sign u t JWT_SECRET ttl issued)
  = if issued / 1000 + ttl <=? now / 1000 then None
    else Some (Jwt.mkPayload u t (issued / 1000) (issued / 1000 + ttl)).
Proof.
  unfold verifyToken. rewrite verify_sign.
  now destruct (issued / 1000 + ttl <=? now / 1000).
Qed.

Lemma before_expiry (issued ttl now : N) :
  now < expiryInstant issued ttl -> (issued / 1000 + ttl <=? now / 1000) = false.
Proof.
  unfold expiryInstant. intros Hlt. apply N.leb_gt.
  apply N.Div0.div_lt_upper_bound. now rewrite N.mul_comm.
Qed.

Lemma after_expiry (issued ttl now : N) :
  expiryInstant issued ttl <= now -> (issued / 1000 + ttl <=? now / 1000) = true.
Proof.
  unfold expiryInstant. intros Hle. apply N.leb_le.
  apply N.div_le_lower_bound; [discriminate | now rewrite N.mul_comm].
Qed.

Lemma verifyToken_defect (now : Date) (token : string) :
  Defect now token -> verifyToken now token = None.
Proof.
  unfold verifyToken, Jwt.verify.
  intros [Hn | h p s Hs [Hh | Hp] | h p s Hs Hsig | h p s payload Hs Hp Hexp].
  - destruct (Js.split "."%char token) as [|h [|p [|s [|x l]]]]; try reflexivity.
    now destruct (Hn h p s).
  - rewrite Hs. apply String.eqb_neq in Hh. now rewrite Hh.
  - rewrite Hs, Hp. now destruct (h =? Jwt.header)%string.
  - rewrite Hs. apply String.eqb_neq in Hsig. rewrite Hsig.
    destruct (h =? Jwt.header)%string; [|reflexivity].
    now destruct (Jwt.decode_payload p).
  - rewrite Hs, Hp.
    destruct (h =? Jwt.header)%string; [|reflexivity].
    destruct (s =? _)%string; [|reflexivity].
    assert (Hle : (Jwt.exp payload <=? now / 1000) = true).
    { apply N.leb_le, N.div_le_lower_bound; [discriminate | now rewrite N.mul_comm]. }
    now rewrite Hle.
Qed.

End IssuerFacts.

(** C3. For every user id [u], [verifyToken] applied to
    [generateAccessToken u] returns the decoded payload, whose [userId]
    is [u], at every instant strictly before the token's expiry instant
    (15 minutes after the second of issuance) and returns null ([None])
    at every instant after it; and for every token string, [verifyToken]
    returns null (it is a total function: nothing is thrown) when the
    token is malformed, carries a bad signature, or is expired. *)
Theorem verifyToken_generateAccessToken `{Platform} (u : string) (issued t : Date) :
  (t < expiryInstant issued expiresIn_15m ->
   exists decoded,
     verifyToken t (generateAccessToken issued u) = Some decoded
     /\ Jwt.userId decoded = u)
  /\ (expiryInstant issued expiresIn_15m < t ->
      verifyToken t (generateAccessToken issued u) = None)
  /\ (forall token, Defect t token -> verifyToken t token = None).
Proof.
  unfold generateAccessToken. repeat split.
  - intros Hlt. rewrite verifyToken_sign, before_expiry by assumption.
    eexists. split; reflexivity.
  - intros Hgt. rewrite verifyToken_sign, after_expiry; [reflexivity|].
    now apply N.lt_le_incl.
  - intros token. apply verifyToken_defect.
Qed.

Section IssuerExamples.
#[local] Existing Instance Demo.runtime.
#[local] Existing Instance Demo.platform.

Lemma verifyToken_generateAccessToken_witness :
  (exists decoded,
     verifyToken 5000 (generateAccessToken 1000 "uuid-alice") = Some decoded
     /\ Jwt.userId decoded = "uuid-alice")
  /\ verifyToken 901001 (generateAccessToken 1000 "uuid-alice") = None
  /\ verifyToken 5000 "garbage" = None.
Proof.
  split; [|split].
  - apply (proj1 (verifyToken_generateAccessToken "uuid-alice" 1000 5000)).
    reflexivity.
  - apply (proj1 (proj2 (verifyToken_generateAccessToken "uuid-alice" 1000 901001))).
    reflexivity.
  - apply (proj2 (proj2 (verifyToken_generateAccessToken "uuid-alice" 1000 5000))).
    apply NotThreeSegments. intros h p s. vm_compute. discriminate.
Defined.

End IssuerExamples.

(** ** Auth middleware *)

Section MiddlewareFacts.
Context `{Platform}.

Lemma getUser_eq (amb : Ambient) (id : string) (st : MemStorage) :
  getUser amb id st
  = (initialize amb st, inr (JsMap.get id (users (initialize amb st)))).
Proof.
  unfold getUser, initialize, bind, gets, ensureInitialized.
  destruct (initialized st); reflexivity.
Qed.

(** [authenticate] on a header that carries the bearer token [token]. *)
Lemma authenticate_bearer (amb : Ambient) (req : Request.t) (st : MemStorage)
    (token : string) :
  Request.authorization req = Some ("Bearer " ++ token)%string ->
  authenticate amb req st =
    match verifyToken (now amb) token with
    | None => (st, Respond (send_message 401 "Invalid or expired token"))
    | Some decoded =>
        (initialize amb st,
         match JsMap.get (Jwt.userId decoded) (users (initialize amb st)) with
         | None => Respond (send_message 401 "User not found")
         | Some user => Next (Request.with_user req (toPublicUser user))
         end)
    end.
Proof.
  intros Hh. unfold authenticate, authenticate_try. rewrite Hh.
  change (Js.truthy (Some ("Bearer " ++ token)%string)) with true.
  rewrite (startsWith_append "Bearer " token).
  change (Js.substring 7 ("Bearer " ++ token)) with token.
  cbn [negb orb].
  destruct (verifyToken (now amb) token) as [decoded|]; [|reflexivity].
  unfold bind. rewrite getUser_eq.
  destruct (JsMap.get _ _); reflexivity.
Qed.

(** Whatever [authenticate] answers, it answers with status 401. *)
Lemma authenticate_respond (amb : Ambient) (req : Request.t) (st : MemStorage)
    (res : Response.t) :
  snd (authenticate amb req st) = Respond res -> Response.status res = 401.
Proof.
  unfold authenticate, authenticate_try.
  destruct (Request.authorization req) as [header|]; [|now intros [= <-]].
  destruct (negb (Js.truthy (Some header)) || negb (Js.startsWith "Bearer " header));
    [now intros [= <-]|].
  destruct (verifyToken (now amb) (Js.substring 7 header)) as [decoded|];
    [|now intros [= <-]].
  unfold bind. rewrite getUser_eq.
  destruct (JsMap.get _ _); [discriminate | now intros [= <-]].
Qed.

End MiddlewareFacts.

(** C1. The auth middleware answers 401 and does not call the
    downstream handler when the Authorization header is absent, when it
    does not start with ["Bearer "], when the bearer token fails
    verification (it is malformed, expired or wrongly signed: a [Defect]),
    and when the verified token's [userId] has no user record in the
    store; otherwise it attaches the identity made of the
    user's id, email, username, role, firstName, lastName and createdAt
    (a [UserPublic.t], which has no password field) and proceeds.  Every
    response of the middleware has status 401, so never 500. *)
Theorem authenticate_cases `{Platform} (amb : Ambient) (req : Request.t)
    (st : MemStorage) :
  let outcome := snd (authenticate amb req st) in
  let store := users (initialize amb st) in
  (Request.authorization req = None -> rejects401 outcome)
  /\ (forall header, Request.authorization req = Some header ->
        Js.startsWith "Bearer " header = false -> rejects401 outcome)
  /\ (forall token, Request.authorization req = Some ("Bearer " ++ token)%string ->
        verifyToken (now amb) token = None \/ Defect (now amb) token ->
        rejects401 outcome)
  /\ (forall token decoded,
        Request.authorization req = Some ("Bearer " ++ token)%string ->
        verifyToken (now amb) token = Some decoded ->
        JsMap.get (Jwt.userId decoded) store = None -> rejects401 outcome)
  /\ (forall token decoded user,
        Request.authorization req = Some ("Bearer " ++ token)%string ->
        verifyToken (now amb) token = Some decoded ->
        JsMap.get (Jwt.userId decoded) store = Some user ->
        outcome =
          Next (Request.with_user req
                  (UserPublic.mk (User.id user) (User.email user) (User.username user)
                     (User.role user) (User.firstName user) (User.lastName user)
                     (User.createdAt user))))
  /\ (forall res, outcome = Respond res -> Response.status res = 401).
Proof.
  cbv zeta. repeat split.
  - intros Hh. unfold authenticate, authenticate_try. rewrite Hh.
    now exists "No token provided".
  - intros header Hh Hp. unfold authenticate, authenticate_try. rewrite Hh, Hp.
    rewrite orb_true_r. now exists "No token provided".
  - intros token Hh [Hv | Hd]; [|apply verifyToken_defect in Hd as Hv];
      rewrite (authenticate_bearer _ _ _ _ Hh), Hv;
      now exists "Invalid or expired token".
  - intros token decoded Hh Hv Hu. rewrite (authenticate_bearer _ _ _ _ Hh), Hv.
    cbn [snd]. rewrite Hu. now exists "User not found".
  - intros token decoded user Hh Hv Hu. rewrite (authenticate_bearer _ _ _ _ Hh), Hv.
    cbn [snd]. now rewrite Hu.
  - apply authenticate_respond.
Qed.

Section MiddlewareExamples.
#[local] Existing Instance Demo.runtime.
#[local] Existing Instance Demo.platform.

Lemma authenticate_cases_witness :
  let amb := Demo.ambient 5000 "req" in
  let ask header := snd (authenticate amb (Demo.request "10.0.0.1" header None Demo.NoBody "")
                           Demo.store1) in
  rejects401 (ask None)
  /\ rejects401 (ask (Some "Basic YWxpY2U6cGFzc3dvcmQ="))
  /\ rejects401 (ask (Some "Bearer garbage"))
  /\ rejects401 (ask (Some ("Bearer " ++ Demo.alice_access ++ "0")%string))
  /\ rejects401 (ask (Some ("Bearer " ++ generateAccessToken 1000 "uuid-nobody")%string))
  /\ verdict (ask (Some ("Bearer " ++ Demo.alice_access)%string))
     = inr (Some (UserPublic.mk "uuid-alice" "a@x.com" "alice" MEMBER "A" "L" 1000)).
Proof.
  cbv zeta.
  split; [|split; [|split; [|split; [|split]]]].
  - apply (proj1 (authenticate_cases _ _ _)). reflexivity.
  - apply (proj1 (proj2 (authenticate_cases _ _ _)) "Basic YWxpY2U6cGFzc3dvcmQ=");
      reflexivity.
  - apply (proj1 (proj2 (proj2 (authenticate_cases _ _ _))) "garbage");
      [reflexivity | now left].
  - apply (proj1 (proj2 (proj2 (authenticate_cases _ _ _)))
             (Demo.alice_access ++ "0")%string); [reflexivity | right].
    apply (BadSignature _ _ Jwt.header
             (Jwt.encode_payload (Jwt.mkPayload "uuid-alice" None 1 901))
             (Jwt.signature JWT_SECRET
                (Jwt.header ++ "." ++ Jwt.encode_payload
                                        (Jwt.mkPayload "uuid-alice" None 1 901)) ++ "0"));
      [reflexivity | vm_compute; discriminate].
  - apply (proj1 (proj2 (proj2 (proj2 (authenticate_cases _ _ _))))
             (generateAccessToken 1000 "uuid-nobody")
             (Jwt.mkPayload "uuid-nobody" None 1 901)); reflexivity.
  - rewrite (proj1 (proj2 (proj2 (proj2 (proj2 (authenticate_cases _ _ _)))))
               Demo.alice_access (Jwt.mkPayload "uuid-alice" None 1 901)
               (User.mk "uuid-alice" "a@x.com" "alice" "salt-alice$password123"
                  MEMBER "A" "L" 1000)); reflexivity.
Defined.

End MiddlewareExamples.

(** ** Role guard *)

(** C6 (as the code has it). [requireRole(...roles)] answers 401 "Not
    authenticated" when no identity is attached, 403 "Insufficient
    permissions" when the attached identity's role is not among [roles],
    and otherwise proceeds.  [requireAdmin] takes the same decision, with
    the same status codes, as [requireRole(ADMIN)]: 401 without an
    identity, 403 for a MEMBER identity, proceed for an ADMIN identity;
    its 403 body carries the message "Admin access required". *)
Theorem requireRole_requireAdmin `{Platform} (roles : list UserRole) (req : Request.t) :
  (Request.user req = None ->
     requireRole roles req = Respond (send_message 401 "Not authenticated")
     /\ requireAdmin req = Respond (send_message 401 "Not authenticated"))
  /\ (forall user, Request.user req = Some user ->
        (includes_role roles (UserPublic.role user) = false ->
           requireRole roles req = Respond (send_message 403 "Insufficient permissions"))
        /\ (includes_role roles (UserPublic.role user) = true ->
              requireRole roles req = Next req)
        /\ (UserPublic.role user = MEMBER ->
              requireAdmin req = Respond (send_message 403 "Admin access required")
              /\ requireRole [ADMIN] req
                 = Respond (send_message 403 "Insufficient permissions"))
        /\ (UserPublic.role user = ADMIN ->
              requireAdmin req = Next req /\ requireRole [ADMIN] req = Next req)).
Proof.
  unfold requireRole, requireAdmin. split.
  - intros ->. split; reflexivity.
  - intros user ->. split; [|split; [|split]].
    + now intros ->.
    + now intros ->.
    + intros ->. split; reflexivity.
    + intros ->. split; reflexivity.
Qed.

Section GuardExamples.
#[local] Existing Instance Demo.runtime.
#[local] Existing Instance Demo.platform.

Lemma requireRole_requireAdmin_witness :
  requireAdmin (Demo.request "10.0.0.1" None None Demo.NoBody "")
    = Respond (send_message 401 "Not authenticated")
  /\ requireAdmin Demo.member_request = Respond (send_message 403 "Admin access required")
  /\ requireRole [ADMIN] Demo.member_request
     = Respond (send_message 403 "Insufficient permissions")
  /\ requireAdmin Demo.admin_request = Next Demo.admin_request
  /\ requireRole [MEMBER; ADMIN] Demo.member_request = Next Demo.member_request.
Proof.
  pose proof (proj1 (requireRole_requireAdmin [ADMIN]
                       (Demo.request "10.0.0.1" None None Demo.NoBody "")) eq_refl)
    as [_ Hnone].
  pose proof (proj2 (requireRole_requireAdmin [ADMIN] Demo.member_request) _ eq_refl)
    as (Hout & _ & Hmember & _).
  pose proof (proj2 (requireRole_requireAdmin [ADMIN] Demo.admin_request) _ eq_refl)
    as (_ & _ & _ & Hadmin).
  pose proof (proj2 (requireRole_requireAdmin [MEMBER; ADMIN] Demo.member_request) _ eq_refl)
    as (_ & Hin & _).
  split; [exact Hnone|].
  split; [exact (proj1 (Hmember eq_refl))|].
  split; [exact (Hout eq_refl)|].
  split; [exact (proj1 (Hadmin eq_refl)) | exact (Hin eq_refl)].
Defined.

(** The claim as stated fails: on a MEMBER identity the ADMIN-only guard
    does not answer what [requireRole(ADMIN)] answers. *)
Lemma requireAdmin_differs_from_requireRole :
  ~ (forall req : Request.t, requireAdmin req = requireRole [ADMIN] req).
Proof. intros Hsame. specialize (Hsame Demo.member_request). discriminate Hsame. Qed.

End GuardExamples.

(** ** A refresh token presented as a bearer token *)

(** C10. For every user id [u] and every instant strictly before the
    7-day expiry of the refresh token, [verifyToken] applied to
    [generateRefreshToken u] returns a payload whose [userId] is [u]: the
    [type] tag is not looked at.  So [authenticate] treats a header
    [Bearer <refresh token>] as it treats a verified access token: it
    looks [u] up and attaches that user's identity; and while the access
    token issued at the same instant is still valid, the two headers get
    the same store and the same verdict. *)
Theorem verifyToken_generateRefreshToken `{Platform} (u : string) (issued t : Date) :
  t < expiryInstant issued expiresIn_7d ->
  (exists decoded,
     verifyToken t (generateRefreshToken issued u) = Some decoded
     /\ Jwt.userId decoded = u)
  /\ (forall amb req st,
        now amb = t ->
        Request.authorization req = Some ("Bearer " ++ generateRefreshToken issued u)%string ->
        authenticate amb req st =
          (initialize amb st,
           match JsMap.get u (users (initialize amb st)) with
           | None => Respond (send_message 401 "User not found")
           | Some user => Next (Request.with_user req (toPublicUser user))
           end))
  /\ (forall amb reqR reqA st,
        now amb = t ->
        t < expiryInstant issued expiresIn_15m ->
        Request.authorization reqR = Some ("Bearer " ++ generateRefreshToken issued u)%string ->
        Request.authorization reqA = Some ("Bearer " ++ generateAccessToken issued u)%string ->
        fst (authenticate amb reqR st) = fst (authenticate amb reqA st)
        /\ verdict (snd (authenticate amb reqR st)) = verdict (snd (authenticate amb reqA st))).
Proof.
  intros Hlt.
  assert (Hv : verifyToken t (generateRefreshToken issued u)
               = Some (Jwt.mkPayload u (Some "refresh") (issued / 1000)
                         (issued / 1000 + expiresIn_7d))).
  { unfold generateRefreshToken. now rewrite verifyToken_sign, before_expiry. }
  split; [|split].
  - eexists. split; [exact Hv | reflexivity].
  - intros amb req st Hnow Hh.
    rewrite (authenticate_bearer _ _ _ _ Hh), Hnow, Hv. reflexivity.
  - intros amb reqR reqA st Hnow Hlt' HR HA.
    rewrite (authenticate_bearer _ _ _ _ HR), (authenticate_bearer _ _ _ _ HA), Hnow, Hv.
    unfold generateAccessToken. rewrite verifyToken_sign, before_expiry by assumption.
    cbn [fst snd Jwt.userId]. split; [reflexivity|].
    destruct (JsMap.get u _); reflexivity.
Qed.

Section RefreshAsBearerExamples.
#[local] Existing Instance Demo.runtime.
#[local] Existing Instance Demo.platform.

Lemma verifyToken_generateRefreshToken_witness :
  (exists decoded,
     verifyToken 86400000 Demo.alice_refresh = Some decoded
     /\ Jwt.userId decoded = "uuid-alice")
  /\ verdict (snd (authenticate (Demo.ambient 86400000 "req")
                     (Demo.request "10.0.0.1" (Some ("Bearer " ++ Demo.alice_refresh)%string)
                        None Demo.NoBody "")
                     Demo.store1))
     = inr (Some (UserPublic.mk "uuid-alice" "a@x.com" "alice" MEMBER "A" "L" 1000)).
Proof.
  assert (Hlt : 86400000 < expiryInstant 1000 expiresIn_7d) by reflexivity.
  pose proof (verifyToken_generateRefreshToken "uuid-alice" 1000 86400000 Hlt)
    as (Hverify & Hbearer & _).
  split; [exact Hverify|].
  rewrite (Hbearer (Demo.ambient 86400000 "req")
             (Demo.request "10.0.0.1" (Some ("Bearer " ++ Demo.alice_refresh)%string)
                None Demo.NoBody "")
             Demo.store1 eq_refl eq_refl).
  reflexivity.
Defined.

End RefreshAsBearerExamples.

(** ** Maps *)

Section MapFacts.
Context {V : Type}.
Implicit Types (m : JsMap.t V) (k : string) (v : V) (e : string * V).

Lemma filter_nil {A} (f : A -> bool) (l : list A) :
  (forall x, In x l -> f x = false) -> filter f l = [].
Proof.
  induction l as [|a l IH]; simpl; intros Hall; [reflexivity|].
  rewrite (Hall a) by now left. apply IH. intros x Hx. apply Hall. now right.
Qed.

Lemma has_true k m : JsMap.has k m = true <-> In k (JsMap.keys m).
Proof.
  unfold JsMap.has, JsMap.keys. rewrite existsb_exists, in_map_iff. split.
  - intros [e [He Hk]]. apply String.eqb_eq in Hk. now exists e.
  - intros [e [Hk He]]. exists e. split; [assumption|].
    unfold JsMap.key_is. now rewrite Hk, String.eqb_refl.
Qed.

Lemma has_false k m : JsMap.has k m = false <-> ~ In k (JsMap.keys m).
Proof.
  rewrite <- has_true. destruct (JsMap.has k m); split; congruence.
Qed.

Lemma has_get k m : JsMap.has k m = match JsMap.get k m with Some _ => true | None => false end.
Proof.
  unfold JsMap.has, JsMap.get.
  induction m as [|e m IH]; simpl; [reflexivity|].
  destruct (JsMap.key_is k e); [reflexivity | exact IH].
Qed.

Lemma get_In k v m : JsMap.get k m = Some v -> In (k, v) m.
Proof.
  unfold JsMap.get. destruct (find _ m) as [e|] eqn:Hf; [|discriminate].
  apply find_some in Hf as [He Hk]. apply String.eqb_eq in Hk.
  intros [= <-]. destruct e as [k' v']. simpl in Hk. now subst k'.
Qed.

(** Replacing under an absent key changes nothing. *)
Lemma replace_absent k v m :
  JsMap.has k m = false ->
  map (fun e => if JsMap.key_is k e then (k, v) else e) m = m.
Proof.
  induction m as [|e m IH]; simpl; [reflexivity|].
  intros Hh. apply orb_false_iff in Hh as [He Hm].
  now rewrite He, (IH Hm).
Qed.

Lemma keys_set k v m :
  JsMap.keys (JsMap.set k v m)
  = if JsMap.has k m then JsMap.keys m else (JsMap.keys m ++ [k])%list.
Proof.
  unfold JsMap.set, JsMap.keys. destruct (JsMap.has k m).
  - rewrite map_map. apply map_ext. intros e.
    unfold JsMap.key_is. destruct (String.eqb_spec k (fst e)); [now subst | reflexivity].
  - now rewrite map_app.
Qed.

Lemma NoDup_set k v m : NoDup (JsMap.keys m) -> NoDup (JsMap.keys (JsMap.set k v m)).
Proof.
  intros Hn. rewrite keys_set. destruct (JsMap.has k m) eqn:Hh; [assumption|].
  apply has_false in Hh.
  apply NoDup_app; [assumption | constructor; [easy | constructor] |].
  intros x Hx [<- | []]. contradiction.
Qed.

Lemma In_set e k v m : In e (JsMap.set k v m) -> e = (k, v) \/ In e m.
Proof.
  unfold JsMap.set. destruct (JsMap.has k m).
  - rewrite in_map_iff. intros [e' [He' Hin]].
    destruct (JsMap.key_is k e'); [left | right]; congruence.
  - rewrite in_app_iff. intros [Hin | [<- | []]]; auto.
Qed.

Lemma get_set_eq k v m : JsMap.get k (JsMap.set k v m) = Some v.
Proof.
  unfold JsMap.set. destruct (JsMap.has k m) eqn:Hh.
  - unfold JsMap.get, JsMap.has in *.
    induction m as [|e m IH]; simpl in *; [discriminate|].
    destruct (JsMap.key_is k e) eqn:He; simpl.
    + unfold JsMap.key_is. simpl. now rewrite String.eqb_refl.
    + rewrite He. now apply IH.
  - rewrite has_get in Hh. unfold JsMap.get in *.
    induction m as [|e m IH]; simpl in *.
    + unfold JsMap.key_is. simpl. now rewrite String.eqb_refl.
    + destruct (JsMap.key_is k e); [discriminate | now apply IH].
Qed.

Lemma In_delete e k m : In e (JsMap.delete k m) <-> In e m /\ fst e <> k.
Proof.
  unfold JsMap.delete. rewrite filter_In. unfold JsMap.key_is.
  destruct (String.eqb_spec k (fst e)); simpl; intuition congruence.
Qed.

Lemma keys_delete k m :
  JsMap.keys (JsMap.delete k m) = filter (fun x => negb (k =? x)%string) (JsMap.keys m).
Proof.
  unfold JsMap.keys, JsMap.delete.
  induction m as [|e m IH]; simpl; [reflexivity|].
  unfold JsMap.key_is at 1. destruct (k =? fst e)%string; simpl; now rewrite IH.
Qed.

Lemma NoDup_delete k m : NoDup (JsMap.keys m) -> NoDup (JsMap.keys (JsMap.delete k m)).
Proof. intros Hn. rewrite keys_delete. now apply NoDup_filter. Qed.

Lemma get_delete_eq k m : JsMap.get k (JsMap.delete k m) = None.
Proof.
  destruct (JsMap.get k (JsMap.delete k m)) as [v|] eqn:Hg; [|reflexivity].
  apply get_In, In_delete in Hg as [_ Hne]. now destruct Hne.
Qed.

Lemma filed_under_set (key : V -> string) k v m :
  key v = k -> filed_under key m -> filed_under key (JsMap.set k v m).
Proof.
  intros Hk Hm k' v' Hin. apply In_set in Hin as [[= -> ->] | Hin]; auto.
Qed.

Lemma filed_under_delete (key : V -> string) k m :
  filed_under key m -> filed_under key (JsMap.delete k m).
Proof. intros Hm k' v' Hin. apply In_delete in Hin as [Hin _]. auto. Qed.

(** Deleting the keys of a list of values, one after the other. *)
Lemma In_delete_all (key : V -> string) (l : list V) e m :
  In e (fold_left (fun m x => JsMap.delete (key x) m) l m)
  <-> In e m /\ forall x, In x l -> fst e <> key x.
Proof.
  revert m. induction l as [|x l IH]; intros m; simpl.
  - intuition.
  - rewrite IH, In_delete. split.
    + intros [[Hin Hne] Hall]. split; [assumption|].
      intros y [<- | Hy]; auto.
    + intros [Hin Hall]. repeat split; auto.
Qed.

Lemma NoDup_delete_all (key : V -> string) (l : list V) m :
  NoDup (JsMap.keys m) ->
  NoDup (JsMap.keys (fold_left (fun m x => JsMap.delete (key x) m) l m)).
Proof.
  revert m. induction l as [|x l IH]; intros m Hn; simpl; [assumption|].
  apply IH. now apply NoDup_delete.
Qed.

Lemma filed_under_delete_all (key key' : V -> string) (l : list V) m :
  filed_under key m ->
  filed_under key (fold_left (fun m x => JsMap.delete (key' x) m) l m).
Proof.
  intros Hm k v Hin. apply In_delete_all in Hin as [Hin _]. auto.
Qed.

(** After [set k v], [v] is the only value that passes a test which no
    earlier value passed. *)
Lemma filter_values_set (f : V -> bool) k v m :
  NoDup (JsMap.keys m) ->
  (forall x, In x (JsMap.values m) -> f x = false) ->
  f v = true ->
  filter f (JsMap.values (JsMap.set k v m)) = [v].
Proof.
  intros Hn Hall Hv. unfold JsMap.set. destruct (JsMap.has k m) eqn:Hh.
  - induction m as [|e m IH]; simpl in *; [discriminate|].
    inversion Hn as [|k' ks Hnotin Hn']; subst.
    destruct (JsMap.key_is k e) eqn:He; simpl.
    + rewrite Hv. f_equal.
      assert (Habs : JsMap.has k m = false).
      { apply has_false. apply String.eqb_eq in He. now rewrite He. }
      rewrite (replace_absent _ _ _ Habs).
      apply filter_nil. intros x Hx. apply Hall. now right.
    + rewrite (Hall (snd e)) by now left.
      apply IH; auto.
  - unfold JsMap.values in *. rewrite map_app, filter_app. simpl. rewrite Hv.
    now rewrite (filter_nil f _ Hall).
Qed.

End MapFacts.

(** ** Credential store *)

Section StorageFacts.
Context `{Platform}.

Lemma ensureInitialized_eq (amb : Ambient) (st : MemStorage) :
  ensureInitialized amb st = (initialize amb st, inr tt).
Proof.
  unfold initialize, ensureInitialized. now destruct (initialized st).
Qed.

Lemma initialized_initialize (amb : Ambient) (st : MemStorage) :
  initialized (initialize amb st) = true.
Proof.
  unfold initialize, ensureInitialized. now destruct (initialized st) eqn:Hi.
Qed.

Lemma initialize_initialized (amb : Ambient) (st : MemStorage) :
  initialized st = true -> initialize amb st = st.
Proof. unfold initialize, ensureInitialized. now intros ->. Qed.

Lemma initialize_idem (amb amb' : Ambient) (st : MemStorage) :
  initialize amb' (initialize amb st) = initialize amb st.
Proof. apply initialize_initialized, initialized_initialize. Qed.

Lemma refreshTokens_initialize (amb : Ambient) (st : MemStorage) :
  refreshTokens (initialize amb st) = refreshTokens st.
Proof. unfold initialize, ensureInitialized. now destruct (initialized st). Qed.

Lemma getUserByEmail_eq (amb : Ambient) (email : string) (st : MemStorage) :
  getUserByEmail amb email st
  = (initialize amb st,
     inr (find (fun user => (Js.toLowerCase (User.email user) =? Js.toLowerCase email)%string)
            (JsMap.values (users (initialize amb st))))).
Proof. unfold getUserByEmail, bind. now rewrite ensureInitialized_eq. Qed.

Lemma getUserByUsername_eq (amb : Ambient) (username : string) (st : MemStorage) :
  getUserByUsername amb username st
  = (initialize amb st,
     inr (find (fun user =>
                  (Js.toLowerCase (User.username user) =? Js.toLowerCase username)%string)
            (JsMap.values (users (initialize amb st))))).
Proof. unfold getUserByUsername, bind. now rewrite ensureInitialized_eq. Qed.

Lemma createUser_eq (amb : Ambient) (userData : NewUser.t) (st : MemStorage) :
  let user :=
    User.mk (user_uuid amb) (NewUser.email userData) (NewUser.username userData)
      (NewUser.password userData) (NewUser.role userData)
      (NewUser.firstName userData) (NewUser.lastName userData) (now amb) in
  createUser amb userData st
  = (set_users (JsMap.set (user_uuid amb) user) (initialize amb st), inr user).
Proof. unfold createUser, bind. now rewrite ensureInitialized_eq. Qed.

Lemma deleteUser_eq (amb : Ambient) (id : string) (st : MemStorage) :
  deleteUser amb id st
  = (set_users (JsMap.delete id) (initialize amb st),
     inr (JsMap.has id (users (initialize amb st)))).
Proof. unfold deleteUser, bind. now rewrite ensureInitialized_eq. Qed.

Lemma createRefreshToken_eq (amb : Ambient) (userId token : string) (expiresAt : Date)
    (st : MemStorage) :
  let row := RefreshToken.mk (token_uuid amb) userId token expiresAt (now amb) in
  createRefreshToken amb userId token expiresAt st
  = (set_refreshTokens (JsMap.set token row) (initialize amb st), inr row).
Proof. unfold createRefreshToken, bind. now rewrite ensureInitialized_eq. Qed.

Lemma getRefreshToken_eq (amb : Ambient) (token : string) (st : MemStorage) :
  getRefreshToken amb token st
  = (initialize amb st, inr (JsMap.get token (refreshTokens st))).
Proof.
  unfold getRefreshToken, bind. rewrite ensureInitialized_eq.
  unfold gets. now rewrite refreshTokens_initialize.
Qed.

Lemma deleteRefreshToken_eq (amb : Ambient) (token : string) (st : MemStorage) :
  deleteRefreshToken amb token st
  = (set_refreshTokens (JsMap.delete token) (initialize amb st),
     inr (JsMap.has token (refreshTokens st))).
Proof.
  unfold deleteRefreshToken, bind. rewrite ensureInitialized_eq.
  unfold gets. now rewrite refreshTokens_initialize.
Qed.

Lemma deleteRefreshTokensByUser_eq (amb : Ambient) (userId : string) (st : MemStorage) :
  deleteRefreshTokensByUser amb userId st
  = (set_refreshTokens (without_tokens_of userId) (initialize amb st), inr true).
Proof.
  unfold deleteRefreshTokensByUser, bind. now rewrite ensureInitialized_eq.
Qed.

(** *** The store stays well formed *)

Lemma wf_new : wf_store MemStorage_new.
Proof. split; simpl; try constructor; intros k v []. Qed.

Lemma wf_initialize (amb : Ambient) (st : MemStorage) :
  wf_store st -> wf_store (initialize amb st).
Proof.
  intros [Hu Hi Ht Hk]. unfold initialize, ensureInitialized.
  destruct (initialized st); [now split|].
  split; simpl; auto using NoDup_set. now apply filed_under_set.
Qed.

Lemma wf_set_user (user : User.t) (st : MemStorage) :
  wf_store st -> wf_store (set_users (JsMap.set (User.id user) user) st).
Proof.
  intros [Hu Hi Ht Hk]. split; simpl; auto using NoDup_set.
  now apply filed_under_set.
Qed.

Lemma wf_delete_user (id : string) (st : MemStorage) :
  wf_store st -> wf_store (set_users (JsMap.delete id) st).
Proof.
  intros [Hu Hi Ht Hk].
  split; simpl; auto using NoDup_delete. now apply filed_under_delete.
Qed.

Lemma wf_set_token (row : RefreshToken.t) (st : MemStorage) :
  wf_store st ->
  wf_store (set_refreshTokens (JsMap.set (RefreshToken.token row) row) st).
Proof.
  intros [Hu Hi Ht Hk]. split; simpl; auto using NoDup_set.
  now apply filed_under_set.
Qed.

Lemma wf_delete_token (token : string) (st : MemStorage) :
  wf_store st -> wf_store (set_refreshTokens (JsMap.delete token) st).
Proof.
  intros [Hu Hi Ht Hk].
  split; simpl; auto using NoDup_delete. now apply filed_under_delete.
Qed.

Lemma wf_without_tokens_of (userId : string) (st : MemStorage) :
  wf_store st -> wf_store (set_refreshTokens (without_tokens_of userId) st).
Proof.
  intros [Hu Hi Ht Hk]. unfold without_tokens_of.
  split; simpl; auto using NoDup_delete_all, filed_under_delete_all.
Qed.

(** Once [deleteRefreshTokensByUser] has run, the user owns no row. *)
Lemma not_owned_without (userId : string) (m : JsMap.t RefreshToken.t) :
  filed_under RefreshToken.token m ->
  forall row, In row (JsMap.values (without_tokens_of userId m)) ->
              owned_by userId row = false.
Proof.
  intros Hk row Hrow.
  destruct (owned_by userId row) eqn:Hown; [exfalso | reflexivity].
  unfold JsMap.values in Hrow.
  apply in_map_iff in Hrow as [[k row'] [<- Hin]]. simpl in Hown.
  apply In_delete_all in Hin as [Hin Hall].
  apply (Hall row').
  - apply filter_In. split; [|assumption].
    unfold JsMap.values. apply in_map_iff. now exists (k, row').
  - simpl. symmetry. now apply Hk.
Qed.

Lemma tokensOf_without (userId : string) (st : MemStorage) :
  filed_under RefreshToken.token (refreshTokens st) ->
  tokensOf userId (set_refreshTokens (without_tokens_of userId) st) = [].
Proof.
  intros Hk. unfold tokensOf. apply filter_nil. now apply not_owned_without.
Qed.

End StorageFacts.

(** ** Route handlers, step by step *)

(** Rewrites the store methods of a handler into their effect on the
    initialized store. *)
Ltac run_store :=
  unfold handle, parse, bind, gets, modify, ret, throw;
  cbn beta iota zeta;
  repeat (first
    [ rewrite getUserByEmail_eq | rewrite getUserByUsername_eq
    | rewrite getUser_eq | rewrite createUser_eq | rewrite deleteUser_eq
    | rewrite createRefreshToken_eq | rewrite getRefreshToken_eq
    | rewrite deleteRefreshToken_eq | rewrite deleteRefreshTokensByUser_eq ];
    cbn beta iota zeta).

(** [ensureInitialized] does nothing to a store that already went
    through it. *)
Ltac settle_init :=
  repeat match goal with
    | |- context [initialize ?a (set_users ?f ?s)] =>
        rewrite (initialize_initialized a (set_users f s))
          by (cbn; auto using initialized_initialize)
    | |- context [initialize ?a (set_refreshTokens ?f ?s)] =>
        rewrite (initialize_initialized a (set_refreshTokens f s))
          by (cbn; auto using initialized_initialize)
    | |- context [initialize ?a (initialize ?b ?s)] =>
        rewrite (initialize_idem b a s)
    end.

Section HandlerFacts.
Context `{Platform}.

Lemma login_eq (amb : Ambient) (req : Request.t) (st : MemStorage) :
  login amb req st =
    match loginSchema_parse (Request.body req) with
    | None => (st, errorHandler ZodError)
    | Some data =>
        let st0 := initialize amb st in
        match find (by_email (LoginInput.email data)) (JsMap.values (users st0)) with
        | None => (st0, send_message 401 "Invalid email or password")
        | Some user =>
            if bcrypt_compare (LoginInput.password data) (User.password user) then
              let refreshToken := generateRefreshToken (now amb) (User.id user) in
              let row := RefreshToken.mk (token_uuid amb) (User.id user) refreshToken
                           (addDays 7 (now amb)) (now amb) in
              (set_refreshTokens (JsMap.set refreshToken row)
                 (set_refreshTokens (without_tokens_of (User.id user)) st0),
               Response.mk 200
                 (JUserAndToken (toPublicUser user)
                    (generateAccessToken (now amb) (User.id user)))
                 [refreshTokenCookie refreshToken] [])
            else (st0, send_message 401 "Invalid email or password")
        end
    end.
Proof.
  unfold login, login_try.
  destruct (loginSchema_parse (Request.body req)) as [data|]; [|reflexivity].
  run_store. fold (by_email (LoginInput.email data)).
  destruct (find _ _) as [user|]; [|reflexivity].
  destruct (bcrypt_compare _ _); [|reflexivity].
  cbn [negb]. run_store. settle_init. reflexivity.
Qed.

Lemma register_eq (amb : Ambient) (req : Request.t) (st : MemStorage) :
  register amb req st =
    match registerSchema_parse (Request.body req) with
    | None => (st, errorHandler ZodError)
    | Some data =>
        let st0 := initialize amb st in
        match find (by_email (RegisterInput.email data)) (JsMap.values (users st0)) with
        | Some _ => (st0, send_message 400 "Email already registered")
        | None =>
            match find (by_username (RegisterInput.username data))
                    (JsMap.values (users st0)) with
            | Some _ => (st0, send_message 400 "Username already taken")
            | None =>
                let user :=
                  User.mk (user_uuid amb) (RegisterInput.email data)
                    (RegisterInput.username data)
                    (bcrypt_hash (RegisterInput.password data) (user_salt amb)) MEMBER
                    (RegisterInput.firstName data) (RegisterInput.lastName data)
                    (now amb) in
                let refreshToken := generateRefreshToken (now amb) (user_uuid amb) in
                let row := RefreshToken.mk (token_uuid amb) (user_uuid amb) refreshToken
                             (addDays 7 (now amb)) (now amb) in
                (set_refreshTokens (JsMap.set refreshToken row)
                   (set_users (JsMap.set (user_uuid amb) user) st0),
                 Response.mk 201
                   (JUserAndToken (toPublicUser user)
                      (generateAccessToken (now amb) (user_uuid amb)))
                   [refreshTokenCookie refreshToken] [])
            end
        end
    end.
Proof.
  unfold register, register_try.
  destruct (registerSchema_parse (Request.body req)) as [data|]; [|reflexivity].
  run_store. fold (by_email (RegisterInput.email data)).
  destruct (find _ _) as [user|]; [reflexivity|].
  run_store. settle_init. fold (by_username (RegisterInput.username data)).
  destruct (find _ _) as [user|]; [reflexivity|].
  run_store. settle_init. reflexivity.
Qed.

Lemma refresh_eq (amb : Ambient) (req : Request.t) (st : MemStorage) :
  refresh amb req st =
    match Request.cookies_refreshToken req with
    | None => (st, send_message 401 "No refresh token provided")
    | Some refreshToken =>
        if (refreshToken =? "")%string
        then (st, send_message 401 "No refresh token provided")
        else
          let st0 := initialize amb st in
          match JsMap.get refreshToken (refreshTokens st) with
          | None => (st0, send_message 401 "Invalid refresh token")
          | Some storedToken =>
              if RefreshToken.expiresAt storedToken <? now amb
              then (set_refreshTokens (JsMap.delete refreshToken) st0,
                    send_message 401 "Refresh token expired")
              else
                match verifyToken (now amb) refreshToken with
                | None => (set_refreshTokens (JsMap.delete refreshToken) st0,
                           send_message 401 "Invalid refresh token")
                | Some decoded =>
                    match JsMap.get (Jwt.userId decoded) (users st0) with
                    | None => (st0, send_message 401 "User not found")
                    | Some user =>
                        (st0,
                         Response.mk 200
                           (JAccessToken (generateAccessToken (now amb) (User.id user)))
                           [] [])
                    end
                end
          end
    end.
Proof.
  unfold refresh, refresh_try.
  destruct (Request.cookies_refreshToken req) as [refreshToken|]; [|reflexivity].
  cbn [Js.truthy]. destruct (refreshToken =? "")%string; [reflexivity|].
  cbn [negb]. run_store.
  destruct (JsMap.get refreshToken (refreshTokens st)) as [storedToken|]; [|reflexivity].
  destruct (RefreshToken.expiresAt storedToken <? now amb).
  { run_store. settle_init. reflexivity. }
  destruct (verifyToken (now amb) refreshToken) as [decoded|].
  - run_store. settle_init. destruct (JsMap.get _ _); reflexivity.
  - run_store. settle_init. reflexivity.
Qed.

Lemma deleteUserById_eq (amb : Ambient) (req : Request.t) (st : MemStorage) :
  deleteUserById amb req st =
    if match Request.user req with
       | Some user => (UserPublic.id user =? Request.params_id req)%string
       | None => false
       end
    then (st, send_message 400 "Cannot delete your own account")
    else
      let st0 := initialize amb st in
      if JsMap.has (Request.params_id req) (users st0)
      then (set_refreshTokens (without_tokens_of (Request.params_id req))
              (set_users (JsMap.delete (Request.params_id req)) st0),
            send_message 200 "User deleted successfully")
      else (set_users (JsMap.delete (Request.params_id req)) st0,
            send_message 404 "User not found").
Proof.
  unfold deleteUserById, deleteUserById_try.
  destruct (match Request.user req with Some _ => _ | None => _ end); [reflexivity|].
  run_store. destruct (JsMap.has _ _); cbn [negb]; [|reflexivity].
  run_store. settle_init. reflexivity.
Qed.

(** *** Every route keeps the store well formed *)

Lemma login_wf (amb : Ambient) (req : Request.t) (st : MemStorage) :
  wf_store st -> wf_store (fst (login amb req st)).
Proof.
  intros Hwf. rewrite login_eq.
  destruct (loginSchema_parse _) as [data|]; [cbv zeta | assumption].
  destruct (find _ _) as [user|]; [|now apply wf_initialize].
  destruct (bcrypt_compare _ _); [|now apply wf_initialize].
  cbn [fst].
  apply (wf_set_token (RefreshToken.mk _ _ _ _ _)), wf_without_tokens_of, wf_initialize, Hwf.
Qed.

Lemma register_wf (amb : Ambient) (req : Request.t) (st : MemStorage) :
  wf_store st -> wf_store (fst (register amb req st)).
Proof.
  intros Hwf. rewrite register_eq.
  destruct (registerSchema_parse _) as [data|]; [cbv zeta | assumption].
  destruct (find _ _) as [user|]; [now apply wf_initialize|].
  destruct (find _ _) as [user|]; [now apply wf_initialize|].
  cbn [fst].
  apply (wf_set_token (RefreshToken.mk _ _ _ _ _)),
        (wf_set_user (User.mk _ _ _ _ _ _ _ _)), wf_initialize, Hwf.
Qed.

Lemma refresh_wf (amb : Ambient) (req : Request.t) (st : MemStorage) :
  wf_store st -> wf_store (fst (refresh amb req st)).
Proof.
  intros Hwf. rewrite refresh_eq.
  destruct (Request.cookies_refreshToken req) as [refreshToken|]; [|assumption].
  destruct (refreshToken =? "")%string; [assumption | cbv zeta].
  destruct (JsMap.get refreshToken _) as [storedToken|]; [|now apply wf_initialize].
  destruct (_ <? _); [now apply wf_delete_token, wf_initialize|].
  destruct (verifyToken _ _) as [decoded|]; [|now apply wf_delete_token, wf_initialize].
  destruct (JsMap.get _ _); now apply wf_initialize.
Qed.

Lemma logout_wf (amb : Ambient) (req : Request.t) (st : MemStorage) :
  wf_store st -> wf_store (fst (logout amb req st)).
Proof.
  intros Hwf. unfold logout, logout_try.
  destruct (Request.cookies_refreshToken req) as [refreshToken|];
    [destruct (Js.truthy (Some refreshToken))|];
    (destruct (Request.user req) as [user|]);
    run_store; settle_init; cbn [fst];
    auto using wf_initialize, wf_delete_token, wf_without_tokens_of.
Qed.

Lemma deleteUserById_wf (amb : Ambient) (req : Request.t) (st : MemStorage) :
  wf_store st -> wf_store (fst (deleteUserById amb req st)).
Proof.
  intros Hwf. rewrite deleteUserById_eq.
  destruct (match Request.user req with Some _ => _ | None => _ end); [assumption|].
  cbv zeta. destruct (JsMap.has _ _); cbn [fst];
    auto using wf_initialize, wf_delete_user, wf_without_tokens_of.
Qed.

Lemma authenticate_wf (amb : Ambient) (req : Request.t) (st : MemStorage) :
  wf_store st -> wf_store (fst (authenticate amb req st)).
Proof.
  intros Hwf. unfold authenticate, authenticate_try.
  destruct (Request.authorization req) as [header|]; [|assumption].
  destruct (_ || _); [assumption|].
  destruct (verifyToken _ _) as [decoded|]; [|assumption].
  run_store. destruct (JsMap.get _ _); now apply wf_initialize.
Qed.

Lemma handler_wf (r : Route) (amb : Ambient) (req : Request.t) (st : MemStorage) :
  wf_store st -> wf_store (fst (handler r amb req st)).
Proof.
  destruct r; simpl;
    auto using register_wf, login_wf, refresh_wf, logout_wf, deleteUserById_wf.
Qed.

Lemma run_chain_wf (ms : list Middleware) (amb : Ambient) (req : Request.t) (srv : Server) :
  wf_store (storage srv) -> wf_store (storage (fst (run_chain ms amb req srv))).
Proof.
  revert req srv. induction ms as [|m ms IH]; intros req srv Hwf; [assumption|].
  simpl. destruct (run_middleware m amb req srv) as [srv' o] eqn:Hm.
  assert (Hwf' : wf_store (storage srv')).
  { destruct m; simpl in Hm.
    - now inversion Hm; subst.
    - pose proof (authenticate_wf amb req _ Hwf) as Ha.
      destruct (authenticate amb req (storage srv)). now inversion Hm; subst.
    - now inversion Hm; subst. }
  destruct o; [assumption | now apply IH].
Qed.

(** One request keeps the store well formed. *)
Lemma dispatch_wf (r : Route) (amb : Ambient) (req : Request.t) (srv : Server) :
  wf_store (storage srv) -> wf_store (storage (fst (dispatch r amb req srv))).
Proof.
  intros Hwf. unfold dispatch.
  pose proof (run_chain_wf (middlewares r) amb req srv Hwf) as Hc.
  destruct (run_chain _ _ _ _) as [srv' [res|req']]; [assumption|].
  cbn [fst] in Hc.
  pose proof (handler_wf r amb req' _ Hc) as Hh.
  destruct (handler r amb req' (storage srv')). exact Hh.
Qed.

End HandlerFacts.

Lemma reachable_wf `{Platform} (srv : Server) : reachable srv -> wf_store (storage srv).
Proof.
  induction 1 as [|r amb req srv _ IH]; [apply wf_new | now apply dispatch_wf].
Qed.

(** ** Login *)

Section LoginFacts.
Context `{Platform}.

(** After a successful login the user owns exactly the row that was just
    inserted. *)
Lemma login_tokensOf (amb : Ambient) (req : Request.t) (st : MemStorage)
    (user : UserPublic.t) (accessToken : string) :
  wf_store st ->
  Response.json (snd (login amb req st)) = JUserAndToken user accessToken ->
  tokensOf (UserPublic.id user) (fst (login amb req st))
  = [RefreshToken.mk (token_uuid amb) (UserPublic.id user)
       (generateRefreshToken (now amb) (UserPublic.id user))
       (addDays 7 (now amb)) (now amb)].
Proof.
  intros Hwf. rewrite login_eq.
  destruct (loginSchema_parse _) as [data|]; [cbv zeta | discriminate].
  destruct (find _ _) as [u|]; [|discriminate].
  destruct (bcrypt_compare _ _); [|discriminate].
  cbn [fst snd Response.json]. intros [= <- _]. cbn [toPublicUser UserPublic.id].
  unfold tokensOf. cbn [refreshTokens set_refreshTokens].
  pose proof (wf_initialize amb st Hwf) as [_ _ Hn Hk].
  apply filter_values_set.
  - now apply NoDup_delete_all.
  - now apply not_owned_without.
  - unfold owned_by. apply String.eqb_refl.
Qed.

End LoginFacts.

(** C2. After each successful login, exactly one refresh token row
    owned by the user that logged in exists in the store, and it is the
    newly issued one: login deletes the user's prior rows before it
    inserts the new one.  So after two successful logins in a row by the
    same user, that user still owns exactly one row. *)
Theorem login_single_refresh_token `{Platform} (amb : Ambient) (req : Request.t)
    (st : MemStorage) (user : UserPublic.t) (accessToken : string) :
  wf_store st ->
  Response.json (snd (login amb req st)) = JUserAndToken user accessToken ->
  let st1 := fst (login amb req st) in
  tokensOf (UserPublic.id user) st1
  = [RefreshToken.mk (token_uuid amb) (UserPublic.id user)
       (generateRefreshToken (now amb) (UserPublic.id user))
       (addDays 7 (now amb)) (now amb)]
  /\ List.length (tokensOf (UserPublic.id user) st1) = 1%nat
  /\ (forall amb' req' user' accessToken',
        Response.json (snd (login amb' req' st1)) = JUserAndToken user' accessToken' ->
        UserPublic.id user' = UserPublic.id user ->
        List.length (tokensOf (UserPublic.id user) (fst (login amb' req' st1))) = 1%nat).
Proof.
  intros Hwf Hok st1.
  pose proof (login_tokensOf amb req st user accessToken Hwf Hok) as Hone.
  fold st1 in Hone. split; [exact Hone|]. split; [now rewrite Hone|].
  intros amb' req' user' accessToken' Hok' Hid.
  assert (Hwf1 : wf_store st1) by now apply login_wf.
  rewrite <- Hid. now rewrite (login_tokensOf amb' req' st1 user' accessToken' Hwf1 Hok').
Qed.

Section LoginExamples.
#[local] Existing Instance Demo.runtime.
#[local] Existing Instance Demo.platform.

Lemma login_single_refresh_token_witness :
  let credentials := Demo.LoginBody (LoginInput.mk "A@X.com" "password123") in
  let st1 := fst (login (Demo.ambient 2000 "login1")
                    (Demo.request "10.0.0.1" None None credentials "") Demo.store1) in
  let st2 := fst (login (Demo.ambient 3000 "login2")
                    (Demo.request "10.0.0.1" None None credentials "") st1) in
  List.length (tokensOf "uuid-alice" Demo.store1) = 1%nat
  /\ List.length (tokensOf "uuid-alice" st1) = 1%nat
  /\ List.length (tokensOf "uuid-alice" st2) = 1%nat.
Proof.
  cbv zeta.
  assert (Hwf : wf_store Demo.store1) by (apply register_wf, wf_new).
  pose proof (login_single_refresh_token (Demo.ambient 2000 "login1")
                (Demo.request "10.0.0.1" None None
                   (Demo.LoginBody (LoginInput.mk "A@X.com" "password123")) "")
                Demo.store1
                (UserPublic.mk "uuid-alice" "a@x.com" "alice" MEMBER "A" "L" 1000)
                (generateAccessToken 2000 "uuid-alice") Hwf eq_refl)
    as (_ & Hfirst & Hsecond).
  split; [reflexivity|]. split; [exact Hfirst|].
  exact (Hsecond (Demo.ambient 3000 "login2")
           (Demo.request "10.0.0.1" None None
              (Demo.LoginBody (LoginInput.mk "A@X.com" "password123")) "")
           (UserPublic.mk "uuid-alice" "a@x.com" "alice" MEMBER "A" "L" 1000)
           (generateAccessToken 3000 "uuid-alice") eq_refl eq_refl).
Defined.

End LoginExamples.


Section LoginFailureExamples.
#[local] Existing Instance Demo.runtime.
#[local] Existing Instance Demo.platform.



End LoginFailureExamples.

(** ** Refresh *)

(** C4. The refresh handler answers 401 when the [refreshToken] cookie
    is absent (or empty), when no stored row matches the cookie, when the
    stored row's expiry has passed (the row is deleted first), when the
    token fails [verifyToken] (the row is deleted first), and when the
    token's user no longer exists; on success it answers with a newly
    issued access token and nothing else (no cookie is set), and the
    stored refresh token rows are left as they were. *)
Theorem refresh_cases `{Platform} (amb : Ambient) (req : Request.t) (st : MemStorage) :
  let st' := fst (refresh amb req st) in
  let res := snd (refresh amb req st) in
  (Js.truthy (Request.cookies_refreshToken req) = false ->
     res = send_message 401 "No refresh token provided" /\ st' = st)
  /\ (forall refreshToken,
        Request.cookies_refreshToken req = Some refreshToken ->
        refreshToken <> EmptyString ->
        (JsMap.get refreshToken (refreshTokens st) = None ->
           res = send_message 401 "Invalid refresh token"
           /\ refreshTokens st' = refreshTokens st)
        /\ (forall storedToken,
              JsMap.get refreshToken (refreshTokens st) = Some storedToken ->
              (RefreshToken.expiresAt storedToken < now amb ->
                 res = send_message 401 "Refresh token expired"
                 /\ refreshTokens st' = JsMap.delete refreshToken (refreshTokens st)
                 /\ JsMap.get refreshToken (refreshTokens st') = None)
              /\ (now amb <= RefreshToken.expiresAt storedToken ->
                  verifyToken (now amb) refreshToken = None ->
                  res = send_message 401 "Invalid refresh token"
                  /\ refreshTokens st' = JsMap.delete refreshToken (refreshTokens st)
                  /\ JsMap.get refreshToken (refreshTokens st') = None)
              /\ (forall decoded,
                    now amb <= RefreshToken.expiresAt storedToken ->
                    verifyToken (now amb) refreshToken = Some decoded ->
                    (JsMap.get (Jwt.userId decoded) (users (initialize amb st)) = None ->
                       res = send_message 401 "User not found"
                       /\ refreshTokens st' = refreshTokens st)
                    /\ (forall user,
                          JsMap.get (Jwt.userId decoded) (users (initialize amb st))
                          = Some user ->
                          res = Response.mk 200
                                  (JAccessToken
                                     (generateAccessToken (now amb) (User.id user)))
                                  [] []
                          /\ refreshTokens st' = refreshTokens st)))).
Proof.
  cbv zeta. rewrite refresh_eq. split.
  - destruct (Request.cookies_refreshToken req) as [tok|]; [|now split].
    cbn [Js.truthy]. destruct (tok =? "")%string; [now split | discriminate].
  - intros tok -> Hne. apply String.eqb_neq in Hne. rewrite Hne. cbv zeta. split.
    + intros ->. split; [reflexivity | apply refreshTokens_initialize].
    + intros stored ->. split; [|split].
      * intros Hexp. apply N.ltb_lt in Hexp. rewrite Hexp. cbn [fst snd refreshTokens set_refreshTokens].
        rewrite refreshTokens_initialize. repeat split. apply get_delete_eq.
      * intros Hlive Hv. apply N.ltb_ge in Hlive. rewrite Hlive, Hv.
        cbn [fst snd refreshTokens set_refreshTokens].
        rewrite refreshTokens_initialize. repeat split. apply get_delete_eq.
      * intros decoded Hlive Hv. apply N.ltb_ge in Hlive. rewrite Hlive, Hv. split.
        -- intros ->. split; [reflexivity | apply refreshTokens_initialize].
        -- intros user ->. split; [reflexivity | apply refreshTokens_initialize].
Qed.

Section RefreshExamples.
#[local] Existing Instance Demo.runtime.
#[local] Existing Instance Demo.platform.

Lemma refresh_cases_witness :
  let alice_row :=
    RefreshToken.mk "rt-alice" "uuid-alice" Demo.alice_refresh 604801000 1000 in
  let cookie := Demo.refresh_request (Some Demo.alice_refresh) in
  snd (refresh (Demo.ambient 5000 "r") (Demo.refresh_request None) Demo.store1)
    = send_message 401 "No refresh token provided"
  /\ snd (refresh (Demo.ambient 5000 "r") (Demo.refresh_request (Some "stale")) Demo.store1)
     = send_message 401 "Invalid refresh token"
  /\ (snd (refresh (Demo.ambient 604801001 "r") cookie Demo.store1)
      = send_message 401 "Refresh token expired"
      /\ refreshTokens (fst (refresh (Demo.ambient 604801001 "r") cookie Demo.store1)) = [])
  /\ (snd (refresh (Demo.ambient 604801000 "r") cookie Demo.store1)
      = send_message 401 "Invalid refresh token"
      /\ refreshTokens (fst (refresh (Demo.ambient 604801000 "r") cookie Demo.store1)) = [])
  /\ snd (refresh (Demo.ambient 5000 "r") cookie Demo.store_orphan)
     = send_message 401 "User not found"
  /\ (snd (refresh (Demo.ambient 5000 "r") cookie Demo.store1)
      = Response.mk 200 (JAccessToken (generateAccessToken 5000 "uuid-alice")) [] []
      /\ refreshTokens (fst (refresh (Demo.ambient 5000 "r") cookie Demo.store1))
         = [(Demo.alice_refresh, alice_row)]).
Proof.
  intros alice_row cookie.
  assert (Hne : Demo.alice_refresh <> EmptyString) by discriminate.
  assert (Hrow : JsMap.get Demo.alice_refresh (refreshTokens Demo.store1) = Some alice_row)
    by reflexivity.
  split; [|split; [|split; [|split; [|split]]]].
  - now apply (proj1 (refresh_cases (Demo.ambient 5000 "r") (Demo.refresh_request None)
                        Demo.store1)).
  - apply (proj2 (refresh_cases (Demo.ambient 5000 "r")
                    (Demo.refresh_request (Some "stale")) Demo.store1) "stale" eq_refl);
      [discriminate | reflexivity].
  - pose proof (proj2 (refresh_cases (Demo.ambient 604801001 "r") cookie Demo.store1)
                  _ eq_refl Hne) as [_ Hstored].
    destruct (Hstored _ Hrow) as [Hexpired _].
    destruct (Hexpired eq_refl) as (Hres & Hstore & _).
    split; [exact Hres | rewrite Hstore; reflexivity].
  - pose proof (proj2 (refresh_cases (Demo.ambient 604801000 "r") cookie Demo.store1)
                  _ eq_refl Hne) as [_ Hstored].
    destruct (Hstored _ Hrow) as (_ & Hinvalid & _).
    assert (Hlive : 604801000 <= RefreshToken.expiresAt alice_row) by (apply N.le_refl).
    destruct (Hinvalid Hlive eq_refl) as (Hres & Hstore & _).
    split; [exact Hres | rewrite Hstore; reflexivity].
  - pose proof (proj2 (refresh_cases (Demo.ambient 5000 "r") cookie Demo.store_orphan)
                  _ eq_refl Hne) as [_ Hstored].
    destruct (Hstored _ Hrow) as (_ & _ & Hverified).
    assert (Hlive : 5000 <= RefreshToken.expiresAt alice_row) by (vm_compute; discriminate).
    destruct (Hverified (Jwt.mkPayload "uuid-alice" (Some "refresh") 1 604801)
                Hlive eq_refl) as [Hgone _].
    now apply Hgone.
  - pose proof (proj2 (refresh_cases (Demo.ambient 5000 "r") cookie Demo.store1)
                  _ eq_refl Hne) as [_ Hstored].
    destruct (Hstored _ Hrow) as (_ & _ & Hverified).
    assert (Hlive : 5000 <= RefreshToken.expiresAt alice_row) by (vm_compute; discriminate).
    destruct (Hverified (Jwt.mkPayload "uuid-alice" (Some "refresh") 1 604801)
                Hlive eq_refl) as [_ Hfound].
    destruct (Hfound (User.mk "uuid-alice" "a@x.com" "alice" "salt-alice$password123"
                        MEMBER "A" "L" 1000) eq_refl) as [Hres Hstore].
    split; [exact Hres | rewrite Hstore; reflexivity].
Defined.

End RefreshExamples.

(** ** Register *)

Section RegisterFacts.
Context `{Platform}.

Lemma find_absent {A} (f : A -> bool) (l : list A) :
  (forall x, In x l -> f x = false) -> find f l = None.
Proof.
  intros Hall. destruct (find f l) as [x|] eqn:Hf; [|reflexivity].
  apply find_some in Hf as [Hin Hx]. rewrite (Hall x Hin) in Hx. discriminate.
Qed.

End RegisterFacts.

(** C7. A register request whose email or username equals, after
    the runtime's [toLowerCase] on both sides, the email or username of
    a user in the store is answered with 400 and creates no user (so is
    a request that [registerSchema] refuses).  A register request that
    passes [registerSchema] and whose email and username match no user
    creates a user with role MEMBER, is answered with 201, the created
    user without its password (a [UserPublic.t]) and an access token,
    stores a refresh token row whose expiry is the instant of the
    request moved 7 calendar days on ([setDate(getDate() + 7)], the
    runtime's [addDays 7]), and sets that token in an HTTP-only,
    same-site-lax cookie named [refreshToken] with a max-age of
    7 x 86 400 000 ms. *)
Theorem register_cases `{Platform} (amb : Ambient) (req : Request.t) (st : MemStorage) :
  let st0 := initialize amb st in
  let st' := fst (register amb req st) in
  let res := snd (register amb req st) in
  (registerSchema_parse (Request.body req) = None ->
     Response.status res = 400 /\ st' = st)
  /\ forall data,
  registerSchema_parse (Request.body req) = Some data ->
  (forall existing,
     In existing (JsMap.values (users st0)) ->
     Js.toLowerCase (User.email existing) = Js.toLowerCase (RegisterInput.email data)
     \/ Js.toLowerCase (User.username existing)
        = Js.toLowerCase (RegisterInput.username data) ->
     Response.status res = 400 /\ st' = st0)
  /\ ((forall existing,
         In existing (JsMap.values (users st0)) ->
         Js.toLowerCase (User.email existing) <> Js.toLowerCase (RegisterInput.email data)
         /\ Js.toLowerCase (User.username existing)
            <> Js.toLowerCase (RegisterInput.username data)) ->
      let user :=
        User.mk (user_uuid amb) (RegisterInput.email data) (RegisterInput.username data)
          (bcrypt_hash (RegisterInput.password data) (user_salt amb)) MEMBER
          (RegisterInput.firstName data) (RegisterInput.lastName data) (now amb) in
      let refreshToken := generateRefreshToken (now amb) (user_uuid amb) in
      JsMap.get (user_uuid amb) (users st') = Some user
      /\ User.role user = MEMBER
      /\ res = Response.mk 201
                 (JUserAndToken
                    (UserPublic.mk (user_uuid amb) (RegisterInput.email data)
                       (RegisterInput.username data) MEMBER
                       (RegisterInput.firstName data) (RegisterInput.lastName data)
                       (now amb))
                    (generateAccessToken (now amb) (user_uuid amb)))
                 [Cookie.mk "refreshToken" refreshToken true
                    (match env_NODE_ENV with
                     | Some v => (v =? "production")%string
                     | None => false
                     end)
                    "lax" 604800000]
                 []
      /\ JsMap.get refreshToken (refreshTokens st')
         = Some (RefreshToken.mk (token_uuid amb) (user_uuid amb) refreshToken
                   (addDays 7 (now amb)) (now amb))).
Proof.
  cbv zeta. rewrite register_eq. split; [now intros -> |].
  intros data ->. cbv zeta. split.
  - intros existing Hin Hmatch.
    destruct (find (by_email _) _) as [u|] eqn:He; [now split|].
    destruct (find (by_username _) _) as [u|] eqn:Hu; [now split|].
    exfalso. destruct Hmatch as [Hm | Hm].
    + pose proof (find_none _ _ He existing Hin) as Hno.
      unfold by_email in Hno. rewrite Hm, String.eqb_refl in Hno. discriminate.
    + pose proof (find_none _ _ Hu existing Hin) as Hno.
      unfold by_username in Hno. rewrite Hm, String.eqb_refl in Hno. discriminate.
  - intros Hfresh.
    rewrite (find_absent (by_email _)), (find_absent (by_username _)).
    + cbn [fst snd users refreshTokens set_users set_refreshTokens].
      rewrite !get_set_eq. repeat split.
    + intros x Hx. apply String.eqb_neq. now apply Hfresh.
    + intros x Hx. apply String.eqb_neq. now apply Hfresh.
Qed.

Section RegisterExamples.
#[local] Existing Instance Demo.runtime.
#[local] Existing Instance Demo.platform.

Lemma register_cases_witness :
  let bob := RegisterInput.mk "bob@x.com" "bob" "hunter2hunter2" "B" "O" in
  let shout := RegisterInput.mk "A@X.COM" "alice2" "password123" "A" "L" in
  let ask data := register (Demo.ambient 2000 "bob")
                    (Demo.request "10.0.0.1" None None (Demo.RegisterBody data) "")
                    Demo.store1 in
  (Response.status (snd (ask shout)) = 400 /\ fst (ask shout) = Demo.store1)
  /\ JsMap.get "uuid-bob" (users (fst (ask bob)))
     = Some (User.mk "uuid-bob" "bob@x.com" "bob" "salt-bob$hunter2hunter2" MEMBER
               "B" "O" 2000)
  /\ Response.status (snd (ask bob)) = 201.
Proof.
  intros bob shout ask. split.
  - apply (proj1 (proj2 (register_cases (Demo.ambient 2000 "bob")
                           (Demo.request "10.0.0.1" None None (Demo.RegisterBody shout) "")
                           Demo.store1) shout eq_refl)
             (User.mk "uuid-alice" "a@x.com" "alice" "salt-alice$password123"
                MEMBER "A" "L" 1000)).
    + right. now left.
    + now left.
  - assert (Hfresh : forall existing,
               In existing (JsMap.values (users Demo.store1)) ->
               Js.toLowerCase (User.email existing) <> "bob@x.com"
               /\ Js.toLowerCase (User.username existing) <> "bob").
    { intros existing [<- | [<- | []]]; split; discriminate. }
    destruct (proj2 (proj2 (register_cases (Demo.ambient 2000 "bob")
                              (Demo.request "10.0.0.1" None None (Demo.RegisterBody bob) "")
                              Demo.store1) bob eq_refl) Hfresh) as (Huser & _ & Hres & _).
    split; [exact Huser | unfold ask; now rewrite Hres].
Defined.

End RegisterExamples.

(** ** Deleting a user *)

Section DeleteFacts.
Context `{Platform}.

(** A row of [userId] is not found any more under its token once the
    rows of [userId] have been deleted. *)
Lemma get_without (userId : string) (row : RefreshToken.t) (m : JsMap.t RefreshToken.t) :
  In row (JsMap.values m) ->
  RefreshToken.userId row = userId ->
  JsMap.get (RefreshToken.token row) (without_tokens_of userId m) = None.
Proof.
  intros Hin Hown.
  destruct (JsMap.get _ _) as [row'|] eqn:Hg; [exfalso | reflexivity].
  apply get_In, In_delete_all in Hg as [_ Hall].
  apply (Hall row); [|reflexivity].
  apply filter_In. split; [assumption|].
  unfold owned_by. rewrite Hown. apply String.eqb_refl.
Qed.

End DeleteFacts.

(** C8 (as the code has it). After an admin successfully deleted a
    user, the user record is gone and no refresh token row owned by that
    user remains in the store; a call to the refresh route that presents
    the cookie of one of that user's former rows is answered with 401,
    because the stored row is not found: the message is "Invalid refresh
    token" ("No refresh token provided" for an empty cookie), and the
    lookup of the user is not reached. *)
Theorem deleteUser_revokes_refresh_tokens `{Platform} (amb : Ambient) (req : Request.t)
    (st : MemStorage) :
  wf_store st ->
  Response.status (snd (deleteUserById amb req st)) = 200 ->
  let id := Request.params_id req in
  let st' := fst (deleteUserById amb req st) in
  JsMap.get id (users st') = None
  /\ tokensOf id st' = []
  /\ (forall row amb' req',
        In row (JsMap.values (refreshTokens st)) ->
        RefreshToken.userId row = id ->
        Request.cookies_refreshToken req' = Some (RefreshToken.token row) ->
        let res := snd (refresh amb' req' st') in
        Response.status res = 401
        /\ message_of res
           = Some (if (RefreshToken.token row =? "")%string
                   then "No refresh token provided" else "Invalid refresh token")
        /\ message_of res <> Some "User not found").
Proof.
  intros Hwf. cbv zeta. rewrite deleteUserById_eq.
  destruct (match Request.user req with Some _ => _ | None => _ end); [discriminate|].
  cbv zeta. destruct (JsMap.has _ _); [intros _ | discriminate].
  cbn [fst]. split; [|split].
  - cbn [users set_refreshTokens set_users]. apply get_delete_eq.
  - apply tokensOf_without. cbn [refreshTokens set_users].
    now destruct (wf_initialize amb st Hwf).
  - intros row amb' req' Hin Hown Hcookie.
    rewrite refresh_eq, Hcookie.
    destruct (RefreshToken.token row =? "")%string; [now repeat split|].
    cbv zeta. cbn [refreshTokens set_refreshTokens set_users].
    rewrite refreshTokens_initialize, (get_without _ row) by assumption.
    now repeat split.
Qed.

Section DeleteExamples.
#[local] Existing Instance Demo.runtime.
#[local] Existing Instance Demo.platform.

Lemma deleteUser_revokes_refresh_tokens_witness :
  let st' := fst (deleteUserById (Demo.ambient 2000 "del")
                    (Request.with_user Demo.delete_alice
                       (UserPublic.mk "uuid-admin" "admin@taskflow.com" "admin" ADMIN
                          "System" "Admin" 1000))
                    Demo.store1) in
  JsMap.get "uuid-alice" (users st') = None
  /\ tokensOf "uuid-alice" st' = []
  /\ Response.status
       (snd (refresh (Demo.ambient 3000 "r")
               (Demo.refresh_request (Some Demo.alice_refresh)) st')) = 401.
Proof.
  assert (Hwf : wf_store Demo.store1) by (apply register_wf, wf_new).
  pose proof (deleteUser_revokes_refresh_tokens (Demo.ambient 2000 "del")
                (Request.with_user Demo.delete_alice
                   (UserPublic.mk "uuid-admin" "admin@taskflow.com" "admin" ADMIN
                      "System" "Admin" 1000))
                Demo.store1 Hwf eq_refl) as (Huser & Htokens & Hrefresh).
  cbv zeta. split; [exact Huser|]. split; [exact Htokens|].
  apply (Hrefresh (RefreshToken.mk "rt-alice" "uuid-alice" Demo.alice_refresh 604801000 1000)
           (Demo.ambient 3000 "r") (Demo.refresh_request (Some Demo.alice_refresh))).
  - now left.
  - reflexivity.
  - reflexivity.
Defined.

(** The claim as stated fails: run end to end (register, delete by the
    administrator with a valid bearer token, refresh with the deleted
    user's cookie), the refresh is answered 401 "Invalid refresh token",
    not 401 "User not found". *)
Lemma refresh_after_delete_is_not_user_not_found :
  Response.status (snd (dispatch DELETE_users_id (Demo.ambient 2000 "del")
                          Demo.delete_alice Demo.server1)) = 200
  /\ snd (dispatch POST_auth_refresh (Demo.ambient 3000 "r")
            (Demo.refresh_request (Some Demo.alice_refresh)) Demo.server2)
     = send_message 401 "Invalid refresh token"
  /\ snd (dispatch POST_auth_refresh (Demo.ambient 3000 "r")
            (Demo.refresh_request (Some Demo.alice_refresh)) Demo.server2)
     <> send_message 401 "User not found".
Proof.
  split; [reflexivity|].
  assert (Hres : snd (dispatch POST_auth_refresh (Demo.ambient 3000 "r")
                        (Demo.refresh_request (Some Demo.alice_refresh)) Demo.server2)
                 = send_message 401 "Invalid refresh token") by reflexivity.
  split; [exact Hres | rewrite Hres; discriminate].
Qed.

End DeleteExamples.

(** ** Rate limit *)

Section LimiterFacts.
Context `{Platform}.







End LimiterFacts.


Section LimiterExamples.
#[local] Existing Instance Demo.runtime.
#[local] Existing Instance Demo.platform.



(** The window is a fixed one: a client that opens a window at instant
    1000, sends 19 more requests just before the reset instant 901000 and
    20 at the reset instant has all 40 served, 39 of them within one
    millisecond. *)
Lemma authLimiter_across_reset :
  let reqs := (Demo.wrong_login 1000 :: repeat (Demo.wrong_login 900999) 19
               ++ repeat (Demo.wrong_login 901000) 20)%list in
  List.length reqs = 40%nat
  /\ forallb (fun res => negb (Response.status res =? 429))
       (snd (serve reqs Demo.server1)) = true.
Proof. split; vm_compute; reflexivity. Qed.

End LimiterExamples.

(* ================================================================== *)
(** * Further properties of the store and of the routes *)

(** Solves [initialized s = true] for a store built from an
    initialized one. *)
Ltac initialized_now :=
  repeat first
    [ apply initialized_initialize
    | progress cbn [initialized set_users set_refreshTokens] ].

(** [ensureInitialized] does nothing to a store that went through it,
    however many writes followed. *)
Ltac settle_inits :=
  repeat match goal with
    | |- context [initialize ?a (set_users ?f ?s)] =>
        rewrite (initialize_initialized a (set_users f s)) by initialized_now
    | |- context [initialize ?a (set_refreshTokens ?f ?s)] =>
        rewrite (initialize_initialized a (set_refreshTokens f s)) by initialized_now
    | |- context [initialize ?a (initialize ?b ?s)] =>
        rewrite (initialize_idem b a s)
    end.

(** ** More on maps *)

Section MoreMapFacts.
Context {V : Type}.
Implicit Types (m : JsMap.t V) (k : string) (v : V).

Lemma find_append {A} (f : A -> bool) (l l' : list A) :
  find f (l ++ l') = match find f l with Some x => Some x | None => find f l' end.
Proof.
  induction l as [|a l IH]; simpl; [reflexivity|].
  destruct (f a); [reflexivity | exact IH].
Qed.

Lemma get_set_neq k k' v m : k <> k' -> JsMap.get k' (JsMap.set k v m) = JsMap.get k' m.
Proof.
  intros Hne. unfold JsMap.set, JsMap.get. destruct (JsMap.has k m).
  - induction m as [|e m IH]; simpl; [reflexivity|].
    destruct (JsMap.key_is k e) eqn:Hk.
    + unfold JsMap.key_is in *. simpl. apply String.eqb_eq in Hk.
      assert (Hk' : (k' =? k)%string = false) by (apply String.eqb_neq; congruence).
      rewrite <- Hk, Hk'. exact IH.
    + destruct (JsMap.key_is k' e); [reflexivity | exact IH].
  - rewrite find_append. destruct (find (JsMap.key_is k') m); [reflexivity|].
    simpl. unfold JsMap.key_is. simpl.
    assert (Hk' : (k' =? k)%string = false) by (apply String.eqb_neq; congruence).
    now rewrite Hk'.
Qed.

Lemma get_delete_neq k k' m : k <> k' -> JsMap.get k' (JsMap.delete k m) = JsMap.get k' m.
Proof.
  intros Hne. unfold JsMap.delete, JsMap.get.
  induction m as [|e m IH]; simpl; [reflexivity|].
  destruct (JsMap.key_is k e) eqn:Hk; simpl.
  - unfold JsMap.key_is in *. apply String.eqb_eq in Hk.
    assert (Hk' : (k' =? fst e)%string = false) by (apply String.eqb_neq; congruence).
    now rewrite Hk'.
  - destruct (JsMap.key_is k' e); [reflexivity | exact IH].
Qed.

(** Deleting a key that is not there leaves the map as it is. *)
Lemma delete_absent k m : JsMap.has k m = false -> JsMap.delete k m = m.
Proof.
  unfold JsMap.delete, JsMap.has.
  induction m as [|e m IH]; simpl; [reflexivity|].
  intros Hh. apply orb_false_iff in Hh as [He Hm]. rewrite He. simpl.
  now rewrite (IH Hm).
Qed.

Lemma has_delete k m : JsMap.has k (JsMap.delete k m) = false.
Proof. rewrite has_get, get_delete_eq. reflexivity. Qed.

Lemma In_get k v m : NoDup (JsMap.keys m) -> In (k, v) m -> JsMap.get k m = Some v.
Proof.
  unfold JsMap.get, JsMap.keys.
  induction m as [|e m IH]; simpl; [easy|].
  intros Hn [-> | Hin].
  - unfold JsMap.key_is. simpl. now rewrite String.eqb_refl.
  - inversion Hn as [|x l Hx Hn']; subst.
    destruct (JsMap.key_is k e) eqn:Hk; [|now apply IH].
    exfalso. apply Hx. unfold JsMap.key_is in Hk. apply String.eqb_eq in Hk.
    rewrite <- Hk. change k with (fst (k, v)). now apply in_map.
Qed.

(** After [set k v], the first value that passes a test which no earlier
    value passed is [v]. *)
Lemma find_values_set (f : V -> bool) k v m :
  (forall x, In x (JsMap.values m) -> f x = false) ->
  f v = true ->
  find f (JsMap.values (JsMap.set k v m)) = Some v.
Proof.
  intros Hall Hv. unfold JsMap.set, JsMap.values in *. destruct (JsMap.has k m) eqn:Hh.
  - unfold JsMap.has in Hh.
    induction m as [|e m IH]; simpl in *; [discriminate|].
    destruct (JsMap.key_is k e) eqn:Hk; simpl.
    + now rewrite Hv.
    + rewrite (Hall (snd e)) by now left. apply IH; auto.
  - rewrite map_app, find_append. simpl. rewrite Hv.
    now rewrite (find_absent f _ Hall).
Qed.

End MoreMapFacts.

(** ** Users in the store *)

(** X1. [createUser] returns the user it stores, with the id drawn
    from [randomUUID()], the creation instant and the given fields; a
    later [getUser] of that id returns this user, and the answer of
    [getUser] for every other id is what it was. *)
Theorem createUser_getUser `{Platform} (amb amb' : Ambient) (userData : NewUser.t)
    (st : MemStorage) :
  let user :=
    User.mk (user_uuid amb) (NewUser.email userData) (NewUser.username userData)
      (NewUser.password userData) (NewUser.role userData)
      (NewUser.firstName userData) (NewUser.lastName userData) (now amb) in
  let st1 := fst (createUser amb userData st) in
  snd (createUser amb userData st) = inr user
  /\ snd (getUser amb' (user_uuid amb) st1) = inr (Some user)
  /\ (forall id, id <> user_uuid amb ->
        snd (getUser amb' id st1) = snd (getUser amb id st)).
Proof.
  cbv zeta. rewrite createUser_eq. cbn [fst snd]. split; [reflexivity|].
  split.
  - rewrite getUser_eq. settle_init. cbn [snd users set_users].
    now rewrite get_set_eq.
  - intros id Hne. rewrite !getUser_eq. settle_init. cbn [snd users set_users].
    rewrite get_set_neq by congruence. reflexivity.
Qed.

(** A search for the first user whose field [field] equals the query
    after [toLowerCase] on both sides. *)
Lemma find_folded `{Js.Runtime} (field : User.t -> string) (query : string) (l : list User.t) :
  let test q user := (Js.toLowerCase (field user) =? Js.toLowerCase q)%string in
  (forall u, find (test query) l = Some u ->
     In u l /\ Js.toLowerCase (field u) = Js.toLowerCase query)
  /\ (find (test query) l = None <->
      forall u, In u l -> Js.toLowerCase (field u) <> Js.toLowerCase query)
  /\ (forall query', Js.toLowerCase query' = Js.toLowerCase query ->
        find (test query') l = find (test query) l).
Proof.
  cbv zeta. split; [|split].
  - intros u Hf. apply find_some in Hf as [Hin Ht]. now apply String.eqb_eq in Ht.
  - split.
    + intros Hf u Hin. apply String.eqb_neq. exact (find_none _ _ Hf u Hin).
    + intros Hall. apply find_absent. intros u Hin. apply String.eqb_neq. now apply Hall.
  - intros query' Hq. now rewrite Hq.
Qed.

(** X2. [getUserByEmail] returns a user exactly when the store holds
    a user whose email equals the query after the runtime's
    [toLowerCase] on both sides, and then it returns such a user; two
    queries that [toLowerCase] takes to the same string get the same
    answer.  [getUserByUsername] does the same on user names.  This
    holds for every [toLowerCase], so for the one of JavaScript with its
    folding of letters outside ASCII. *)
Theorem getUserBy_ignores_case `{Platform} (amb : Ambient) (query : string)
    (st : MemStorage) :
  let all := JsMap.values (users (initialize amb st)) in
  ((forall u, snd (getUserByEmail amb query st) = inr (Some u) ->
      In u all /\ Js.toLowerCase (User.email u) = Js.toLowerCase query)
   /\ (snd (getUserByEmail amb query st) = inr None <->
       forall u, In u all -> Js.toLowerCase (User.email u) <> Js.toLowerCase query)
   /\ (forall query', Js.toLowerCase query' = Js.toLowerCase query ->
         getUserByEmail amb query' st = getUserByEmail amb query st))
  /\ ((forall u, snd (getUserByUsername amb query st) = inr (Some u) ->
         In u all /\ Js.toLowerCase (User.username u) = Js.toLowerCase query)
      /\ (snd (getUserByUsername amb query st) = inr None <->
          forall u, In u all -> Js.toLowerCase (User.username u) <> Js.toLowerCase query)
      /\ (forall query', Js.toLowerCase query' = Js.toLowerCase query ->
            getUserByUsername amb query' st = getUserByUsername amb query st)).
Proof.
  cbv zeta.
  destruct (find_folded User.email query (JsMap.values (users (initialize amb st))))
    as (He1 & He2 & He3).
  destruct (find_folded User.username query (JsMap.values (users (initialize amb st))))
    as (Hu1 & Hu2 & Hu3).
  cbv zeta in *. split; (split; [|split]).
  - intros u. rewrite getUserByEmail_eq. cbn [snd]. intros [= Hf]. now apply He1.
  - rewrite getUserByEmail_eq. cbn [snd]. rewrite <- He2. split; congruence.
  - intros query' Hq. rewrite !getUserByEmail_eq. now rewrite (He3 query' Hq).
  - intros u. rewrite getUserByUsername_eq. cbn [snd]. intros [= Hf]. now apply Hu1.
  - rewrite getUserByUsername_eq. cbn [snd]. rewrite <- Hu2. split; congruence.
  - intros query' Hq. rewrite !getUserByUsername_eq. now rewrite (Hu3 query' Hq).
Qed.

(** X3. [deleteUser] returns [true] exactly when the id was in the
    store; afterwards [getUser] of that id returns nothing and the answer
    for every other id is what it was; deleting an id that is not there
    leaves the (initialized) store as it is, so a second [deleteUser] of
    the same id returns [false] and changes nothing. *)
Theorem deleteUser_cases `{Platform} (amb amb' : Ambient) (id : string) (st : MemStorage) :
  let st0 := initialize amb st in
  let st1 := fst (deleteUser amb id st) in
  (snd (deleteUser amb id st) = inr true <-> exists user, JsMap.get id (users st0) = Some user)
  /\ snd (getUser amb' id st1) = inr None
  /\ (forall id', id' <> id -> snd (getUser amb' id' st1) = snd (getUser amb id' st))
  /\ (snd (deleteUser amb id st) = inr false -> st1 = st0)
  /\ deleteUser amb' id st1 = (st1, inr false).
Proof.
  cbv zeta. rewrite deleteUser_eq. cbn [fst snd].
  split; [|split; [|split; [|split]]].
  - rewrite has_get. destruct (JsMap.get id _) as [user|]; split; try discriminate.
    + intros _. now exists user.
    + reflexivity.
    + intros [user Hu]. discriminate.
  - rewrite getUser_eq. settle_init. cbn [snd users set_users]. now rewrite get_delete_eq.
  - intros id' Hne. rewrite !getUser_eq. settle_init. cbn [snd users set_users].
    rewrite get_delete_neq by congruence. reflexivity.
  - intros [= Hh]. unfold set_users. rewrite (delete_absent _ _ Hh).
    now destruct (initialize amb st).
  - rewrite deleteUser_eq. settle_init. cbn [users set_users].
    rewrite has_delete. f_equal. unfold set_users. cbn [users refreshTokens initialized].
    f_equal. apply delete_absent, has_delete.
Qed.

Section UserStoreExamples.
#[local] Existing Instance Demo.runtime.
#[local] Existing Instance Demo.platform.

Lemma getUserBy_ignores_case_witness :
  snd (getUserByEmail (Demo.ambient 2000 "q") "A@X.Com" Demo.store1)
  = snd (getUserByEmail (Demo.ambient 2000 "q") "a@x.com" Demo.store1)
  /\ (exists u, snd (getUserByEmail (Demo.ambient 2000 "q") "A@X.Com" Demo.store1)
               = inr (Some u) /\ User.id u = "uuid-alice")
  /\ snd (getUserByUsername (Demo.ambient 2000 "q") "Bob" Demo.store1) = inr None.
Proof.
  split; [|split].
  - exact (f_equal snd
             (proj2 (proj2 (proj1 (getUserBy_ignores_case
                                     (Demo.ambient 2000 "q") "a@x.com"
                                     Demo.store1)))
                "A@X.Com" eq_refl)).
  - eexists. split; reflexivity.
  - apply (proj1 (proj2 (proj2 (getUserBy_ignores_case
                                  (Demo.ambient 2000 "q") "Bob" Demo.store1)))).
    intros u [<- | [<- | []]]; discriminate.
Defined.

Lemma deleteUser_cases_witness :
  snd (deleteUser (Demo.ambient 2000 "d") "uuid-alice" Demo.store1) = inr true
  /\ snd (deleteUser (Demo.ambient 2000 "d") "uuid-nobody" Demo.store1) = inr false
  /\ fst (deleteUser (Demo.ambient 2000 "d") "uuid-nobody" Demo.store1) = Demo.store1.
Proof.
  split; [|split].
  - apply (proj1 (deleteUser_cases (Demo.ambient 2000 "d") (Demo.ambient 2000 "d")
                    "uuid-alice" Demo.store1)).
    eexists. reflexivity.
  - reflexivity.
  - apply (proj1 (proj2 (proj2 (proj2 (deleteUser_cases (Demo.ambient 2000 "d")
                                         (Demo.ambient 2000 "d") "uuid-nobody"
                                         Demo.store1))))).
    reflexivity.
Defined.

End UserStoreExamples.

(** ** Refresh token rows in the store *)

Section TokenStoreFacts.
Context `{Platform}.

Lemma filter_filter {A} (f g : A -> bool) (l : list A) :
  filter f (filter g l) = filter (fun x => g x && f x) l.
Proof.
  induction l as [|a l IH]; simpl; [reflexivity|].
  destruct (g a); simpl; [destruct (f a)|]; now rewrite IH.
Qed.

(** Deleting the keys of a list of values one by one keeps the entries
    whose key is none of those keys. *)
Lemma delete_all_filter {V} (key : V -> string) (l : list V) (m : JsMap.t V) :
  fold_left (fun m x => JsMap.delete (key x) m) l m
  = filter (fun e => negb (existsb (fun x => (key x =? fst e)%string) l)) m.
Proof.
  revert m. induction l as [|x l IH]; intros m; simpl.
  - induction m as [|e m IHm]; simpl; [reflexivity | now rewrite <- IHm].
  - rewrite IH. unfold JsMap.delete. rewrite filter_filter.
    apply filter_ext. intros e. unfold JsMap.key_is. now rewrite negb_orb.
Qed.

(** On a well-formed map, deleting the rows of a user one by one leaves
    exactly the rows of the other users, in their order. *)
Lemma without_tokens_of_filter (userId : string) (m : JsMap.t RefreshToken.t) :
  NoDup (JsMap.keys m) ->
  filed_under RefreshToken.token m ->
  without_tokens_of userId m = filter (fun e => negb (owned_by userId (snd e))) m.
Proof.
  intros Hn Hk. unfold without_tokens_of. rewrite delete_all_filter.
  apply filter_ext_in. intros [k v] Hin. f_equal. simpl.
  destruct (owned_by userId v) eqn:Ho.
  - apply existsb_exists. exists v. split.
    + apply filter_In. split; [|assumption].
      unfold JsMap.values. apply in_map_iff. now exists (k, v).
    + apply String.eqb_eq. now apply Hk.
  - destruct (existsb _ _) eqn:He; [exfalso | reflexivity].
    apply existsb_exists in He as [x [Hx Hkx]]. apply String.eqb_eq in Hkx.
    apply filter_In in Hx as [Hxin Hxo].
    unfold JsMap.values in Hxin. apply in_map_iff in Hxin as [[k' x'] [Hx' Hin']].
    simpl in Hx'. subst x'. pose proof (Hk _ _ Hin') as Hk'. rewrite Hkx in Hk'. subst k'.
    pose proof (In_get _ _ _ Hn Hin) as Hv. pose proof (In_get _ _ _ Hn Hin') as Hgx.
    rewrite Hv in Hgx. injection Hgx as ->. rewrite Ho in Hxo. discriminate.
Qed.

Lemma tokensOf_filter_other (u v : string) (m : JsMap.t RefreshToken.t) :
  v <> u ->
  filter (owned_by v) (JsMap.values (filter (fun e => negb (owned_by u (snd e))) m))
  = filter (owned_by v) (JsMap.values m).
Proof.
  intros Hne. unfold JsMap.values.
  induction m as [|[k x] m IH]; simpl; [reflexivity|].
  destruct (owned_by u x) eqn:Hu; simpl.
  - assert (Hv : owned_by v x = false).
    { unfold owned_by in *. apply String.eqb_eq in Hu. apply String.eqb_neq. congruence. }
    now rewrite Hv.
  - now rewrite IH.
Qed.

Lemma without_tokens_of_idem (u : string) (m : JsMap.t RefreshToken.t) :
  filed_under RefreshToken.token m ->
  without_tokens_of u (without_tokens_of u m) = without_tokens_of u m.
Proof.
  intros Hk. unfold without_tokens_of at 1.
  rewrite (filter_nil (owned_by u)); [reflexivity|].
  now apply not_owned_without.
Qed.

End TokenStoreFacts.

(** X4. A refresh token row is found under its token string as soon as
    [createRefreshToken] has stored it, and the answers for the other
    token strings are what they were; [deleteRefreshToken] of a stored
    token returns [true] and the row is no longer found; of a token that
    is not stored it returns [false] and leaves the (initialized) store
    as it is. *)
Theorem refreshToken_row_cycle `{Platform} (amb amb' amb'' : Ambient)
    (userId token : string) (expiresAt : Date) (st : MemStorage) :
  let row := RefreshToken.mk (token_uuid amb) userId token expiresAt (now amb) in
  let st1 := fst (createRefreshToken amb userId token expiresAt st) in
  let st2 := fst (deleteRefreshToken amb' token st1) in
  snd (createRefreshToken amb userId token expiresAt st) = inr row
  /\ snd (getRefreshToken amb' token st1) = inr (Some row)
  /\ (forall other, other <> token ->
        snd (getRefreshToken amb' other st1) = snd (getRefreshToken amb other st))
  /\ snd (deleteRefreshToken amb' token st1) = inr true
  /\ snd (getRefreshToken amb'' token st2) = inr None
  /\ deleteRefreshToken amb'' token st2 = (st2, inr false).
Proof.
  cbv zeta. rewrite createRefreshToken_eq. cbn [fst snd].
  split; [reflexivity|]. split; [|split; [|split; [|split]]].
  - rewrite getRefreshToken_eq. cbn [snd refreshTokens set_refreshTokens].
    now rewrite get_set_eq.
  - intros other Hne. rewrite !getRefreshToken_eq.
    cbn [snd refreshTokens set_refreshTokens].
    rewrite refreshTokens_initialize, get_set_neq by congruence. reflexivity.
  - rewrite deleteRefreshToken_eq. cbn [snd refreshTokens set_refreshTokens].
    now rewrite has_get, get_set_eq.
  - rewrite deleteRefreshToken_eq, getRefreshToken_eq. settle_inits.
    cbn [fst snd refreshTokens set_refreshTokens]. now rewrite get_delete_eq.
  - rewrite !deleteRefreshToken_eq. cbn [fst]. settle_inits.
    cbn [fst snd refreshTokens set_refreshTokens]. rewrite has_delete. f_equal.
    unfold set_refreshTokens. cbn [users refreshTokens initialized]. f_equal.
    apply delete_absent, has_delete.
Qed.

(** X5. On a well-formed store, [deleteRefreshTokensByUser] always
    returns [true]; it leaves exactly the rows of the other users, in
    their order: the user owns no row afterwards, every other user owns
    the rows it owned, and the users are untouched.  A second call
    changes nothing. *)
Theorem deleteRefreshTokensByUser_exact `{Platform} (amb amb' : Ambient) (userId : string)
    (st : MemStorage) :
  wf_store st ->
  let st1 := fst (deleteRefreshTokensByUser amb userId st) in
  snd (deleteRefreshTokensByUser amb userId st) = inr true
  /\ refreshTokens st1
     = filter (fun e => negb (owned_by userId (snd e))) (refreshTokens st)
  /\ tokensOf userId st1 = []
  /\ (forall other, other <> userId -> tokensOf other st1 = tokensOf other st)
  /\ users st1 = users (initialize amb st)
  /\ deleteRefreshTokensByUser amb' userId st1 = (st1, inr true).
Proof.
  intros Hwf. cbv zeta. rewrite deleteRefreshTokensByUser_eq. cbn [fst snd].
  pose proof (wf_initialize amb st Hwf) as [_ _ Hn Hk].
  assert (Hf : refreshTokens (set_refreshTokens (without_tokens_of userId) (initialize amb st))
               = filter (fun e => negb (owned_by userId (snd e))) (refreshTokens st)).
  { cbn [refreshTokens set_refreshTokens].
    rewrite without_tokens_of_filter by assumption. now rewrite refreshTokens_initialize. }
  split; [reflexivity|]. split; [exact Hf|]. split; [|split; [|split]].
  - now apply tokensOf_without.
  - intros other Hne. unfold tokensOf. rewrite Hf. now apply tokensOf_filter_other.
  - reflexivity.
  - rewrite deleteRefreshTokensByUser_eq. settle_inits. f_equal.
    unfold set_refreshTokens. cbn [users refreshTokens initialized]. f_equal.
    now apply without_tokens_of_idem.
Qed.

Section TokenStoreExamples.
#[local] Existing Instance Demo.runtime.
#[local] Existing Instance Demo.platform.

Lemma deleteRefreshTokensByUser_exact_witness :
  let st1 := fst (deleteRefreshTokensByUser (Demo.ambient 3000 "x") "uuid-alice"
                    Fixtures.store2) in
  tokensOf "uuid-alice" st1 = []
  /\ List.length (tokensOf "uuid-bob" st1) = 1%nat
  /\ JsMap.keys (refreshTokens st1) = [Fixtures.bob_refresh].
Proof.
  assert (Hwf : wf_store Fixtures.store2) by (apply register_wf, register_wf, wf_new).
  destruct (deleteRefreshTokensByUser_exact (Demo.ambient 3000 "x") (Demo.ambient 3000 "x")
              "uuid-alice" Fixtures.store2 Hwf) as (_ & Hrows & Hnone & Hother & _).
  cbv zeta. split; [exact Hnone|]. split.
  - rewrite (Hother "uuid-bob") by discriminate. reflexivity.
  - rewrite Hrows. reflexivity.
Defined.

End TokenStoreExamples.

(** ** Logout *)

Section LogoutFacts.
Context `{Platform}.

(** The refresh token rows after [logout]: the row of the cookie,
    then the rows of the authenticated user, are deleted. *)
Lemma logout_eq (amb : Ambient) (req : Request.t) (st : MemStorage) :
  let drop_cookie m :=
    match Request.cookies_refreshToken req with
    | Some refreshToken =>
        if (refreshToken =? "")%string then m else JsMap.delete refreshToken m
    | None => m
    end in
  let drop_user m :=
    match Request.user req with
    | Some user => without_tokens_of (UserPublic.id user) m
    | None => m
    end in
  snd (logout amb req st)
  = Response.mk 200 (JMessage "Logged out successfully") [] ["refreshToken"]
  /\ refreshTokens (fst (logout amb req st)) = drop_user (drop_cookie (refreshTokens st))
  /\ (users (fst (logout amb req st)) = users st
      \/ users (fst (logout amb req st)) = users (initialize amb st))
  /\ (initialized st = true -> fst (logout amb req st)
                               = set_refreshTokens (fun m => drop_user (drop_cookie m)) st).
Proof.
  cbv zeta. unfold logout, logout_try.
  destruct (Request.cookies_refreshToken req) as [refreshToken|];
    [cbn [Js.truthy]; destruct (refreshToken =? "")%string; cbn [negb]|];
    (destruct (Request.user req) as [user|]);
    run_store; cbn [fst snd]; settle_inits;
    cbn [fst snd refreshTokens users set_refreshTokens];
    rewrite ?refreshTokens_initialize;
    (split; [reflexivity|]); (split; [reflexivity|]);
    (split; [auto|]);
    intros Hi; rewrite ?(initialize_initialized amb st Hi);
    unfold set_refreshTokens; now destruct st.
Qed.

End LogoutFacts.

Section LogoutIdempotence.
Context `{Platform}.

(** Either [logout] ran no store method at all, or the store it leaves
    is initialized. *)
Lemma logout_initialized (amb : Ambient) (req : Request.t) (st : MemStorage) :
  (forall amb', fst (logout amb' req st) = st)
  \/ initialized (fst (logout amb req st)) = true.
Proof.
  unfold logout, logout_try.
  destruct (Request.cookies_refreshToken req) as [refreshToken|];
    [cbn [Js.truthy]; destruct (refreshToken =? "")%string; cbn [negb]|];
    (destruct (Request.user req) as [user|]);
    run_store; cbn [fst snd]; settle_inits;
    solve [now left | right; initialized_now].
Qed.

Lemma filed_under_without (u : string) (m : JsMap.t RefreshToken.t) :
  filed_under RefreshToken.token m ->
  filed_under RefreshToken.token (without_tokens_of u m).
Proof. intros Hk. unfold without_tokens_of. now apply filed_under_delete_all. Qed.

Lemma has_without (u k : string) (m : JsMap.t RefreshToken.t) :
  JsMap.has k m = false -> JsMap.has k (without_tokens_of u m) = false.
Proof.
  rewrite !has_get. intros Hh.
  destruct (JsMap.get k (without_tokens_of u m)) as [v|] eqn:Hg; [|reflexivity].
  apply get_In, In_delete_all in Hg as [Hin _].
  assert (Hk : JsMap.has k m = true).
  { apply has_true. unfold JsMap.keys. apply in_map_iff. now exists (k, v). }
  rewrite has_get in Hk. destruct (JsMap.get k m); discriminate.
Qed.

End LogoutIdempotence.

(** X6. Logout always answers 200 "Logged out successfully" and
    clears the [refreshToken] cookie, whether or not a row was stored.
    Afterwards the row of the presented cookie is gone and, on a
    well-formed store, the authenticated user owns no row, while every
    row that is neither under the cookie nor owned by that user is kept.
    A second logout with the same request changes nothing and gets the
    same answer. *)
Theorem logout_always_succeeds `{Platform} (amb amb' : Ambient) (req : Request.t)
    (st : MemStorage) :
  let st1 := fst (logout amb req st) in
  snd (logout amb req st)
  = Response.mk 200 (JMessage "Logged out successfully") [] ["refreshToken"]
  /\ (forall refreshToken,
        Request.cookies_refreshToken req = Some refreshToken ->
        refreshToken <> EmptyString ->
        JsMap.get refreshToken (refreshTokens st1) = None)
  /\ (wf_store st ->
      (forall user, Request.user req = Some user -> tokensOf (UserPublic.id user) st1 = [])
      /\ (forall k row,
            In (k, row) (refreshTokens st) ->
            Request.cookies_refreshToken req <> Some k ->
            (forall user, Request.user req = Some user ->
                          RefreshToken.userId row <> UserPublic.id user) ->
            In (k, row) (refreshTokens st1))
      /\ logout amb' req st1 = (st1, snd (logout amb req st))).
Proof.
  cbv zeta.
  destruct (logout_eq amb req st) as (Hres & Htok & _ & _). cbv zeta in Htok.
  split; [exact Hres|]. split.
  - intros refreshToken Hc Hne. rewrite Htok, Hc.
    apply String.eqb_neq in Hne. rewrite Hne.
    destruct (Request.user req) as [user|]; [|apply get_delete_eq].
    assert (Hh : JsMap.has refreshToken
                   (without_tokens_of (UserPublic.id user)
                      (JsMap.delete refreshToken (refreshTokens st))) = false)
      by apply has_without, has_delete.
    rewrite has_get in Hh. now destruct (JsMap.get _ _).
  - intros [_ _ Hn Hk].
    set (m1 := match Request.cookies_refreshToken req with
               | Some refreshToken =>
                   if (refreshToken =? "")%string then refreshTokens st
                   else JsMap.delete refreshToken (refreshTokens st)
               | None => refreshTokens st
               end) in *.
    assert (Hn1 : NoDup (JsMap.keys m1)).
    { subst m1. destruct (Request.cookies_refreshToken req) as [t|]; [|assumption].
      destruct (t =? "")%string; [assumption | now apply NoDup_delete]. }
    assert (Hk1 : filed_under RefreshToken.token m1).
    { subst m1. destruct (Request.cookies_refreshToken req) as [t|]; [|assumption].
      destruct (t =? "")%string; [assumption | now apply filed_under_delete]. }
    split; [|split].
    + intros user Hu. unfold tokensOf. rewrite Htok, Hu.
      apply filter_nil. now apply not_owned_without.
    + intros k row Hin Hc Hother. rewrite Htok.
      assert (Hin1 : In (k, row) m1).
      { subst m1. destruct (Request.cookies_refreshToken req) as [t|]; [|assumption].
        destruct (t =? "")%string; [assumption|].
        apply In_delete. split; [assumption|]. simpl. congruence. }
      destruct (Request.user req) as [user|]; [|assumption].
      rewrite without_tokens_of_filter by assumption.
      apply filter_In. split; [assumption|]. simpl. unfold owned_by.
      apply negb_true_iff, String.eqb_neq. now apply Hother.
    + destruct (logout_eq amb' req (fst (logout amb req st))) as (Hres' & _ & _ & Hst').
      cbv zeta in Hst'.
      assert (Hsame : snd (logout amb' req (fst (logout amb req st)))
                      = snd (logout amb req st)) by now rewrite Hres, Hres'.
      destruct (logout amb' req (fst (logout amb req st))) as [st2 res2] eqn:Hl.
      cbn [fst snd] in *. f_equal; [|exact Hsame].
      destruct (logout_initialized amb req st) as [Hnoop | Hinit].
      * rewrite (Hnoop amb) in *. pose proof (Hnoop amb') as Hst2.
        rewrite Hl in Hst2. exact Hst2.
      * rewrite (Hst' Hinit).
        assert (Hgone : forall t, Request.cookies_refreshToken req = Some t ->
                          (t =? "")%string = false -> JsMap.has t m1 = false).
        { intros t Hc Ht. subst m1. rewrite Hc, Ht. apply has_delete. }
        unfold set_refreshTokens.
        destruct (fst (logout amb req st)) as [us ts ini].
        cbn [users refreshTokens initialized] in *. subst ts.
        f_equal. clearbody m1.
        destruct (Request.user req) as [user|];
          destruct (Request.cookies_refreshToken req) as [t|];
          try (destruct (t =? "")%string eqn:Ht);
          rewrite ?(delete_absent t) by (try apply has_without; now apply Hgone);
          try reflexivity; now apply without_tokens_of_idem.
Qed.

Section LogoutExamples.
#[local] Existing Instance Demo.runtime.
#[local] Existing Instance Demo.platform.

Lemma logout_always_succeeds_witness :
  let req := Request.with_user
               (Demo.request "10.0.0.1" None (Some Demo.alice_refresh) Demo.NoBody "")
               Fixtures.alice_public in
  let st1 := fst (logout (Demo.ambient 3000 "out") req Fixtures.store2) in
  tokensOf "uuid-alice" st1 = []
  /\ JsMap.keys (refreshTokens st1) = [Fixtures.bob_refresh]
  /\ logout (Demo.ambient 4000 "again") req st1
     = (st1, Response.mk 200 (JMessage "Logged out successfully") [] ["refreshToken"]).
Proof.
  intros req st1.
  assert (Hwf : wf_store Fixtures.store2) by (apply register_wf, register_wf, wf_new).
  destruct (logout_always_succeeds (Demo.ambient 3000 "out") (Demo.ambient 4000 "again")
              req Fixtures.store2) as (Hres & _ & Hrest).
  destruct (Hrest Hwf) as (Hnone & _ & Hagain).
  split; [exact (Hnone Fixtures.alice_public eq_refl)|].
  split; [reflexivity|].
  fold st1 in Hagain. rewrite Hagain. now rewrite Hres.
Defined.

End LogoutExamples.

(** ** Routes behind [authenticate] *)

Section GuardedRouteFacts.
Context `{Platform}.

(** What [authenticate] leaves of the store: it is untouched, or it went
    through [ensureInitialized]. *)
Lemma authenticate_store (amb : Ambient) (req : Request.t) (st : MemStorage) :
  fst (authenticate amb req st) = st \/ fst (authenticate amb req st) = initialize amb st.
Proof.
  unfold authenticate, authenticate_try.
  destruct (Request.authorization req) as [header|]; [|now left].
  destruct (_ || _); [now left|].
  destruct (verifyToken _ _) as [decoded|]; [|now left].
  run_store. right. now destruct (JsMap.get _ _).
Qed.

Lemma dispatch_guarded (r : Route) (amb : Ambient) (req : Request.t) (srv : Server) :
  In UseAuthenticate (middlewares r) ->
  dispatch r amb req srv =
    match authenticate amb req (storage srv) with
    | (st', Respond res) => (mkServer st' (limiter srv), res)
    | (st', Next req') =>
        match r with
        | DELETE_users_id =>
            match requireAdmin req' with
            | Respond res => (mkServer st' (limiter srv), res)
            | Next req'' => (mkServer (fst (handler r amb req'' st')) (limiter srv),
                             snd (handler r amb req'' st'))
            end
        | _ => (mkServer (fst (handler r amb req' st')) (limiter srv),
                snd (handler r amb req' st'))
        end
    end.
Proof.
  destruct r; cbn [middlewares In]; intros Hin;
    try (exfalso; intuition discriminate);
    unfold dispatch; cbn [middlewares run_chain run_middleware];
    destruct (authenticate amb req (storage srv)) as [st' [res|req']];
    cbn [storage limiter]; try reflexivity;
    try (destruct (requireAdmin req') as [res|req'']; [reflexivity|];
         cbn [storage limiter]);
    match goal with
    | |- context [handler ?r ?a ?q ?s] => destruct (handler r a q s); reflexivity
    end.
Qed.

End GuardedRouteFacts.

(** X7. On the routes behind [authenticate] (logout, me, delete user),
    a request that [authenticate] refuses is answered with that refusal,
    status 401, and neither the handler nor the role guard runs: no user
    and no refresh token row is removed or added (the store is untouched
    or only initialized) and the rate-limit counters stay.  A request
    without an Authorization header leaves the whole server as it is. *)
Theorem guarded_routes_reject `{Platform} (r : Route) (amb : Ambient) (req : Request.t)
    (srv : Server) :
  In UseAuthenticate (middlewares r) ->
  (forall res,
     snd (authenticate amb req (storage srv)) = Respond res ->
     let srv' := fst (dispatch r amb req srv) in
     snd (dispatch r amb req srv) = res
     /\ Response.status res = 401
     /\ (storage srv' = storage srv \/ storage srv' = initialize amb (storage srv))
     /\ refreshTokens (storage srv') = refreshTokens (storage srv)
     /\ limiter srv' = limiter srv)
  /\ (Request.authorization req = None ->
      dispatch r amb req srv = (srv, send_message 401 "No token provided")).
Proof.
  intros Hr. split.
  - intros res Hres. cbv zeta. rewrite (dispatch_guarded _ _ _ _ Hr).
    pose proof (authenticate_respond amb req (storage srv) res Hres) as Hstatus.
    pose proof (authenticate_store amb req (storage srv)) as Hstore.
    destruct (authenticate amb req (storage srv)) as [st' o]. cbn [fst snd] in *. subst o.
    cbn [fst snd storage limiter]. repeat split; try assumption.
    destruct Hstore as [-> | ->]; [reflexivity | apply refreshTokens_initialize].
  - intros Hnone. rewrite (dispatch_guarded _ _ _ _ Hr).
    unfold authenticate, authenticate_try. rewrite Hnone. cbn. now destruct srv.
Qed.

(** X8. [DELETE /api/users/:id], for a request whose bearer token
    verifies and names the stored user [actor]: a MEMBER is answered 403
    "Admin access required" and an administrator who names the own id is
    answered 400, and in both cases nothing is deleted; an id that is not
    in the store is answered 404 and the store stays as it is; otherwise
    the answer is 200, the named user is gone and every other user is
    still there. *)
Theorem deleteUser_route_cases `{Platform} (amb : Ambient) (req : Request.t)
    (srv : Server) (token : string) (decoded : Jwt.Payload) (actor : User.t) :
  Request.authorization req = Some ("Bearer " ++ token)%string ->
  verifyToken (now amb) token = Some decoded ->
  JsMap.get (Jwt.userId decoded) (users (initialize amb (storage srv))) = Some actor ->
  let st0 := initialize amb (storage srv) in
  let srv' := fst (dispatch DELETE_users_id amb req srv) in
  let res := snd (dispatch DELETE_users_id amb req srv) in
  let id := Request.params_id req in
  (User.role actor = MEMBER ->
     res = send_message 403 "Admin access required" /\ storage srv' = st0)
  /\ (User.role actor = ADMIN -> User.id actor = id ->
      res = send_message 400 "Cannot delete your own account" /\ storage srv' = st0)
  /\ (User.role actor = ADMIN -> User.id actor <> id ->
      JsMap.get id (users st0) = None ->
      res = send_message 404 "User not found" /\ storage srv' = st0)
  /\ (User.role actor = ADMIN -> User.id actor <> id ->
      forall victim, JsMap.get id (users st0) = Some victim ->
      res = send_message 200 "User deleted successfully"
      /\ JsMap.get id (users (storage srv')) = None
      /\ (forall other, other <> id ->
            JsMap.get other (users (storage srv')) = JsMap.get other (users st0))).
Proof.
  intros Hh Hv Hu. cbv zeta.
  assert (Hg : In UseAuthenticate (middlewares DELETE_users_id)) by now left.
  rewrite (dispatch_guarded _ _ _ _ Hg), (authenticate_bearer _ _ _ _ Hh), Hv, Hu.
  unfold requireAdmin. cbn [Request.user Request.with_user toPublicUser UserPublic.role].
  split; [|split; [|split]].
  - intros ->. now split.
  - intros -> Hid. cbn [UserRole_eqb negb handler]. rewrite deleteUserById_eq.
    cbn [Request.user Request.with_user Request.params_id UserPublic.id toPublicUser].
    apply String.eqb_eq in Hid. rewrite Hid. now split.
  - intros -> Hid Hnone. cbn [UserRole_eqb negb handler]. rewrite deleteUserById_eq.
    cbn [Request.user Request.with_user Request.params_id UserPublic.id toPublicUser].
    apply String.eqb_neq in Hid. rewrite Hid. cbv zeta. settle_inits.
    rewrite has_get, Hnone. cbn [fst snd storage]. split; [reflexivity|].
    unfold set_users. rewrite delete_absent by (now rewrite has_get, Hnone).
    now destruct (initialize amb (storage srv)).
  - intros -> Hid victim Hsome. cbn [UserRole_eqb negb handler]. rewrite deleteUserById_eq.
    cbn [Request.user Request.with_user Request.params_id UserPublic.id toPublicUser].
    apply String.eqb_neq in Hid. rewrite Hid. cbv zeta. settle_inits.
    rewrite has_get, Hsome. cbn [fst snd storage users set_users set_refreshTokens].
    split; [reflexivity|]. split; [apply get_delete_eq|].
    intros other Hne. apply get_delete_neq. congruence.
Qed.

Section GuardedRouteExamples.
#[local] Existing Instance Demo.runtime.
#[local] Existing Instance Demo.platform.

Lemma guarded_routes_reject_witness :
  dispatch POST_auth_logout (Demo.ambient 3000 "x")
    (Demo.request "10.0.0.1" None (Some Demo.alice_refresh) Demo.NoBody "") Demo.server1
  = (Demo.server1, send_message 401 "No token provided")
  /\ snd (dispatch DELETE_users_id (Demo.ambient 3000 "x")
            (Demo.request "10.0.0.1" (Some "Bearer garbage") None Demo.NoBody "uuid-alice")
            Demo.server1)
     = send_message 401 "Invalid or expired token".
Proof.
  split.
  - apply (proj2 (guarded_routes_reject POST_auth_logout (Demo.ambient 3000 "x")
                    (Demo.request "10.0.0.1" None (Some Demo.alice_refresh) Demo.NoBody "")
                    Demo.server1 (or_introl eq_refl))).
    reflexivity.
  - apply (proj1 (guarded_routes_reject DELETE_users_id (Demo.ambient 3000 "x")
                    (Demo.request "10.0.0.1" (Some "Bearer garbage") None Demo.NoBody
                       "uuid-alice")
                    Demo.server1 (or_introl eq_refl))).
    reflexivity.
Defined.

Lemma deleteUser_route_cases_witness :
  (* Alice, a MEMBER, asks to delete the administrator *)
  snd (dispatch DELETE_users_id (Demo.ambient 3000 "x")
         (Demo.request "10.0.0.1" (Some ("Bearer " ++ Demo.alice_access)%string) None
            Demo.NoBody "uuid-admin")
         Demo.server1)
  = send_message 403 "Admin access required"
  (* the administrator deletes Alice *)
  /\ JsMap.get "uuid-alice" (users (storage Demo.server2)) = None.
Proof.
  split.
  - apply (proj1 (deleteUser_route_cases (Demo.ambient 3000 "x")
                    (Demo.request "10.0.0.1" (Some ("Bearer " ++ Demo.alice_access)%string)
                       None Demo.NoBody "uuid-admin")
                    Demo.server1 Demo.alice_access (Jwt.mkPayload "uuid-alice" None 1 901)
                    Fixtures.alice_user eq_refl eq_refl eq_refl)).
    reflexivity.
  - apply (proj2 (proj2 (proj2 (deleteUser_route_cases (Demo.ambient 2000 "del")
                                  Demo.delete_alice Demo.server1 Demo.admin_access
                                  (Jwt.mkPayload "uuid-admin" None 2 902)
                                  (User.mk "uuid-admin" "admin@taskflow.com" "admin"
                                     "salt0$admin123" ADMIN "System" "Admin" 1000)
                                  eq_refl eq_refl eq_refl)))
             eq_refl ltac:(discriminate) Fixtures.alice_user eq_refl).
Defined.

End GuardedRouteExamples.

(** ** How the auth routes compose *)

Section CompositionFacts.
Context `{Platform}.

(** The store that a successful registration leaves. *)
Lemma register_fresh (amb : Ambient) (req : Request.t) (st : MemStorage)
    (data : RegisterInput.t) :
  registerSchema_parse (Request.body req) = Some data ->
  (forall existing,
     In existing (JsMap.values (users (initialize amb st))) ->
     Js.toLowerCase (User.email existing) <> Js.toLowerCase (RegisterInput.email data)
     /\ Js.toLowerCase (User.username existing)
        <> Js.toLowerCase (RegisterInput.username data)) ->
  let user :=
    User.mk (user_uuid amb) (RegisterInput.email data) (RegisterInput.username data)
      (bcrypt_hash (RegisterInput.password data) (user_salt amb)) MEMBER
      (RegisterInput.firstName data) (RegisterInput.lastName data) (now amb) in
  let refreshToken := generateRefreshToken (now amb) (user_uuid amb) in
  let row := RefreshToken.mk (token_uuid amb) (user_uuid amb) refreshToken
               (addDays 7 (now amb)) (now amb) in
  register amb req st
  = (set_refreshTokens (JsMap.set refreshToken row)
       (set_users (JsMap.set (user_uuid amb) user) (initialize amb st)),
     Response.mk 201
       (JUserAndToken (toPublicUser user) (generateAccessToken (now amb) (user_uuid amb)))
       [refreshTokenCookie refreshToken] []).
Proof.
  intros Hparse Hfresh. cbv zeta. rewrite register_eq, Hparse. cbv zeta.
  rewrite (find_absent (by_email _)), (find_absent (by_username _)); [reflexivity | |];
    intros x Hx; apply String.eqb_neq; now apply Hfresh.
Qed.

(** A token is never the empty string. *)
Lemma sign_not_empty (u : string) (t : option string) (secret : string) (ttl : N)
    (issued : Date) :
  (Jwt.sign u t secret ttl issued =? "")%string = false.
Proof. reflexivity. Qed.

End CompositionFacts.

(** X9. Register, then login: after a registration that passes
    [registerSchema] with a fresh email and user name, a login that
    passes [loginSchema] and whose email equals the registered one after
    the runtime's [toLowerCase] on both sides finds the new user, and
    succeeds exactly when bcrypt accepts the password against the hash
    stored at registration; it then answers 200 with the registered user
    and fresh tokens, and otherwise 401 "Invalid email or password". *)
Theorem register_then_login `{Platform} (amb amb' : Ambient) (req req' : Request.t)
    (st : MemStorage) (data : RegisterInput.t) (credentials : LoginInput.t) :
  registerSchema_parse (Request.body req) = Some data ->
  (forall existing,
     In existing (JsMap.values (users (initialize amb st))) ->
     Js.toLowerCase (User.email existing) <> Js.toLowerCase (RegisterInput.email data)
     /\ Js.toLowerCase (User.username existing)
        <> Js.toLowerCase (RegisterInput.username data)) ->
  loginSchema_parse (Request.body req') = Some credentials ->
  Js.toLowerCase (LoginInput.email credentials)
  = Js.toLowerCase (RegisterInput.email data) ->
  let registered :=
    UserPublic.mk (user_uuid amb) (RegisterInput.email data) (RegisterInput.username data)
      MEMBER (RegisterInput.firstName data) (RegisterInput.lastName data) (now amb) in
  snd (login amb' req' (fst (register amb req st)))
  = if bcrypt_compare (LoginInput.password credentials)
         (bcrypt_hash (RegisterInput.password data) (user_salt amb))
    then Response.mk 200
           (JUserAndToken registered (generateAccessToken (now amb') (user_uuid amb)))
           [refreshTokenCookie (generateRefreshToken (now amb') (user_uuid amb))] []
    else send_message 401 "Invalid email or password".
Proof.
  intros Hparse Hfresh Hlogin Hcase. cbv zeta.
  rewrite (register_fresh amb req st data Hparse Hfresh). cbn [fst].
  rewrite login_eq, Hlogin. cbv zeta. settle_inits.
  cbn [users set_users set_refreshTokens].
  rewrite find_values_set.
  - cbn [User.password User.id]. now destruct (bcrypt_compare _ _).
  - intros x Hx. unfold by_email. apply String.eqb_neq. rewrite Hcase. now apply Hfresh.
  - unfold by_email. cbn [User.email]. rewrite Hcase. apply String.eqb_refl.
Qed.

(** X10. Register, then [GET /api/auth/me]: while the access token that
    the registration returned has not expired, a request that carries it
    as bearer token is answered 200 with the very user object that the
    registration returned. *)
Theorem register_then_me `{Platform} (amb amb' : Ambient) (req req' : Request.t)
    (srv : Server) (data : RegisterInput.t) :
  registerSchema_parse (Request.body req) = Some data ->
  (forall existing,
     In existing (JsMap.values (users (initialize amb (storage srv)))) ->
     Js.toLowerCase (User.email existing) <> Js.toLowerCase (RegisterInput.email data)
     /\ Js.toLowerCase (User.username existing)
        <> Js.toLowerCase (RegisterInput.username data)) ->
  now amb' < expiryInstant (now amb) expiresIn_15m ->
  let st1 := fst (register amb req (storage srv)) in
  forall registered accessToken,
    Response.json (snd (register amb req (storage srv)))
    = JUserAndToken registered accessToken ->
    Request.authorization req' = Some ("Bearer " ++ accessToken)%string ->
    snd (dispatch GET_auth_me amb' req' (mkServer st1 (limiter srv)))
    = Response.mk 200 (JUser (Some registered)) [] [].
Proof.
  intros Hparse Hfresh Hlt. cbv zeta.
  rewrite (register_fresh amb req (storage srv) data Hparse Hfresh). cbn [fst snd Response.json].
  intros registered accessToken [= <- <-] Hh.
  assert (Hg : In UseAuthenticate (middlewares GET_auth_me)) by now left.
  rewrite (dispatch_guarded _ _ _ _ Hg). cbn [storage].
  rewrite (authenticate_bearer _ _ _ _ Hh).
  unfold generateAccessToken. rewrite verifyToken_sign, before_expiry by assumption.
  cbn [Jwt.userId]. settle_inits. cbn [users set_users set_refreshTokens].
  rewrite get_set_eq. reflexivity.
Qed.

(** X11. Login, then refresh: on a well-formed store, while neither
    the refresh token that a successful login set in the cookie has
    expired (7 x 86 400 s after the second of the login) nor the row
    stored for it (the instant of the login moved 7 calendar days on by
    the runtime's [addDays 7], which daylight saving can make an hour
    less or more than the token's time), a refresh that presents this
    cookie is answered 200 with an access token for the user that logged
    in, issued at the instant of the refresh, and the stored rows are
    left as they are. *)
Theorem login_then_refresh `{Platform} (amb amb' : Ambient) (req req' : Request.t)
    (st : MemStorage) (user : UserPublic.t) (accessToken : string) (cookie : Cookie.t) :
  wf_store st ->
  Response.json (snd (login amb req st)) = JUserAndToken user accessToken ->
  Response.cookie (snd (login amb req st)) = [cookie] ->
  Request.cookies_refreshToken req' = Some (Cookie.value cookie) ->
  now amb' < expiryInstant (now amb) expiresIn_7d ->
  now amb' <= addDays 7 (now amb) ->
  let st1 := fst (login amb req st) in
  snd (refresh amb' req' st1)
  = Response.mk 200 (JAccessToken (generateAccessToken (now amb') (UserPublic.id user))) [] []
  /\ refreshTokens (fst (refresh amb' req' st1)) = refreshTokens st1.
Proof.
  intros Hwf. cbv zeta. rewrite login_eq.
  destruct (loginSchema_parse _) as [data|]; [cbv zeta | discriminate].
  destruct (find _ _) as [u|] eqn:Hfind; [|discriminate].
  destruct (bcrypt_compare _ _); [|discriminate].
  cbn [fst snd Response.json Response.cookie].
  intros [= <- _] [= <-] Hcookie Hlt Hrow.
  cbn [refreshTokenCookie Cookie.value toPublicUser UserPublic.id] in *.
  assert (Hne : (generateRefreshToken (now amb) (User.id u) =? "")%string = false)
    by apply sign_not_empty.
  assert (Hverify : verifyToken (now amb') (generateRefreshToken (now amb) (User.id u))
                    = Some (Jwt.mkPayload (User.id u) (Some "refresh") (now amb / 1000)
                              (now amb / 1000 + expiresIn_7d))).
  { unfold generateRefreshToken. now rewrite verifyToken_sign, before_expiry. }
  assert (Hlive : (addDays 7 (now amb) <? now amb') = false).
  { now apply N.ltb_ge. }
  assert (Hget : JsMap.get (User.id u) (users (initialize amb st)) = Some u).
  { destruct (wf_initialize amb st Hwf) as [Hn Hid _ _].
    apply find_some in Hfind as [Hin _].
    unfold JsMap.values in Hin. apply in_map_iff in Hin as [[k u'] [Hu' Hin]].
    simpl in Hu'. subst u'. apply In_get; [assumption|].
    now rewrite (Hid _ _ Hin). }
  rewrite refresh_eq, Hcookie, Hne. cbv zeta. settle_inits.
  cbn [refreshTokens users set_refreshTokens].
  rewrite get_set_eq. cbn [RefreshToken.expiresAt].
  rewrite Hlive, Hverify. cbn [Jwt.userId]. rewrite Hget. split; reflexivity.
Qed.

Section CompositionExamples.
#[local] Existing Instance Demo.runtime.
#[local] Existing Instance Demo.platform.

Lemma bob_is_fresh :
  forall existing,
    In existing (JsMap.values (users (initialize (Demo.ambient 2000 "bob") Demo.store1))) ->
    Js.toLowerCase (User.email existing) <> Js.toLowerCase (RegisterInput.email Fixtures.bob)
    /\ Js.toLowerCase (User.username existing)
       <> Js.toLowerCase (RegisterInput.username Fixtures.bob).
Proof. intros existing [<- | [<- | []]]; split; discriminate. Qed.

Lemma register_then_login_witness :
  Response.status
    (snd (login (Demo.ambient 3000 "in") (Fixtures2.login_as "BOB@X.com" "hunter2hunter2")
            (fst (register (Demo.ambient 2000 "bob") Fixtures2.register_bob Demo.store1))))
  = 200
  /\ snd (login (Demo.ambient 3000 "in") (Fixtures2.login_as "BOB@X.com" "hunter3")
            (fst (register (Demo.ambient 2000 "bob") Fixtures2.register_bob Demo.store1)))
     = send_message 401 "Invalid email or password".
Proof.
  split.
  - rewrite (register_then_login (Demo.ambient 2000 "bob") (Demo.ambient 3000 "in")
               Fixtures2.register_bob (Fixtures2.login_as "BOB@X.com" "hunter2hunter2")
               Demo.store1 Fixtures.bob (LoginInput.mk "BOB@X.com" "hunter2hunter2")
               eq_refl bob_is_fresh eq_refl eq_refl).
    reflexivity.
  - rewrite (register_then_login (Demo.ambient 2000 "bob") (Demo.ambient 3000 "in")
               Fixtures2.register_bob (Fixtures2.login_as "BOB@X.com" "hunter3")
               Demo.store1 Fixtures.bob (LoginInput.mk "BOB@X.com" "hunter3")
               eq_refl bob_is_fresh eq_refl eq_refl).
    reflexivity.
Defined.

Lemma register_then_me_witness :
  snd (dispatch GET_auth_me (Demo.ambient 3000 "me")
         (Fixtures2.bearer (generateAccessToken 2000 "uuid-bob"))
         (mkServer (fst (register (Demo.ambient 2000 "bob") Fixtures2.register_bob
                           (storage Demo.server1)))
            (limiter Demo.server1)))
  = Response.mk 200 (JUser (Some Fixtures2.bob_public)) [] [].
Proof.
  apply (register_then_me (Demo.ambient 2000 "bob") (Demo.ambient 3000 "me")
           Fixtures2.register_bob (Fixtures2.bearer (generateAccessToken 2000 "uuid-bob"))
           Demo.server1 Fixtures.bob eq_refl bob_is_fresh eq_refl
           Fixtures2.bob_public (generateAccessToken 2000 "uuid-bob") eq_refl eq_refl).
Defined.

Lemma login_then_refresh_witness :
  snd (refresh (Demo.ambient 5000 "r")
         (Demo.refresh_request (Some (generateRefreshToken 2000 "uuid-alice")))
         (fst (login (Demo.ambient 2000 "in") (Fixtures2.login_as "a@x.com" "password123")
                 Demo.store1)))
  = Response.mk 200 (JAccessToken (generateAccessToken 5000 "uuid-alice")) [] [].
Proof.
  assert (Hwf : wf_store Demo.store1) by (apply register_wf, wf_new).
  apply (login_then_refresh (Demo.ambient 2000 "in") (Demo.ambient 5000 "r")
           (Fixtures2.login_as "a@x.com" "password123")
           (Demo.refresh_request (Some (generateRefreshToken 2000 "uuid-alice")))
           Demo.store1 Fixtures.alice_public (generateAccessToken 2000 "uuid-alice")
           (refreshTokenCookie (generateRefreshToken 2000 "uuid-alice"))
           Hwf eq_refl eq_refl eq_refl eq_refl).
  discriminate.
Defined.

End CompositionExamples.

(** ** Updating and listing users *)

Section ListFacts.
Context {A : Type}.

Lemma firstn_min_length (n : nat) (l : list A) :
  firstn (Nat.min n (List.length l)) l = firstn n l.
Proof.
  destruct (Nat.le_ge_cases n (List.length l)) as [Hle | Hge].
  - now rewrite Nat.min_l.
  - rewrite Nat.min_r by assumption. now rewrite !firstn_all2.
Qed.

(** [slice] with a finite start and length that are not negative. *)
Lemma slice_firstn_skipn (start count : Z) (l : list A) :
  (0 <= start)%Z -> (0 <= count)%Z ->
  slice (Finite start) (Finite (start + count)) l
  = firstn (Z.to_nat count) (skipn (Z.to_nat start) l).
Proof.
  intros Hs Hc. unfold slice, slice_index.
  assert (Hs' : (start <? 0)%Z = false) by (apply Z.ltb_ge; lia).
  assert (Hc' : (start + count <? 0)%Z = false) by (apply Z.ltb_ge; lia).
  rewrite Hs', Hc'.
  set (len := Z.of_nat (List.length l)).
  destruct (Z.le_ge_cases len start) as [Hout | Hin].
  - rewrite !skipn_all2 by (subst len; lia). now rewrite !firstn_nil.
  - rewrite (Z.min_l start len) by lia.
    rewrite <- (firstn_min_length (Z.to_nat count)).
    f_equal. rewrite length_skipn. subst len. lia.
Qed.

(** [slice] where start and end fall on the same index. *)
Lemma slice_empty (start stop : JsNumber) (l : list A) :
  slice_index (Z.of_nat (List.length l)) stop
  = slice_index (Z.of_nat (List.length l)) start ->
  slice start stop l = [].
Proof. intros Heq. unfold slice. now rewrite Heq, Z.sub_diag. Qed.

(** Cutting a list into [k] consecutive pieces of [n] elements covers it
    when [k * n] reaches its length. *)
Lemma pieces_cover (n k : nat) (l : list A) :
  (0 < n)%nat -> (List.length l <= k * n)%nat ->
  flat_map (fun i => firstn n (skipn (i * n) l)) (seq 0 k) = l.
Proof.
  intros Hn. revert l. induction k as [|k IH]; intros l Hlen.
  - destruct l; [reflexivity | simpl in Hlen; lia].
  - cbn [seq flat_map]. rewrite <- seq_shift, flat_map_concat_map, map_map.
    rewrite <- flat_map_concat_map. cbn [Nat.mul skipn].
    rewrite (flat_map_ext _ (fun i => firstn n (skipn (i * n) (skipn n l)))).
    + rewrite IH by (rewrite length_skipn; lia). apply firstn_skipn.
    + intros i. rewrite skipn_skipn. do 2 f_equal. lia.
Qed.

End ListFacts.

Section SortFacts.
Context {A : Type} (before : A -> A -> bool).

Lemma insert_sorted_perm (x : A) (l : list A) :
  Permutation (insert_sorted before x l) (x :: l).
Proof.
  induction l as [|y l IH]; simpl; [reflexivity|].
  destruct (before x y); [reflexivity|].
  rewrite IH. apply perm_swap.
Qed.

Lemma sort_perm (l : list A) : Permutation (sort before l) l.
Proof.
  induction l as [|x l IH]; simpl; [reflexivity|].
  rewrite insert_sorted_perm. now constructor.
Qed.

End SortFacts.

Section UserListingFacts.
Context `{Platform}.

Lemma updateUser_eq (amb : Ambient) (id : string) (data : UserPatch.t) (st : MemStorage) :
  updateUser amb id data st =
    match JsMap.get id (users (initialize amb st)) with
    | None => (initialize amb st, inr None)
    | Some user =>
        (set_users (JsMap.set id (spread_user user data)) (initialize amb st),
         inr (Some (spread_user user data)))
    end.
Proof.
  unfold updateUser, bind. rewrite ensureInitialized_eq. unfold gets.
  now destruct (JsMap.get id _).
Qed.

Lemma getAllUsers_eq (amb : Ambient) (page limit : JsNumber) (st : MemStorage) :
  let allUsers := sort newest_first (JsMap.values (users (initialize amb st))) in
  let offset := js_mul (js_pred page) limit in
  getAllUsers amb page limit st
  = (initialize amb st,
     inr (Paginated.mk
            (map toPublicUser (slice offset (js_add offset limit) allUsers))
            (Z.of_nat (List.length allUsers)) page limit
            (ceil_div (Z.of_nat (List.length allUsers)) limit))).
Proof. unfold getAllUsers, bind. now rewrite ensureInitialized_eq. Qed.

(** The listing is ordered from the most recent to the oldest. *)
Lemma newest_first_sorted (l : list User.t) :
  Sorted (fun a b => User.createdAt b <= User.createdAt a) (sort newest_first l).
Proof.
  induction l as [|x l IH]; simpl; [constructor|].
  revert IH. generalize (sort newest_first l). intros s Hs.
  induction s as [|y s IHs]; simpl; [repeat constructor|].
  unfold newest_first at 1. destruct (User.createdAt y <=? User.createdAt x) eqn:Hb.
  - constructor; [assumption|]. constructor. now apply N.leb_le.
  - apply N.leb_gt in Hb. inversion Hs as [|? ? Hs' Hhd]; subst.
    constructor; [now apply IHs|].
    destruct s as [|z s]; simpl.
    + constructor. lia.
    + unfold newest_first. destruct (User.createdAt z <=? User.createdAt x);
        constructor; [lia|]. now inversion Hhd.
Qed.

End UserListingFacts.

(** X12. [updateUser] of an id that is not in the store returns
    nothing and leaves the (initialized) store as it is.  Otherwise it
    returns the stored user with the given properties replaced; the id
    and the creation instant are never changed; a later [getUser] of the
    id returns the updated user, the answers for the other ids and the
    order of the users are what they were, and a well-formed store stays
    well formed.  An update without properties changes no field. *)
Theorem updateUser_cases `{Platform} (amb amb' : Ambient) (id : string) (data : UserPatch.t)
    (st : MemStorage) :
  let st0 := initialize amb st in
  let st1 := fst (updateUser amb id data st) in
  (JsMap.get id (users st0) = None -> updateUser amb id data st = (st0, inr None))
  /\ (forall user,
        JsMap.get id (users st0) = Some user ->
        let updated := spread_user user data in
        snd (updateUser amb id data st) = inr (Some updated)
        /\ User.id updated = User.id user
        /\ User.createdAt updated = User.createdAt user
        /\ snd (getUser amb' id st1) = inr (Some updated)
        /\ (forall other, other <> id ->
              snd (getUser amb' other st1) = snd (getUser amb other st))
        /\ JsMap.keys (users st1) = JsMap.keys (users st0)
        /\ refreshTokens st1 = refreshTokens st
        /\ (wf_store st -> wf_store st1)
        /\ spread_user user UserPatch.empty = user).
Proof.
  cbv zeta. rewrite updateUser_eq. split; [now intros ->|].
  intros user Hu. rewrite Hu. cbn [fst snd].
  split; [reflexivity|]. split; [reflexivity|]. split; [reflexivity|].
  split; [|split; [|split; [|split; [|split]]]].
  - rewrite getUser_eq. settle_inits. cbn [snd users set_users]. now rewrite get_set_eq.
  - intros other Hne. rewrite !getUser_eq. settle_inits. cbn [snd users set_users].
    rewrite get_set_neq by congruence. reflexivity.
  - cbn [users set_users]. rewrite keys_set, has_get, Hu. reflexivity.
  - cbn [refreshTokens set_users]. apply refreshTokens_initialize.
  - intros Hwf. pose proof (wf_initialize amb st Hwf) as Hwf0.
    assert (Hid : User.id (spread_user user data) = id).
    { destruct Hwf0 as [_ Hid _ _]. cbn [spread_user User.id]. apply Hid.
      now apply get_In. }
    rewrite <- Hid at 1. now apply wf_set_user.
  - now destruct user.
Qed.

Section PageArithmetic.

Lemma ceil_div_covers (total limit : Z) :
  (0 <= total)%Z -> (0 < limit)%Z ->
  (0 <= - ((- total) / limit) /\ total <= - ((- total) / limit) * limit)%Z.
Proof.
  intros Ht Hl.
  pose proof (Z.mul_div_le (- total) limit Hl) as Hle.
  assert (Hneg : ((- total) / limit <= 0)%Z).
  { apply Z.div_le_upper_bound; lia. }
  split; lia.
Qed.

End PageArithmetic.

(** X13. [getAllUsers] with a finite page and a finite limit that are
    at least 1: the page holds the users from position
    [(page - 1) * limit] of the listing, at most [limit] of them, without
    their passwords; [total] is the number of users in the store, [page]
    and [limit] are echoed, and [totalPages] is the least number of pages
    of [limit] users that hold them all; a page beyond it is empty.  With
    the limit [Infinity], which [parseInt] makes of a long run of digits,
    it is otherwise: every page is empty and [totalPages] is 0, however
    many users there are. *)
Theorem getAllUsers_page `{Platform} (amb : Ambient) (page limit : Z) (st : MemStorage) :
  (1 <= page)%Z -> (1 <= limit)%Z ->
  let listing := sort newest_first (JsMap.values (users (initialize amb st))) in
  (exists result,
     snd (getAllUsers amb (Finite page) (Finite limit) st) = inr result
     /\ Paginated.data result
        = map toPublicUser
            (firstn (Z.to_nat limit) (skipn (Z.to_nat ((page - 1) * limit)) listing))
     /\ (Z.of_nat (List.length (Paginated.data result)) <= limit)%Z
     /\ Paginated.total result
        = Z.of_nat (List.length (JsMap.values (users (initialize amb st))))
     /\ Paginated.page result = Finite page
     /\ Paginated.limit result = Finite limit
     /\ (exists pages,
           Paginated.totalPages result = Finite pages
           /\ (Paginated.total result <= pages * limit)%Z
           /\ ((pages - 1) * limit < Paginated.total result \/ pages = 0%Z)%Z
           /\ ((pages < page)%Z -> Paginated.data result = [])))
  /\ forall anyPage,
       snd (getAllUsers amb anyPage PlusInfinity st)
       = inr (Paginated.mk [] (Z.of_nat (List.length listing)) anyPage PlusInfinity
                (Finite 0)).
Proof.
  intros Hp Hl. cbv zeta. split.
  2:{ intros anyPage. rewrite getAllUsers_eq. cbv zeta. cbn [snd]. do 2 f_equal.
      rewrite slice_empty; [reflexivity|].
      destruct anyPage as [[|[p|p|]|p]| | |]; reflexivity. }
  rewrite getAllUsers_eq. cbv zeta. cbn [snd].
  eexists. split; [reflexivity|]. cbn [Paginated.data Paginated.total Paginated.page
                                       Paginated.limit Paginated.totalPages].
  set (listing := sort newest_first (JsMap.values (users (initialize amb st)))).
  assert (Hslice : slice (js_mul (js_pred (Finite page)) (Finite limit))
                     (js_add (js_mul (js_pred (Finite page)) (Finite limit)) (Finite limit))
                     listing
                   = firstn (Z.to_nat limit) (skipn (Z.to_nat ((page - 1) * limit)) listing)).
  { cbn [js_mul js_pred js_add]. apply slice_firstn_skipn; nia. }
  rewrite Hslice.
  assert (Hlen : List.length listing = List.length (JsMap.values (users (initialize amb st)))).
  { apply Permutation_length, sort_perm. }
  split; [reflexivity|]. split; [|split; [|split; [|split]]]; try reflexivity.
  - rewrite length_map, length_firstn. lia.
  - now rewrite Hlen.
  - unfold ceil_div. assert (Hz : (limit =? 0)%Z = false) by (apply Z.eqb_neq; lia).
    rewrite Hz. eexists. split; [reflexivity|].
    set (total := Z.of_nat (List.length listing)).
    assert (Ht : (0 <= total)%Z) by (subst total; lia).
    destruct (ceil_div_covers total limit Ht) as [Hnn Hcov]; [lia|].
    split; [exact Hcov|]. split.
    + pose proof (Z.mul_succ_div_gt (- total) limit) as Hgt.
      destruct (Z.eq_dec (- (- total / limit)) 0) as [Hz0 | Hnz]; [now right | left].
      specialize (Hgt ltac:(lia)). nia.
    + intros Hbeyond. rewrite skipn_all2; [now rewrite firstn_nil|].
      subst total. nia.
Qed.

(** X14. The listing of [getAllUsers] holds every user of the store
    exactly once, from the most recent to the oldest, and for a finite
    limit of at least 1 its pages 1 to [totalPages], put one after the
    other, are that listing: no user is left out and none comes twice.
    (With the limit [Infinity] there is no such cover: [totalPages] is 0
    and every page is empty, see X13.) *)
Theorem getAllUsers_pages_cover `{Platform} (amb : Ambient) (limit : Z) (st : MemStorage) :
  (1 <= limit)%Z ->
  let all := JsMap.values (users (initialize amb st)) in
  let listing := sort newest_first all in
  let pages := Z.to_nat (- ((- Z.of_nat (List.length all)) / limit))%Z in
  Permutation listing all
  /\ Sorted (fun a b => User.createdAt b <= User.createdAt a) listing
  /\ (forall page result,
        snd (getAllUsers amb page (Finite limit) st) = inr result ->
        Paginated.totalPages result = Finite (Z.of_nat pages))
  /\ flat_map (fun p => page_data (getAllUsers amb (Finite (Z.of_nat p)) (Finite limit) st))
       (seq 1 pages)
     = map toPublicUser listing.
Proof.
  intros Hl. cbv zeta.
  set (all := JsMap.values (users (initialize amb st))).
  set (listing := sort newest_first all).
  assert (Hlen : List.length listing = List.length all)
    by apply Permutation_length, sort_perm.
  destruct (ceil_div_covers (Z.of_nat (List.length all)) limit) as [Hnn Hcov]; [lia | lia |].
  set (pages := Z.to_nat (- (- Z.of_nat (List.length all) / limit))%Z) in *.
  split; [apply sort_perm|]. split; [apply newest_first_sorted|]. split.
  - intros page result. rewrite getAllUsers_eq. cbv zeta. cbn [snd]. intros [= <-].
    cbn [Paginated.totalPages]. fold all. fold listing. rewrite Hlen. unfold ceil_div.
    assert (Hz : (limit =? 0)%Z = false) by (apply Z.eqb_neq; lia).
    rewrite Hz. f_equal. subst pages. lia.
  - rewrite <- seq_shift, flat_map_concat_map, map_map, <- flat_map_concat_map.
    rewrite (flat_map_ext _
               (fun i => map toPublicUser
                           (firstn (Z.to_nat limit) (skipn (i * Z.to_nat limit) listing)))).
    + rewrite flat_map_concat_map, <- map_map, <- concat_map, <- flat_map_concat_map.
      f_equal. apply pieces_cover; [lia|]. rewrite Hlen. subst pages. nia.
    + intros i. unfold page_data. rewrite getAllUsers_eq. cbv zeta.
      cbn [snd Paginated.data js_mul js_pred js_add]. fold all. fold listing.
      rewrite slice_firstn_skipn by nia. do 3 f_equal. nia.
Qed.

(** X15. [getAllUsers] does not check its limit: with page 1 and a
    negative limit, the page holds the whole listing but its last
    [- limit] users, however many that is, and [totalPages] is not
    positive. *)
Theorem getAllUsers_negative_limit `{Platform} (amb : Ambient) (limit : Z)
    (st : MemStorage) :
  (limit < 0)%Z ->
  let listing := sort newest_first (JsMap.values (users (initialize amb st))) in
  exists result pages,
    snd (getAllUsers amb (Finite 1) (Finite limit) st) = inr result
    /\ Paginated.data result
       = map toPublicUser
           (firstn (List.length listing - Z.to_nat (- limit)) listing)
    /\ Paginated.totalPages result = Finite pages
    /\ (pages <= 0)%Z.
Proof.
  intros Hl. cbv zeta. rewrite getAllUsers_eq. cbv zeta. cbn [snd].
  set (listing := sort newest_first (JsMap.values (users (initialize amb st)))).
  eexists. eexists. split; [reflexivity|].
  cbn [Paginated.data Paginated.totalPages]. split; [|split].
  - f_equal. cbn [js_mul js_pred js_add]. unfold slice, slice_index.
    change ((1 - 1) * limit)%Z with 0%Z.
    assert (Hneg : (0 + limit <? 0)%Z = true) by (apply Z.ltb_lt; lia).
    rewrite Hneg. change (0 <? 0)%Z with false. cbv iota.
    rewrite Z.min_l by lia. cbn [Z.to_nat skipn]. f_equal. lia.
  - unfold ceil_div. assert (Hz : (limit =? 0)%Z = false) by (apply Z.eqb_neq; lia).
    rewrite Hz. reflexivity.
  - set (total := Z.of_nat (List.length listing)).
    assert (Ht : (0 <= total)%Z) by (subst total; lia).
    assert (Hq : (0 <= (- total) / limit)%Z).
    { replace limit with (- (- limit))%Z by lia.
      rewrite Z.div_opp_opp by lia. apply Z.div_pos; lia. }
    lia.
Qed.

Section UserListingExamples.
#[local] Existing Instance Demo.runtime.
#[local] Existing Instance Demo.platform.

Lemma updateUser_cases_witness :
  let patch := UserPatch.mk None (Some "alice2") None (Some ADMIN) None None in
  let st1 := fst (updateUser (Demo.ambient 3000 "u") "uuid-alice" patch Fixtures.store2) in
  snd (getUser (Demo.ambient 3000 "u") "uuid-alice" st1)
  = inr (Some (User.mk "uuid-alice" "a@x.com" "alice2" "salt-alice$password123" ADMIN
                 "A" "L" 1000))
  /\ JsMap.keys (users st1) = ["uuid-admin"; "uuid-alice"; "uuid-bob"]
  /\ updateUser (Demo.ambient 3000 "u") "uuid-nobody" patch Fixtures.store2
     = (Fixtures.store2, inr None).
Proof.
  intros patch st1.
  destruct (updateUser_cases (Demo.ambient 3000 "u") (Demo.ambient 3000 "u") "uuid-alice"
              patch Fixtures.store2) as [_ Hfound].
  destruct (Hfound Fixtures.alice_user eq_refl) as (_ & _ & _ & Hget & _ & Hkeys & _).
  split; [exact Hget|]. split; [unfold st1; rewrite Hkeys; reflexivity|].
  apply (proj1 (updateUser_cases (Demo.ambient 3000 "u") (Demo.ambient 3000 "u")
                  "uuid-nobody" patch Fixtures.store2)).
  reflexivity.
Defined.

Lemma getAllUsers_page_witness :
  page_data (getAllUsers (Demo.ambient 3000 "l") (Finite 2) (Finite 2) Fixtures.store2)
  = [Fixtures.alice_public].
Proof.
  destruct (getAllUsers_page (Demo.ambient 3000 "l") 2 2 Fixtures.store2)
    as [(result & Hres & Hdata & _) _]; [discriminate | discriminate |].
  unfold page_data. rewrite Hres, Hdata. reflexivity.
Defined.

Lemma getAllUsers_pages_cover_witness :
  flat_map (fun p => page_data (getAllUsers (Demo.ambient 3000 "l") (Finite (Z.of_nat p))
                                  (Finite 2) Fixtures.store2)) [1; 2]%nat
  = [Fixtures2.bob_public;
     UserPublic.mk "uuid-admin" "admin@taskflow.com" "admin" ADMIN "System" "Admin" 1000;
     Fixtures.alice_public].
Proof.
  destruct (getAllUsers_pages_cover (Demo.ambient 3000 "l") 2 Fixtures.store2)
    as (_ & _ & _ & Hcover); [discriminate|].
  exact Hcover.
Defined.

Lemma getAllUsers_negative_limit_witness :
  page_data (getAllUsers (Demo.ambient 3000 "l") (Finite 1) (Finite (-1)) Fixtures.store2)
  = [Fixtures2.bob_public;
     UserPublic.mk "uuid-admin" "admin@taskflow.com" "admin" ADMIN "System" "Admin" 1000].
Proof.
  destruct (getAllUsers_negative_limit (Demo.ambient 3000 "l") (-1) Fixtures.store2)
    as (result & pages & Hres & Hdata & _); [reflexivity|].
  unfold page_data. rewrite Hres, Hdata. reflexivity.
Defined.

End UserListingExamples.

(** ** The user routes *)

Section UniqueFacts.
Context {V : Type} (f : V -> string).

Lemma In_values_set (k : string) (v x : V) (m : JsMap.t V) :
  In x (JsMap.values (JsMap.set k v m)) -> x = v \/ In x (JsMap.values m).
Proof.
  unfold JsMap.values. rewrite in_map_iff. intros [e [<- Hin]].
  apply In_set in Hin as [-> | Hin]; [now left | right].
  apply in_map_iff. now exists e.
Qed.

(** Replacing the value under a key keeps the images under [f] distinct
    when the new image is the old one or a new one. *)
Lemma NoDup_map_set_replace (k : string) (v old : V) (m : JsMap.t V) :
  NoDup (JsMap.keys m) ->
  NoDup (map f (JsMap.values m)) ->
  JsMap.get k m = Some old ->
  f v = f old \/ ~ In (f v) (map f (JsMap.values m)) ->
  NoDup (map f (JsMap.values (JsMap.set k v m))).
Proof.
  intros Hk Hn Hg Hv.
  assert (Hhas : JsMap.has k m = true) by now rewrite has_get, Hg.
  unfold JsMap.set. rewrite Hhas. clear Hhas.
  induction m as [|e m IH]; [discriminate|].
  unfold JsMap.get in Hg. cbn [find] in Hg.
  cbn [map JsMap.values] in *. unfold JsMap.keys in Hk. cbn [map] in Hk.
  inversion Hk as [|? ? Hkx Hk']; subst. inversion Hn as [|? ? Hnx Hn']; subst.
  destruct (JsMap.key_is k e) eqn:He.
  - cbn [option_map] in Hg. injection Hg as <-. cbn [snd].
    assert (Habs : JsMap.has k m = false).
    { apply has_false. unfold JsMap.key_is in He. apply String.eqb_eq in He. now rewrite He. }
    rewrite (replace_absent _ _ _ Habs). constructor; [|assumption].
    destruct Hv as [Hv | Hv]; [now rewrite Hv|].
    intros Hin. apply Hv. now right.
  - assert (Hold : In (f old) (map f (map snd m))).
    { apply in_map. fold (JsMap.get k m) in Hg. apply get_In in Hg.
      apply in_map_iff. now exists (k, old). }
    constructor.
    + intros Hin. apply in_map_iff in Hin as [x [Hfx Hx]].
      assert (Hx' : x = v \/ In x (JsMap.values m)).
      { apply (In_values_set k). unfold JsMap.set.
        assert (Hhas : JsMap.has k m = true).
        { fold (JsMap.get k m) in Hg. now rewrite has_get, Hg. }
        now rewrite Hhas. }
      destruct Hx' as [-> | Hx'].
      * destruct Hv as [Hv | Hv].
        -- apply Hnx. rewrite <- Hfx, Hv. exact Hold.
        -- apply Hv. left. now symmetry.
      * apply Hnx. rewrite <- Hfx. now apply in_map.
    + apply IH; try assumption.
      destruct Hv as [Hv | Hv]; [now left | right].
      intros Hin. apply Hv. now right.
Qed.

(** Storing a value with a new image keeps the images distinct. *)
Lemma NoDup_map_set_fresh (k : string) (v : V) (m : JsMap.t V) :
  NoDup (JsMap.keys m) ->
  NoDup (map f (JsMap.values m)) ->
  ~ In (f v) (map f (JsMap.values m)) ->
  NoDup (map f (JsMap.values (JsMap.set k v m))).
Proof.
  intros Hk Hn Hv. destruct (JsMap.get k m) as [old|] eqn:Hg.
  - apply (NoDup_map_set_replace k v old); auto.
  - unfold JsMap.set. rewrite has_get, Hg. unfold JsMap.values.
    rewrite !map_app. cbn [map snd]. apply NoDup_app; [assumption | repeat constructor; easy |].
    intros x Hx [<- | []]. now apply Hv.
Qed.

Lemma NoDup_map_delete (k : string) (m : JsMap.t V) :
  NoDup (map f (JsMap.values m)) -> NoDup (map f (JsMap.values (JsMap.delete k m))).
Proof.
  unfold JsMap.values, JsMap.delete.
  induction m as [|e m IH]; simpl; [easy|].
  intros Hn. inversion Hn as [|? ? Hx Hn']; subst.
  destruct (negb (JsMap.key_is k e)); simpl; [|now apply IH].
  constructor; [|now apply IH].
  intros Hin. apply Hx. apply in_map_iff in Hin as [y [Hy Hin]].
  apply in_map_iff in Hin as [e' [<- Hin]]. apply filter_In in Hin as [Hin _].
  rewrite <- Hy. apply in_map, in_map. exact Hin.
Qed.

End UniqueFacts.

(** Rewrites the store methods of a handler, the update included, into
    their effect on the initialized store. *)
Ltac run_store2 :=
  unfold handle, parse, bind, gets, modify, ret, throw;
  cbn beta iota zeta;
  repeat (first
    [ rewrite getUserByEmail_eq | rewrite getUserByUsername_eq
    | rewrite getUser_eq | rewrite createUser_eq | rewrite deleteUser_eq
    | rewrite updateUser_eq
    | rewrite createRefreshToken_eq | rewrite getRefreshToken_eq
    | rewrite deleteRefreshToken_eq | rewrite deleteRefreshTokensByUser_eq ];
    cbn beta iota zeta).

Section UserRouteFacts.
Context `{UserSchemas}.

(** The uniqueness checks of the update routes on an initialized store:
    they throw exactly when the value is [taken], and never write. *)
Lemma check_free_email (amb : Ambient) (v : option string) (current message : string)
    (st : MemStorage) :
  initialized st = true ->
  check_free v current (getUserByEmail amb) message st
  = (st, if taken by_email v current st then inl (AppError 400 message) else inr tt).
Proof.
  intros Hi. unfold check_free, taken. destruct v as [value|]; [|reflexivity].
  destruct (Js.truthy (Some value) && negb (value =? current)%string); [|reflexivity].
  run_store2. rewrite (initialize_initialized amb st Hi).
  fold (by_email value). now destruct (find _ _).
Qed.

Lemma check_free_username (amb : Ambient) (v : option string) (current message : string)
    (st : MemStorage) :
  initialized st = true ->
  check_free v current (getUserByUsername amb) message st
  = (st, if taken by_username v current st then inl (AppError 400 message) else inr tt).
Proof.
  intros Hi. unfold check_free, taken. destruct v as [value|]; [|reflexivity].
  destruct (Js.truthy (Some value) && negb (value =? current)%string); [|reflexivity].
  run_store2. rewrite (initialize_initialized amb st Hi).
  fold (by_username value). now destruct (find _ _).
Qed.

(** [POST /api/users], step by step. *)
Lemma createUserByAdmin_eq (amb : Ambient) (req : Request.t) (st : MemStorage) :
  createUserByAdmin amb req st =
    match createUserSchema_parse (Request.body req) with
    | None => (st, errorHandler ZodError)
    | Some data =>
        let st0 := initialize amb st in
        match find (by_email (CreateUserInput.email data)) (JsMap.values (users st0)) with
        | Some _ => (st0, send_message 400 "Email already registered")
        | None =>
            match find (by_username (CreateUserInput.username data))
                    (JsMap.values (users st0)) with
            | Some _ => (st0, send_message 400 "Username already taken")
            | None =>
                let user :=
                  User.mk (user_uuid amb) (CreateUserInput.email data)
                    (CreateUserInput.username data)
                    (bcrypt_hash (CreateUserInput.password data) (user_salt amb))
                    (CreateUserInput.role data)
                    (CreateUserInput.firstName data) (CreateUserInput.lastName data)
                    (now amb) in
                (set_users (JsMap.set (user_uuid amb) user) st0,
                 Response.mk 201 (JUser (Some (toPublicUser user))) [] [])
            end
        end
    end.
Proof.
  unfold createUserByAdmin, createUserByAdmin_try.
  destruct (createUserSchema_parse (Request.body req)) as [data|]; [|reflexivity].
  run_store2. fold (by_email (CreateUserInput.email data)).
  destruct (find _ _) as [user|]; [reflexivity|].
  run_store2. settle_inits. fold (by_username (CreateUserInput.username data)).
  destruct (find _ _) as [user|]; [reflexivity|].
  run_store2. settle_inits. reflexivity.
Qed.

End UserRouteFacts.

Section UserRouteFacts2.
Context `{UserSchemas}.

(** [PATCH /api/users/profile], step by step. *)
Lemma updateProfile_eq (amb : Ambient) (req : Request.t) (st : MemStorage) :
  updateProfile amb req st =
    match updateProfileSchema_parse (Request.body req) with
    | None => (st, errorHandler ZodError)
    | Some data =>
        match Request.user req with
        | None => (st, errorHandler OtherError)
        | Some principal =>
            let st0 := initialize amb st in
            match JsMap.get (UserPublic.id principal) (users st0) with
            | None => (st0, send_message 404 "User not found")
            | Some existing =>
                if taken by_email (ProfileInput.email data) (User.email existing) st0
                then (st0, send_message 400 "Email already registered")
                else if taken by_username (ProfileInput.username data)
                          (User.username existing) st0
                then (st0, send_message 400 "Username already taken")
                else
                  match profile_patch amb data existing with
                  | inl err => (st0, errorHandler err)
                  | inr patch =>
                      (set_users (JsMap.set (UserPublic.id principal)
                                    (spread_user existing patch)) st0,
                       Response.mk 200
                         (JUser (Some (toPublicUser (spread_user existing patch)))) [] [])
                  end
            end
        end
    end.
Proof.
  unfold updateProfile, updateProfile_try.
  destruct (updateProfileSchema_parse (Request.body req)) as [data|]; [|reflexivity].
  destruct (Request.user req) as [principal|]; [|reflexivity].
  run_store2. cbv zeta.
  assert (Hi : initialized (initialize amb st) = true) by apply initialized_initialize.
  set (st0 := initialize amb st) in *.
  destruct (JsMap.get (UserPublic.id principal) (users st0)) as [existing|] eqn:Hget;
    [|reflexivity].
  rewrite (check_free_email amb _ _ _ st0 Hi).
  destruct (taken by_email _ _ st0); [reflexivity|].
  rewrite (check_free_username amb _ _ _ st0 Hi).
  destruct (taken by_username _ _ st0); [reflexivity|].
  unfold profile_patch.
  destruct (ProfileInput.newPassword data) as [np|].
  - destruct (Js.truthy (Some np)).
    + destruct (ProfileInput.currentPassword data) as [cp|]; [|reflexivity].
      destruct (Js.truthy (Some cp)); cbn [negb]; [|reflexivity].
      destruct (bcrypt_compare cp (User.password existing)); cbn [negb]; [|reflexivity].
      run_store2. rewrite (initialize_initialized amb st0 Hi), Hget. reflexivity.
    + run_store2. rewrite (initialize_initialized amb st0 Hi), Hget. reflexivity.
  - change (Js.truthy None) with false. cbv iota.
    run_store2. rewrite (initialize_initialized amb st0 Hi), Hget. reflexivity.
Qed.

(** [PATCH /api/users/:id], step by step. *)
Lemma updateUserById_eq (amb : Ambient) (req : Request.t) (st : MemStorage) :
  updateUserById amb req st =
    match updateUserSchema_parse (Request.body req) with
    | None => (st, errorHandler ZodError)
    | Some data =>
        let st0 := initialize amb st in
        match JsMap.get (Request.params_id req) (users st0) with
        | None => (st0, send_message 404 "User not found")
        | Some existing =>
            if taken by_email (UpdateUserInput.email data) (User.email existing) st0
            then (st0, send_message 400 "Email already registered")
            else if taken by_username (UpdateUserInput.username data)
                      (User.username existing) st0
            then (st0, send_message 400 "Username already taken")
            else
              let updated := spread_user existing (patch_of_update data) in
              (set_users (JsMap.set (Request.params_id req) updated) st0,
               Response.mk 200 (JUser (Some (toPublicUser updated))) [] [])
        end
    end.
Proof.
  unfold updateUserById, updateUserById_try.
  destruct (updateUserSchema_parse (Request.body req)) as [data|]; [|reflexivity].
  run_store2. cbv zeta.
  assert (Hi : initialized (initialize amb st) = true) by apply initialized_initialize.
  set (st0 := initialize amb st) in *.
  destruct (JsMap.get (Request.params_id req) (users st0)) as [existing|] eqn:Hget;
    [|reflexivity].
  rewrite (check_free_email amb _ _ _ st0 Hi).
  destruct (taken by_email _ _ st0); [reflexivity|].
  rewrite (check_free_username amb _ _ _ st0 Hi).
  destruct (taken by_username _ _ st0); [reflexivity|].
  run_store2. rewrite (initialize_initialized amb st0 Hi), Hget. reflexivity.
Qed.

End UserRouteFacts2.

(** X17. An account made by an administrator: after [POST /api/users]
    with a body that [createUserSchema] accepts (an email in the format
    of the schema, a user name of at least 3 and a password of at least
    8 UTF-16 units, names that are not empty) and an email and user name
    that no stored user has after the runtime's [toLowerCase] on both
    sides, the answer is 201 with the new user, who has the role that
    the body asks for; other than at registration no cookie is set and
    no refresh token row is stored.  A later login that passes
    [loginSchema] and whose email equals the new one after [toLowerCase]
    succeeds exactly when bcrypt accepts the password against the hash
    of the password in the body. *)
Theorem createUserByAdmin_then_login `{UserSchemas} (amb amb' : Ambient)
    (req req' : Request.t) (st : MemStorage) (data : CreateUserInput.t)
    (credentials : LoginInput.t) :
  createUserSchema_parse (Request.body req) = Some data ->
  (forall existing,
     In existing (JsMap.values (users (initialize amb st))) ->
     Js.toLowerCase (User.email existing) <> Js.toLowerCase (CreateUserInput.email data)
     /\ Js.toLowerCase (User.username existing)
        <> Js.toLowerCase (CreateUserInput.username data)) ->
  loginSchema_parse (Request.body req') = Some credentials ->
  Js.toLowerCase (LoginInput.email credentials)
  = Js.toLowerCase (CreateUserInput.email data) ->
  let created :=
    UserPublic.mk (user_uuid amb) (CreateUserInput.email data)
      (CreateUserInput.username data) (CreateUserInput.role data)
      (CreateUserInput.firstName data) (CreateUserInput.lastName data) (now amb) in
  snd (createUserByAdmin amb req st) = Response.mk 201 (JUser (Some created)) [] []
  /\ refreshTokens (fst (createUserByAdmin amb req st)) = refreshTokens st
  /\ snd (login amb' req' (fst (createUserByAdmin amb req st)))
     = if bcrypt_compare (LoginInput.password credentials)
            (bcrypt_hash (CreateUserInput.password data) (user_salt amb))
       then Response.mk 200
              (JUserAndToken created (generateAccessToken (now amb') (user_uuid amb)))
              [refreshTokenCookie (generateRefreshToken (now amb') (user_uuid amb))] []
       else send_message 401 "Invalid email or password".
Proof.
  intros Hparse Hfresh Hlogin Hcase. cbv zeta.
  rewrite createUserByAdmin_eq, Hparse. cbv zeta.
  rewrite (find_absent (by_email _)), (find_absent (by_username _));
    try (intros x Hx; apply String.eqb_neq; now apply Hfresh).
  cbn [fst snd]. split; [reflexivity|]. split.
  - cbn [refreshTokens set_users]. apply refreshTokens_initialize.
  - rewrite login_eq, Hlogin. cbv zeta. settle_inits. cbn [users set_users].
    rewrite find_values_set.
    + cbn [User.password User.id]. now destruct (bcrypt_compare _ _).
    + intros x Hx. unfold by_email. apply String.eqb_neq. rewrite Hcase. now apply Hfresh.
    + unfold by_email. cbn [User.email]. rewrite Hcase. apply String.eqb_refl.
Qed.

Section CreateUserExamples.
#[local] Existing Instance Demo.runtime.
#[local] Existing Instance Office.platform.
#[local] Existing Instance Office.schemas.

Lemma carol_is_fresh :
  forall existing,
    In existing (JsMap.values (users (initialize (Demo.ambient 3000 "carol") Demo.store1))) ->
    Js.toLowerCase (User.email existing)
    <> Js.toLowerCase (CreateUserInput.email Office.carol)
    /\ Js.toLowerCase (User.username existing)
       <> Js.toLowerCase (CreateUserInput.username Office.carol).
Proof. intros existing [<- | [<- | []]]; split; discriminate. Qed.

(** The lengths of the schemas are counted in UTF-16 code units: a user
    name of two accented letters, four bytes in UTF-8, is too short. *)
Lemma accented_username_too_short :
  Js.length "éé" = 2%nat
  /\ String.length "éé" = 4%nat
  /\ createUserSchema_parse
       (Office.CreateUserBody
          (CreateUserInput.mk "carol@x.com" "éé" "carolcarol" "C" "R" ADMIN))
     = None.
Proof. repeat split. Qed.

Lemma createUserByAdmin_then_login_witness :
  let created :=
    fst (createUserByAdmin (Demo.ambient 3000 "carol")
           (Office.request_of Office.admin_public (Office.CreateUserBody Office.carol) "")
           Demo.store1) in
  JsMap.keys (users created) = ["uuid-admin"; "uuid-alice"; "uuid-carol"]
  /\ JsMap.keys (refreshTokens created) = JsMap.keys (refreshTokens Demo.store1)
  /\ Response.status
       (snd (login (Demo.ambient 4000 "in")
               (Office.request None
                  (Office.LoginBody (LoginInput.mk "Carol@X.com" "carolcarol")) "")
               created)) = 200.
Proof.
  intros created.
  destruct (@createUserByAdmin_then_login Demo.runtime Office.platform Office.schemas
              (Demo.ambient 3000 "carol") (Demo.ambient 4000 "in")
              (Office.request_of Office.admin_public (Office.CreateUserBody Office.carol) "")
              (Office.request None
                 (Office.LoginBody (LoginInput.mk "Carol@X.com" "carolcarol")) "")
              Demo.store1 Office.carol (LoginInput.mk "Carol@X.com" "carolcarol")
              eq_refl carol_is_fresh eq_refl eq_refl) as (_ & Htokens & Hlogin).
  split; [reflexivity|]. split.
  - unfold created. now rewrite Htokens.
  - unfold created. rewrite Hlogin. reflexivity.
Defined.

End CreateUserExamples.

Section UpdateFacts.
Context `{UserSchemas}.

Lemma has_of_get {V} (k : string) (v : V) (m : JsMap.t V) :
  JsMap.get k m = Some v -> JsMap.has k m = true.
Proof. intros Hg. now rewrite has_get, Hg. Qed.

(** Replacing the value of a key that the map has keeps the keys. *)
Lemma keys_set_present {V} (k : string) (v old : V) (m : JsMap.t V) :
  JsMap.get k m = Some old -> JsMap.keys (JsMap.set k v m) = JsMap.keys m.
Proof. intros Hg. now rewrite keys_set, (has_of_get k old m Hg). Qed.

(** What a profile update can put into the [updateData]: no role, and a
    password only after bcrypt accepted the current one. *)
Lemma profile_patch_inr (amb : Ambient) (data : ProfileInput.t) (existing : User.t)
    (patch : UserPatch.t) :
  profile_patch amb data existing = inr patch ->
  UserPatch.role patch = None
  /\ UserPatch.email patch = when_truthy (ProfileInput.email data)
  /\ UserPatch.username patch = when_truthy (ProfileInput.username data)
  /\ (UserPatch.password patch = None
      \/ exists currentPassword newPassword,
           ProfileInput.currentPassword data = Some currentPassword
           /\ ProfileInput.newPassword data = Some newPassword
           /\ bcrypt_compare currentPassword (User.password existing) = true
           /\ UserPatch.password patch = Some (bcrypt_hash newPassword (user_salt amb))).
Proof.
  unfold profile_patch.
  destruct (ProfileInput.newPassword data) as [np|];
    [destruct (Js.truthy (Some np))|]; try (intros [= <-]; cbn; now auto).
  destruct (negb (Js.truthy (ProfileInput.currentPassword data))); [discriminate|].
  destruct (ProfileInput.currentPassword data) as [cp|]; [|discriminate].
  destruct (bcrypt_compare cp (User.password existing)) eqn:Hvalid; [|discriminate].
  intros [= <-]. cbn. repeat (split; [reflexivity|]). right. now exists cp, np.
Qed.

End UpdateFacts.

(** X18. What [PATCH /api/users/profile] can change, on an initialized
    store: it adds and removes no user and touches no refresh token row;
    every user other than the one of the request stays as it is; and the
    user of the request keeps id, role and creation time, and keeps the
    password hash unless the body carries a current password that bcrypt
    accepts against the stored hash, in which case the new hash is the
    one of the new password. *)
Theorem updateProfile_keeps_role `{UserSchemas} (amb : Ambient) (req : Request.t)
    (st : MemStorage) :
  initialized st = true ->
  let st' := fst (updateProfile amb req st) in
  JsMap.keys (users st') = JsMap.keys (users st)
  /\ refreshTokens st' = refreshTokens st
  /\ forall id user,
       JsMap.get id (users st) = Some user ->
       exists user',
         JsMap.get id (users st') = Some user'
         /\ User.id user' = User.id user
         /\ User.role user' = User.role user
         /\ User.createdAt user' = User.createdAt user
         /\ (option_map UserPublic.id (Request.user req) <> Some id -> user' = user)
         /\ (User.password user' = User.password user
             \/ exists data currentPassword newPassword,
                  updateProfileSchema_parse (Request.body req) = Some data
                  /\ ProfileInput.currentPassword data = Some currentPassword
                  /\ ProfileInput.newPassword data = Some newPassword
                  /\ bcrypt_compare currentPassword (User.password user) = true
                  /\ User.password user' = bcrypt_hash newPassword (user_salt amb)).
Proof.
  intros Hi. cbv zeta. rewrite updateProfile_eq.
  assert (Hsame : forall res : Response.t,
            JsMap.keys (users (fst (st, res))) = JsMap.keys (users st)
            /\ refreshTokens (fst (st, res)) = refreshTokens st
            /\ forall id user,
                 JsMap.get id (users st) = Some user ->
                 exists user',
                   JsMap.get id (users (fst (st, res))) = Some user'
                   /\ User.id user' = User.id user
                   /\ User.role user' = User.role user
                   /\ User.createdAt user' = User.createdAt user
                   /\ (option_map UserPublic.id (Request.user req) <> Some id
                       -> user' = user)
                   /\ (User.password user' = User.password user
                       \/ exists data currentPassword newPassword,
                            updateProfileSchema_parse (Request.body req) = Some data
                            /\ ProfileInput.currentPassword data = Some currentPassword
                            /\ ProfileInput.newPassword data = Some newPassword
                            /\ bcrypt_compare currentPassword (User.password user) = true
                            /\ User.password user'
                               = bcrypt_hash newPassword (user_salt amb))).
  { intros res. cbn [fst]. split; [reflexivity|]. split; [reflexivity|].
    intros id user Hg. exists user. repeat (split; [first [assumption | reflexivity]|]).
    now left. }
  destruct (updateProfileSchema_parse (Request.body req)) as [data|] eqn:Hparse;
    [|apply Hsame].
  destruct (Request.user req) as [principal|] eqn:Huser; [|apply Hsame].
  cbv zeta. rewrite (initialize_initialized amb st Hi).
  destruct (JsMap.get (UserPublic.id principal) (users st)) as [existing|] eqn:Hget;
    [|apply Hsame].
  destruct (taken by_email _ _ st); [apply Hsame|].
  destruct (taken by_username _ _ st); [apply Hsame|].
  destruct (profile_patch amb data existing) as [err|patch] eqn:Hpatch; [apply Hsame|].
  destruct (profile_patch_inr amb data existing patch Hpatch)
    as (Hrole & _ & _ & Hpassword).
  cbn [fst users set_users refreshTokens].
  split; [now apply keys_set_present with existing|]. split; [reflexivity|].
  intros id user Hg. cbn [option_map].
  destruct (String.eqb_spec (UserPublic.id principal) id) as [Heq | Hne].
  - subst id. rewrite Hget in Hg. injection Hg as <-.
    exists (spread_user existing patch). rewrite get_set_eq.
    split; [reflexivity|]. split; [reflexivity|].
    split; [unfold spread_user; cbn [User.role]; now rewrite Hrole|].
    split; [reflexivity|]. split; [intros Hn; now contradiction Hn|].
    unfold spread_user. cbn [User.password].
    destruct Hpassword as [-> | (cp & np & Hcp & Hnp & Hvalid & ->)]; [now left | right].
    now exists data, cp, np.
  - exists user. rewrite (get_set_neq _ _ _ _ Hne).
    repeat (split; [first [assumption | reflexivity]|]).
    now left.
Qed.

(** X22. What [PATCH /api/users/:id] can change, on an initialized
    store: it adds and removes no user and touches no refresh token row;
    every user other than the one that the path names stays as it is;
    and that user keeps id, creation time and password hash, whatever
    the body holds. *)
Theorem updateUserById_keeps_password `{UserSchemas} (amb : Ambient) (req : Request.t)
    (st : MemStorage) :
  initialized st = true ->
  let st' := fst (updateUserById amb req st) in
  JsMap.keys (users st') = JsMap.keys (users st)
  /\ refreshTokens st' = refreshTokens st
  /\ forall id user,
       JsMap.get id (users st) = Some user ->
       exists user',
         JsMap.get id (users st') = Some user'
         /\ User.id user' = User.id user
         /\ User.createdAt user' = User.createdAt user
         /\ User.password user' = User.password user
         /\ (Request.params_id req <> id -> user' = user).
Proof.
  intros Hi. cbv zeta. rewrite updateUserById_eq.
  assert (Hsame : forall res : Response.t,
            JsMap.keys (users (fst (st, res))) = JsMap.keys (users st)
            /\ refreshTokens (fst (st, res)) = refreshTokens st
            /\ forall id user,
                 JsMap.get id (users st) = Some user ->
                 exists user',
                   JsMap.get id (users (fst (st, res))) = Some user'
                   /\ User.id user' = User.id user
                   /\ User.createdAt user' = User.createdAt user
                   /\ User.password user' = User.password user
                   /\ (Request.params_id req <> id -> user' = user)).
  { intros res. cbn [fst]. split; [reflexivity|]. split; [reflexivity|].
    intros id user Hg. exists user. now repeat split. }
  destruct (updateUserSchema_parse (Request.body req)) as [data|] eqn:Hparse;
    [|apply Hsame].
  cbv zeta. rewrite (initialize_initialized amb st Hi).
  destruct (JsMap.get (Request.params_id req) (users st)) as [existing|] eqn:Hget;
    [|apply Hsame].
  destruct (taken by_email _ _ st); [apply Hsame|].
  destruct (taken by_username _ _ st); [apply Hsame|].
  cbn [fst users set_users refreshTokens].
  split; [now apply keys_set_present with existing|]. split; [reflexivity|].
  intros id user Hg.
  destruct (String.eqb_spec (Request.params_id req) id) as [Heq | Hne].
  - subst id. rewrite Hget in Hg. injection Hg as <-.
    exists (spread_user existing (patch_of_update data)). rewrite get_set_eq.
    repeat (split; [reflexivity|]). intros Hn. now contradiction Hn.
  - exists user. rewrite (get_set_neq _ _ _ _ Hne). now repeat split.
Qed.

Section UpdateExamples.
#[local] Existing Instance Demo.runtime.
#[local] Existing Instance Office.platform.
#[local] Existing Instance Office.schemas.

Lemma updateProfile_keeps_role_witness :
  let req :=
    Office.request_of Fixtures.alice_public
      (Office.ProfileBody
         (ProfileInput.mk None (Some "alicia") None None
            (Some "password123") (Some "newpassword1"))) "" in
  let st' := fst (updateProfile (Demo.ambient 3000 "p") req Demo.store1) in
  JsMap.keys (users st') = ["uuid-admin"; "uuid-alice"]
  /\ exists user',
       JsMap.get "uuid-alice" (users st') = Some user'
       /\ User.role user' = MEMBER
       /\ User.createdAt user' = 1000.
Proof.
  intros req st'.
  destruct (@updateProfile_keeps_role Demo.runtime Office.platform Office.schemas
              (Demo.ambient 3000 "p") req Demo.store1 eq_refl) as (Hkeys & _ & Husers).
  split; [exact Hkeys|].
  destruct (Husers "uuid-alice" Fixtures.alice_user eq_refl)
    as (user' & Hg & _ & Hrole & Hcreated & _).
  exists user'. split; [exact Hg|]. split; [exact Hrole | exact Hcreated].
Defined.

Lemma updateUserById_keeps_password_witness :
  let req :=
    Office.request_of Office.admin_public
      (Office.UpdateUserBody
         (UpdateUserInput.mk (Some "alice@y.org") None None None (Some ADMIN)))
      "uuid-alice" in
  let st' := fst (updateUserById (Demo.ambient 3000 "p") req Demo.store1) in
  JsMap.keys (users st') = ["uuid-admin"; "uuid-alice"]
  /\ exists user',
       JsMap.get "uuid-alice" (users st') = Some user'
       /\ User.password user' = "salt-alice$password123".
Proof.
  intros req st'.
  destruct (@updateUserById_keeps_password Demo.runtime Office.platform Office.schemas
              (Demo.ambient 3000 "p") req Demo.store1 eq_refl) as (Hkeys & _ & Husers).
  split; [exact Hkeys|].
  destruct (Husers "uuid-alice" Fixtures.alice_user eq_refl)
    as (user' & Hg & _ & _ & Hpassword & _).
  exists user'. split; [exact Hg | exact Hpassword].
Defined.

End UpdateExamples.

Section CaseFacts.
Context `{Js.Runtime}.

(** A value that differs from the current one, but not after
    [toLowerCase], is [taken], by the very user that has it. *)
Lemma taken_by_oneself (field : User.t -> string) (matches : string -> User.t -> bool)
    (id value : string) (existing : User.t) (st : MemStorage) :
  (forall q u, matches q u = (Js.toLowerCase (field u) =? Js.toLowerCase q)%string) ->
  JsMap.get id (users st) = Some existing ->
  value <> field existing ->
  Js.toLowerCase value = Js.toLowerCase (field existing) ->
  taken matches (Some value) (field existing) st = true.
Proof.
  intros Hm Hget Hne Hcase. unfold taken.
  assert (Htruthy : Js.truthy (Some value) = true).
  { cbn. destruct (String.eqb_spec value ""); [|reflexivity]. subst value.
    rewrite (proj2 (Js.toLowerCase_empty "") eq_refl) in Hcase.
    symmetry in Hcase. apply (proj1 (Js.toLowerCase_empty _)) in Hcase.
    now rewrite Hcase in Hne. }
  rewrite Htruthy. apply String.eqb_neq in Hne. rewrite Hne. cbn [negb andb].
  destruct (find (matches value) (JsMap.values (users st))) eqn:Hfind; [reflexivity|].
  apply get_In in Hget.
  assert (Hin : In existing (JsMap.values (users st))).
  { apply in_map_iff. now exists (id, existing). }
  pose proof (find_none _ _ Hfind existing Hin) as Hno.
  rewrite Hm, Hcase, String.eqb_refl in Hno. discriminate.
Qed.

End CaseFacts.

(** X19. A change of the own email that alters only the letter case is
    refused: the update routes compare the new value with the stored one
    exactly, but look it up ignoring case, so the lookup finds the very
    user that is being updated.  Both [PATCH /api/users/profile] and
    [PATCH /api/users/:id] then answer 400 "Email already registered" and
    leave the store as it is. *)
Theorem case_only_email_change_rejected `{UserSchemas} (amb : Ambient) (st : MemStorage)
    (id email : string) (existing : User.t) :
  initialized st = true ->
  JsMap.get id (users st) = Some existing ->
  email <> User.email existing ->
  Js.toLowerCase email = Js.toLowerCase (User.email existing) ->
  (forall req principal data,
     Request.user req = Some principal ->
     UserPublic.id principal = id ->
     updateProfileSchema_parse (Request.body req) = Some data ->
     ProfileInput.email data = Some email ->
     updateProfile amb req st = (st, send_message 400 "Email already registered"))
  /\ (forall req data,
        Request.params_id req = id ->
        updateUserSchema_parse (Request.body req) = Some data ->
        UpdateUserInput.email data = Some email ->
        updateUserById amb req st = (st, send_message 400 "Email already registered")).
Proof.
  intros Hi Hget Hne Hcase.
  assert (Htaken : taken by_email (Some email) (User.email existing) st = true).
  { apply (taken_by_oneself User.email by_email id); auto. }
  split.
  - intros req principal data Huser Hid Hparse Hemail.
    rewrite updateProfile_eq, Hparse, Huser. cbv zeta.
    rewrite (initialize_initialized amb st Hi), Hid, Hget, Hemail, Htaken. reflexivity.
  - intros req data Hid Hparse Hemail.
    rewrite updateUserById_eq, Hparse. cbv zeta.
    rewrite (initialize_initialized amb st Hi), Hid, Hget, Hemail, Htaken. reflexivity.
Qed.

Section CaseExamples.
#[local] Existing Instance Demo.runtime.
#[local] Existing Instance Office.platform.
#[local] Existing Instance Office.schemas.

Lemma case_only_email_change_rejected_witness :
  updateProfile (Demo.ambient 3000 "p")
    (Office.request_of Fixtures.alice_public
       (Office.ProfileBody (ProfileInput.mk (Some "A@X.com") None None None None None)) "")
    Demo.store1
  = (Demo.store1, send_message 400 "Email already registered")
  /\ updateUserById (Demo.ambient 3000 "p")
       (Office.request_of Office.admin_public
          (Office.UpdateUserBody (UpdateUserInput.mk (Some "A@X.com") None None None None))
          "uuid-alice")
       Demo.store1
     = (Demo.store1, send_message 400 "Email already registered").
Proof.
  destruct (@case_only_email_change_rejected Demo.runtime Office.platform Office.schemas
              (Demo.ambient 3000 "p") Demo.store1 "uuid-alice" "A@X.com"
              Fixtures.alice_user eq_refl eq_refl ltac:(discriminate) eq_refl)
    as [Hprofile Hadmin].
  split.
  - apply (Hprofile _ Fixtures.alice_public
             (ProfileInput.mk (Some "A@X.com") None None None None None));
      reflexivity.
  - apply (Hadmin _ (UpdateUserInput.mk (Some "A@X.com") None None None None));
      reflexivity.
Defined.

End CaseExamples.

(** X21. [PATCH /api/users/profile] never answers "Current password is
    required": a body with a new password and without a (non-empty)
    current one does not pass [updateProfileSchema], whose [refine]
    refuses it, so the answer is the 400 "Validation error" of the error
    handler and the store is not touched, not even initialized. *)
Theorem updateProfile_requires_current_password `{UserSchemas} (amb : Ambient)
    (req : Request.t) (st : MemStorage) :
  snd (updateProfile amb req st) <> send_message 400 "Current password is required"
  /\ (forall data,
        updateProfile_fields (Request.body req) = Some data ->
        Js.truthy (ProfileInput.newPassword data) = true ->
        Js.truthy (ProfileInput.currentPassword data) = false ->
        updateProfile amb req st
        = (st, Response.mk 400 (JValidation "Validation error") [] [])).
Proof.
  split.
  - rewrite updateProfile_eq.
    destruct (updateProfileSchema_parse (Request.body req)) as [data|] eqn:Hparse;
      [|discriminate].
    destruct (Request.user req) as [principal|]; [|discriminate]. cbv zeta.
    destruct (JsMap.get _ _) as [existing|]; [|discriminate].
    destruct (taken by_email _ _ _); [discriminate|].
    destruct (taken by_username _ _ _); [discriminate|].
    unfold updateProfileSchema_parse in Hparse.
    destruct (updateProfile_fields (Request.body req)) as [fields|]; [|discriminate].
    destruct (_ && _) eqn:Hchecks in Hparse; [|discriminate].
    injection Hparse as ->.
    apply andb_prop in Hchecks as [_ Hrefine].
    unfold profile_patch.
    destruct (ProfileInput.newPassword data) as [np|];
      [destruct (Js.truthy (Some np)) eqn:Hnew|]; try discriminate.
    cbn [andb] in Hrefine. rewrite negb_involutive in Hrefine.
    rewrite Hrefine. cbn [negb].
    destruct (ProfileInput.currentPassword data) as [cp|]; [|discriminate].
    destruct (bcrypt_compare cp (User.password existing)); discriminate.
  - intros data Hfields Hnew Hcurrent. rewrite updateProfile_eq.
    unfold updateProfileSchema_parse. rewrite Hfields, Hnew, Hcurrent.
    cbn [negb andb]. now rewrite !andb_false_r.
Qed.

Section InvariantFacts.
Context `{UserSchemas}.

(** A lookup that finds nobody: no stored user has the value, after
    [toLowerCase] on both sides. *)
Lemma not_folded (field : User.t -> string) (f : User.t -> bool) (q : string)
    (l : list User.t) :
  (forall u, f u = (Js.toLowerCase (field u) =? Js.toLowerCase q)%string) ->
  find f l = None ->
  ~ In (Js.toLowerCase q) (map (fun u => Js.toLowerCase (field u)) l).
Proof.
  intros Hm Hf Hin. apply in_map_iff in Hin as [u [Hu Hin]].
  pose proof (find_none _ _ Hf u Hin) as Hno.
  rewrite Hm, Hu, String.eqb_refl in Hno. discriminate.
Qed.

Lemma unique_initialize (amb : Ambient) (st : MemStorage) :
  unique_accounts st -> unique_accounts (initialize amb st).
Proof.
  intros [Hwf Hfresh He Hu].
  destruct (initialized st) eqn:Hi.
  - rewrite (initialize_initialized amb st Hi). split; try assumption. congruence.
  - split.
    + now apply wf_initialize.
    + now rewrite initialized_initialize.
    + unfold folded_emails, initialize, ensureInitialized. rewrite Hi.
      cbn [fst users]. rewrite (Hfresh eq_refl). cbn. repeat constructor. easy.
    + unfold folded_usernames, initialize, ensureInitialized. rewrite Hi.
      cbn [fst users]. rewrite (Hfresh eq_refl). cbn. repeat constructor. easy.
Qed.

(** A write to the refresh tokens alone keeps the accounts unique. *)
Lemma unique_set_tokens (f : JsMap.t RefreshToken.t -> JsMap.t RefreshToken.t)
    (st : MemStorage) :
  unique_accounts st -> wf_store (set_refreshTokens f st) ->
  unique_accounts (set_refreshTokens f st).
Proof. intros [Hwf Hfresh He Hu] Hwf'. split; assumption. Qed.

(** A new user whose email and user name nobody has. *)
Lemma unique_add (user : User.t) (st : MemStorage) :
  unique_accounts st ->
  initialized st = true ->
  find (by_email (User.email user)) (JsMap.values (users st)) = None ->
  find (by_username (User.username user)) (JsMap.values (users st)) = None ->
  unique_accounts (set_users (JsMap.set (User.id user) user) st).
Proof.
  intros [Hwf Hfresh He Hu] Hi Hemail Hname. split.
  - now apply wf_set_user.
  - cbn [initialized set_users]. rewrite Hi. discriminate.
  - unfold folded_emails. cbn [users set_users].
    apply NoDup_map_set_fresh; [apply Hwf | exact He |].
    now apply (not_folded User.email (by_email (User.email user))).
  - unfold folded_usernames. cbn [users set_users].
    apply NoDup_map_set_fresh; [apply Hwf | exact Hu |].
    now apply (not_folded User.username (by_username (User.username user))).
Qed.

(** What the uniqueness check of an update leaves to write, for a value
    that is not the empty string. *)
Lemma not_taken (field : User.t -> string) (matches : string -> User.t -> bool)
    (v : option string) (existing : User.t) (st : MemStorage) :
  (forall q u, matches q u = (Js.toLowerCase (field u) =? Js.toLowerCase q)%string) ->
  taken matches v (field existing) st = false ->
  v <> Some "" ->
  let written := match v with Some value => value | None => field existing end in
  Js.toLowerCase written = Js.toLowerCase (field existing)
  \/ ~ In (Js.toLowerCase written)
         (map (fun u => Js.toLowerCase (field u)) (JsMap.values (users st))).
Proof.
  intros Hm Htaken Hne. cbv zeta. destruct v as [value|]; [|now left].
  unfold taken in Htaken.
  assert (Htruthy : Js.truthy (Some value) = true).
  { cbn. destruct (String.eqb_spec value ""); [now subst | reflexivity]. }
  rewrite Htruthy in Htaken. cbn [andb] in Htaken.
  destruct (String.eqb_spec value (field existing)) as [-> | Hdiff]; [now left | right].
  cbn [negb andb] in Htaken.
  destruct (find (matches value) (JsMap.values (users st))) eqn:Hfind; [discriminate|].
  now apply (not_folded field (matches value)).
Qed.

(** An update of a stored user that passed the two uniqueness checks. *)
Lemma unique_update (id : string) (existing : User.t) (patch : UserPatch.t)
    (st : MemStorage) :
  unique_accounts st ->
  initialized st = true ->
  JsMap.get id (users st) = Some existing ->
  taken by_email (UserPatch.email patch) (User.email existing) st = false ->
  taken by_username (UserPatch.username patch) (User.username existing) st = false ->
  UserPatch.email patch <> Some "" ->
  UserPatch.username patch <> Some "" ->
  unique_accounts (set_users (JsMap.set id (spread_user existing patch)) st).
Proof.
  intros [Hwf Hfresh He Hu] Hi Hget Hemail Hname Hne Hnn.
  assert (Hid : User.id existing = id).
  { apply (users_by_id st Hwf). now apply get_In. }
  split.
  - rewrite <- Hid. apply (wf_set_user (spread_user existing patch)), Hwf.
  - cbn [initialized set_users]. rewrite Hi. discriminate.
  - unfold folded_emails. cbn [users set_users].
    apply (NoDup_map_set_replace _ id _ existing); [apply Hwf | exact He | exact Hget |].
    unfold spread_user. cbn [User.email].
    apply (not_taken User.email by_email _ existing st); auto.
  - unfold folded_usernames. cbn [users set_users].
    apply (NoDup_map_set_replace _ id _ existing); [apply Hwf | exact Hu | exact Hget |].
    unfold spread_user. cbn [User.username].
    apply (not_taken User.username by_username _ existing st); auto.
Qed.

Lemma unique_delete (id : string) (st : MemStorage) :
  unique_accounts st -> initialized st = true ->
  unique_accounts (set_users (JsMap.delete id) st).
Proof.
  intros [Hwf Hfresh He Hu] Hi. split.
  - now apply wf_delete_user.
  - cbn [initialized set_users]. rewrite Hi. discriminate.
  - unfold folded_emails. cbn [users set_users]. now apply NoDup_map_delete.
  - unfold folded_usernames. cbn [users set_users]. now apply NoDup_map_delete.
Qed.

Lemma when_truthy_not_empty (v : option string) : when_truthy v <> Some "".
Proof. unfold when_truthy. destruct v as [[|c s]|]; cbn; discriminate. Qed.

Lemma taken_when_truthy (matches : string -> User.t -> bool) (v : option string)
    (current : string) (st : MemStorage) :
  taken matches (when_truthy v) current st = taken matches v current st.
Proof. unfold when_truthy. now destruct v as [[|c s]|]. Qed.


End InvariantFacts.

Section InvariantSteps.
Context `{UserSchemas}.

Lemma unique_new : unique_accounts MemStorage_new.
Proof. split; [apply wf_new | reflexivity | constructor | constructor]. Qed.

Lemma authenticate_unique (amb : Ambient) (req : Request.t) (st : MemStorage) :
  unique_accounts st -> unique_accounts (fst (authenticate amb req st)).
Proof.
  intros Hu.
  destruct (authenticate_store amb req st) as [-> | ->];
    [assumption | now apply unique_initialize].
Qed.

Lemma unique_set_token (row : RefreshToken.t) (st : MemStorage) :
  unique_accounts st ->
  unique_accounts (set_refreshTokens (JsMap.set (RefreshToken.token row) row) st).
Proof. intros Hu. apply unique_set_tokens; [exact Hu | apply wf_set_token, Hu]. Qed.

Lemma unique_delete_token (token : string) (st : MemStorage) :
  unique_accounts st -> unique_accounts (set_refreshTokens (JsMap.delete token) st).
Proof. intros Hu. apply unique_set_tokens; [exact Hu | apply wf_delete_token, Hu]. Qed.

Lemma unique_without_tokens_of (userId : string) (st : MemStorage) :
  unique_accounts st -> unique_accounts (set_refreshTokens (without_tokens_of userId) st).
Proof. intros Hu. apply unique_set_tokens; [exact Hu | apply wf_without_tokens_of, Hu]. Qed.

Lemma register_unique (amb : Ambient) (req : Request.t) (st : MemStorage) :
  unique_accounts st -> unique_accounts (fst (register amb req st)).
Proof.
  intros Hu. rewrite register_eq.
  destruct (registerSchema_parse _) as [data|]; [cbv zeta | assumption].
  destruct (find (by_email _) _) as [user|] eqn:Hemail; [now apply unique_initialize|].
  destruct (find (by_username _) _) as [user|] eqn:Hname; [now apply unique_initialize|].
  cbn [fst]. apply (unique_set_token (RefreshToken.mk _ _ _ _ _)).
  apply (unique_add (User.mk _ _ _ _ _ _ _ _));
    [now apply unique_initialize | apply initialized_initialize | assumption | assumption].
Qed.

Lemma login_unique (amb : Ambient) (req : Request.t) (st : MemStorage) :
  unique_accounts st -> unique_accounts (fst (login amb req st)).
Proof.
  intros Hu. rewrite login_eq.
  destruct (loginSchema_parse _) as [data|]; [cbv zeta | assumption].
  destruct (find _ _) as [user|]; [|now apply unique_initialize].
  destruct (bcrypt_compare _ _); [|now apply unique_initialize].
  cbn [fst]. apply (unique_set_token (RefreshToken.mk _ _ _ _ _)).
  now apply unique_without_tokens_of, unique_initialize.
Qed.

Lemma refresh_unique (amb : Ambient) (req : Request.t) (st : MemStorage) :
  unique_accounts st -> unique_accounts (fst (refresh amb req st)).
Proof.
  intros Hu. rewrite refresh_eq.
  destruct (Request.cookies_refreshToken req) as [refreshToken|]; [|assumption].
  destruct (refreshToken =? "")%string; [assumption|]. cbv zeta.
  destruct (JsMap.get refreshToken (refreshTokens st)) as [storedToken|];
    [|now apply unique_initialize].
  destruct (RefreshToken.expiresAt storedToken <? now amb).
  { now apply unique_delete_token, unique_initialize. }
  destruct (verifyToken (now amb) refreshToken) as [decoded|].
  - destruct (JsMap.get _ _); now apply unique_initialize.
  - now apply unique_delete_token, unique_initialize.
Qed.

Lemma logout_unique (amb : Ambient) (req : Request.t) (st : MemStorage) :
  unique_accounts st -> unique_accounts (fst (logout amb req st)).
Proof.
  intros Hu. unfold logout, logout_try.
  destruct (Request.cookies_refreshToken req) as [refreshToken|];
    [cbn [Js.truthy]; destruct (refreshToken =? "")%string; cbn [negb]|];
    (destruct (Request.user req) as [user|]);
    run_store; cbn [fst snd]; settle_inits;
    repeat first
      [ assumption
      | now apply unique_initialize
      | apply unique_without_tokens_of
      | apply unique_delete_token ].
Qed.

Lemma getUserById_unique (amb : Ambient) (req : Request.t) (st : MemStorage) :
  unique_accounts st -> unique_accounts (fst (getUserById amb req st)).
Proof.
  intros Hu. unfold getUserById, getUserById_try. run_store2.
  destruct (JsMap.get _ _); now apply unique_initialize.
Qed.

Lemma listUsers_unique (amb : Ambient) (query : Query.t) (st : MemStorage) :
  unique_accounts st -> unique_accounts (fst (listUsers amb query st)).
Proof.
  intros Hu. unfold listUsers, listUsers_try. cbv zeta. rewrite getAllUsers_eq.
  now apply unique_initialize.
Qed.

Lemma createUserByAdmin_unique (amb : Ambient) (req : Request.t) (st : MemStorage) :
  unique_accounts st -> unique_accounts (fst (createUserByAdmin amb req st)).
Proof.
  intros Hu. rewrite createUserByAdmin_eq.
  destruct (createUserSchema_parse _) as [data|]; [cbv zeta | assumption].
  destruct (find (by_email _) _) as [user|] eqn:Hemail; [now apply unique_initialize|].
  destruct (find (by_username _) _) as [user|] eqn:Hname; [now apply unique_initialize|].
  cbn [fst].
  apply (unique_add (User.mk _ _ _ _ _ _ _ _));
    [now apply unique_initialize | apply initialized_initialize | assumption | assumption].
Qed.

Lemma updateProfile_unique (amb : Ambient) (req : Request.t) (st : MemStorage) :
  unique_accounts st -> unique_accounts (fst (updateProfile amb req st)).
Proof.
  intros Hu. rewrite updateProfile_eq.
  destruct (updateProfileSchema_parse _) as [data|]; [|assumption].
  destruct (Request.user req) as [principal|]; [cbv zeta | assumption].
  destruct (JsMap.get _ _) as [existing|] eqn:Hget; [|now apply unique_initialize].
  destruct (taken by_email _ _ _) eqn:Hemail; [now apply unique_initialize|].
  destruct (taken by_username _ _ _) eqn:Hname; [now apply unique_initialize|].
  destruct (profile_patch amb data existing) as [err|patch] eqn:Hpatch;
    [now apply unique_initialize|].
  destruct (profile_patch_inr amb data existing patch Hpatch) as (_ & He & Hn & _).
  cbn [fst]. apply unique_update;
    rewrite ?He, ?Hn, ?taken_when_truthy;
    first [ assumption | apply when_truthy_not_empty | apply initialized_initialize
          | now apply unique_initialize ].
Qed.

Lemma updateUserById_unique (amb : Ambient) (req : Request.t) (st : MemStorage) :
  is_email "" = false ->
  unique_accounts st -> unique_accounts (fst (updateUserById amb req st)).
Proof.
  intros Hformat Hu. rewrite updateUserById_eq.
  destruct (updateUserSchema_parse _) as [data|] eqn:Hparse; [cbv zeta | assumption].
  destruct (JsMap.get _ _) as [existing|] eqn:Hget; [|now apply unique_initialize].
  destruct (taken by_email _ _ _) eqn:Hemail; [now apply unique_initialize|].
  destruct (taken by_username _ _ _) eqn:Hname; [now apply unique_initialize|].
  unfold updateUserSchema_parse in Hparse.
  destruct (updateUser_fields (Request.body req)) as [fields|]; [|discriminate].
  destruct (_ && _) eqn:Hchecks in Hparse; [|discriminate].
  injection Hparse as ->.
  apply andb_prop in Hchecks as [Hchecks _].
  apply andb_prop in Hchecks as [Hchecks _].
  apply andb_prop in Hchecks as [Hmail Husername].
  cbn [fst]. apply unique_update; try assumption.
  - now apply unique_initialize.
  - apply initialized_initialize.
  - cbn [patch_of_update UserPatch.email]. intros Hempty. rewrite Hempty in Hmail.
    cbn [optional] in Hmail. congruence.
  - cbn [patch_of_update UserPatch.username]. intros Hempty. rewrite Hempty in Husername.
    discriminate.
Qed.

Lemma deleteUserById_unique (amb : Ambient) (req : Request.t) (st : MemStorage) :
  unique_accounts st -> unique_accounts (fst (deleteUserById amb req st)).
Proof.
  intros Hu. rewrite deleteUserById_eq.
  destruct (match Request.user req with Some _ => _ | None => _ end); [assumption|].
  cbv zeta. destruct (JsMap.has _ _); cbn [fst].
  - apply unique_without_tokens_of.
    apply unique_delete; [now apply unique_initialize | apply initialized_initialize].
  - apply unique_delete; [now apply unique_initialize | apply initialized_initialize].
Qed.

End InvariantSteps.

(** X20. No two accounts have emails, or user names, that the
    runtime's [toLowerCase] takes to the same string (the comparison of
    the store, whatever letters it folds): this holds of the new store,
    and [authenticate] and every handler of the auth and user routes
    keeps it, whatever the request, each handler taken as one step (for
    [PATCH /api/users/:id] because the schema lets no empty email or
    user name through, as long as the email format rejects the empty
    string). *)
Theorem accounts_stay_unique `{UserSchemas} (amb : Ambient) (req : Request.t)
    (query : Query.t) :
  is_email "" = false ->
  unique_accounts MemStorage_new
  /\ forall st,
       unique_accounts st ->
       unique_accounts (fst (authenticate amb req st))
       /\ unique_accounts (fst (register amb req st))
       /\ unique_accounts (fst (login amb req st))
       /\ unique_accounts (fst (refresh amb req st))
       /\ unique_accounts (fst (logout amb req st))
       /\ unique_accounts (fst (me req st))
       /\ unique_accounts (fst (listUsers amb query st))
       /\ unique_accounts (fst (getUserById amb req st))
       /\ unique_accounts (fst (createUserByAdmin amb req st))
       /\ unique_accounts (fst (updateProfile amb req st))
       /\ unique_accounts (fst (updateUserById amb req st))
       /\ unique_accounts (fst (deleteUserById amb req st)).
Proof.
  intros Hformat. split; [apply unique_new|]. intros st Hu.
  split; [now apply authenticate_unique|].
  split; [now apply register_unique|].
  split; [now apply login_unique|].
  split; [now apply refresh_unique|].
  split; [now apply logout_unique|].
  split; [exact Hu|].
  split; [now apply listUsers_unique|].
  split; [now apply getUserById_unique|].
  split; [now apply createUserByAdmin_unique|].
  split; [now apply updateProfile_unique|].
  split; [now apply updateUserById_unique|].
  now apply deleteUserById_unique.
Qed.

Section InvariantExamples.
#[local] Existing Instance Demo.runtime.
#[local] Existing Instance Office.platform.
#[local] Existing Instance Office.schemas.

Lemma accounts_stay_unique_witness :
  let rename :=
    Office.request_of Office.admin_public
      (Office.UpdateUserBody
         (UpdateUserInput.mk (Some "alice@y.org") (Some "alicia") None None None))
      "uuid-alice" in
  NoDup (folded_usernames
           (fst (updateUserById (Demo.ambient 3000 "p") rename
                   (fst (register (Demo.ambient 1000 "alice")
                           (Office.request None (Office.RegisterBody Demo.alice) "")
                           MemStorage_new)))))
  /\ folded_emails
       (fst (updateUserById (Demo.ambient 3000 "p") rename
               (fst (register (Demo.ambient 1000 "alice")
                       (Office.request None (Office.RegisterBody Demo.alice) "")
                       MemStorage_new))))
     = ["admin@taskflow.com"; "alice@y.org"].
Proof.
  intros rename.
  destruct (@accounts_stay_unique Demo.runtime Office.platform Office.schemas
              (Demo.ambient 1000 "alice")
              (Office.request None (Office.RegisterBody Demo.alice) "")
              (Query.mk NaN NaN None) eq_refl)
    as [Hnew Hstep].
  destruct (Hstep MemStorage_new Hnew) as (_ & Hregistered & _).
  destruct (@accounts_stay_unique Demo.runtime Office.platform Office.schemas
              (Demo.ambient 3000 "p") rename (Query.mk NaN NaN None) eq_refl)
    as [_ Hstep'].
  destruct (Hstep' _ Hregistered)
    as (_ & _ & _ & _ & _ & _ & _ & _ & _ & _ & Hupdated & _).
  split; [apply (unique_usernames _ Hupdated) | reflexivity].
Defined.

End InvariantExamples.

Lemma or_default_truthy (parsed : JsNumber) (fallback : Z) :
  fallback <> 0%Z ->
  or_default parsed fallback <> Finite 0 /\ or_default parsed fallback <> NaN.
Proof.
  intros Hf. destruct parsed as [[|p|p]| | |]; cbn [or_default];
    split; congruence.
Qed.

(** X23. [GET /api/users] cannot fail and cannot divide by zero: a
    [page] or [limit] that is absent, not a number or 0 is replaced by 1
    and by 10, so the limit handed to [getAllUsers] is never 0 (nor
    [NaN]) and [totalPages] is always a number, also for the infinities
    that [parseInt] can give.  The store is only initialized.  A request
    without the two parameters gets the ten most recent users. *)
Theorem listUsers_defaults `{UserSchemas} (amb : Ambient) (query : Query.t)
    (st : MemStorage) :
  exists listing pages,
    listUsers amb query st = (initialize amb st, inr listing)
    /\ Paginated.page listing = or_default (Query.page query) 1
    /\ Paginated.page listing <> Finite 0
    /\ Paginated.page listing <> NaN
    /\ Paginated.limit listing = or_default (Query.limit query) 10
    /\ Paginated.limit listing <> Finite 0
    /\ Paginated.limit listing <> NaN
    /\ Paginated.totalPages listing = Finite pages
    /\ (Query.page query = NaN -> Query.limit query = NaN ->
        Paginated.data listing
        = map toPublicUser
            (firstn 10 (sort newest_first (JsMap.values (users (initialize amb st)))))).
Proof.
  unfold listUsers, listUsers_try. cbv zeta. rewrite getAllUsers_eq. cbv zeta.
  destruct (or_default_truthy (Query.page query) 1) as [Hp Hp']; [discriminate|].
  destruct (or_default_truthy (Query.limit query) 10) as [Hl Hl']; [discriminate|].
  set (total := Z.of_nat (List.length
                            (sort newest_first
                               (JsMap.values (users (initialize amb st)))))).
  eexists.
  exists (match or_default (Query.limit query) 10 with
          | Finite limit => - (- total / limit)
          | _ => 0
          end)%Z.
  split; [reflexivity|].
  cbn [Paginated.page Paginated.limit Paginated.totalPages Paginated.data].
  do 6 (split; [first [reflexivity | assumption]|]).
  split.
  - unfold ceil_div. destruct (or_default (Query.limit query) 10) as [limit| | |];
      try reflexivity; [|congruence].
    destruct (Z.eqb_spec limit 0) as [-> | _]; [congruence | reflexivity].
  - intros -> ->. cbn [or_default js_mul js_pred js_add].
    now rewrite (slice_firstn_skipn 0 10).
Qed.

(** ** The task store *)

Section TaskStoreFacts.
Context `{Platform}.

Lemma on_accounts_ensureInitialized {A} (amb : Ambient) (k : unit -> TaskAction A)
    (s : TaskStorage) :
  task_bind (on_accounts (ensureInitialized amb)) k s = k tt (task_initialize amb s).
Proof.
  unfold task_bind, on_accounts, task_initialize. rewrite ensureInitialized_eq. reflexivity.
Qed.

Lemma task_initialize_idem (amb amb' : Ambient) (s : TaskStorage) :
  task_initialize amb' (task_initialize amb s) = task_initialize amb s.
Proof. unfold task_initialize. cbn [accounts tasks]. now rewrite initialize_idem. Qed.

Lemma getTask_eq (amb : Ambient) (id : string) (s : TaskStorage) :
  getTask amb id s = (task_initialize amb s, inr (JsMap.get id (tasks s))).
Proof. unfold getTask. now rewrite on_accounts_ensureInitialized. Qed.

Lemma getTaskWithAssignee_eq (amb : Ambient) (id : string) (s : TaskStorage) :
  getTaskWithAssignee amb id s
  = (task_initialize amb s,
     inr (option_map (with_assignee (task_initialize amb s)) (JsMap.get id (tasks s)))).
Proof.
  unfold getTaskWithAssignee. rewrite on_accounts_ensureInitialized.
  unfold task_bind, task_gets, task_ret. cbn [tasks task_initialize].
  now destruct (JsMap.get id (tasks s)).
Qed.

Lemma createTask_eq (tamb : TaskAmbient) (taskData : NewTask.t) (s : TaskStorage) :
  let task :=
    Task.mk (task_uuid tamb) (NewTask.title taskData) (NewTask.description taskData)
      (NewTask.status taskData) (NewTask.assignedTo taskData)
      (NewTask.createdBy taskData) (NewTask.dueDate taskData)
      (now (ambient tamb)) (now (ambient tamb)) in
  createTask tamb taskData s
  = (set_tasks (JsMap.set (task_uuid tamb) task) (task_initialize (ambient tamb) s),
     inr task).
Proof. unfold createTask. now rewrite on_accounts_ensureInitialized. Qed.

Lemma updateTask_eq (amb : Ambient) (id : string) (data : TaskPatch.t) (s : TaskStorage) :
  updateTask amb id data s =
    match JsMap.get id (tasks s) with
    | None => (task_initialize amb s, inr None)
    | Some task =>
        (set_tasks (JsMap.set id (spread_task task data (now amb))) (task_initialize amb s),
         inr (Some (spread_task task data (now amb))))
    end.
Proof.
  unfold updateTask. rewrite on_accounts_ensureInitialized.
  unfold task_bind, task_gets, task_ret. cbn [tasks task_initialize].
  now destruct (JsMap.get id (tasks s)).
Qed.

Lemma deleteTask_eq (amb : Ambient) (id : string) (s : TaskStorage) :
  deleteTask amb id s
  = (set_tasks (JsMap.delete id) (task_initialize amb s), inr (JsMap.has id (tasks s))).
Proof. unfold deleteTask. now rewrite on_accounts_ensureInitialized. Qed.

Lemma getAllTasks_eq (amb : Ambient) (page limit : JsNumber) (status : option string)
    (s : TaskStorage) :
  let s0 := task_initialize amb s in
  let allTasks := filter_status status (sort newest_task_first (JsMap.values (tasks s))) in
  let offset := js_mul (js_pred page) limit in
  getAllTasks amb page limit status s
  = (s0,
     inr (Paginated.mk
            (map (with_assignee s0) (slice offset (js_add offset limit) allTasks))
            (Z.of_nat (List.length allTasks)) page limit
            (or_one (ceil_div (Z.of_nat (List.length allTasks)) limit)))).
Proof. unfold getAllTasks. now rewrite on_accounts_ensureInitialized. Qed.

Lemma getTasksByUser_eq (amb : Ambient) (userId : string) (page limit : JsNumber)
    (status : option string) (s : TaskStorage) :
  let s0 := task_initialize amb s in
  let userTasks :=
    filter_status status
      (sort newest_task_first (filter (assigned_to userId) (JsMap.values (tasks s)))) in
  let offset := js_mul (js_pred page) limit in
  getTasksByUser amb userId page limit status s
  = (s0,
     inr (Paginated.mk
            (map (fun task =>
                    TaskWithAssignee.mk task
                      (option_map toPublicUser (JsMap.get userId (users (accounts s0)))))
               (slice offset (js_add offset limit) userTasks))
            (Z.of_nat (List.length userTasks)) page limit
            (or_one (ceil_div (Z.of_nat (List.length userTasks)) limit)))).
Proof. unfold getTasksByUser. now rewrite on_accounts_ensureInitialized. Qed.

Lemma on_accounts_getUser (amb : Ambient) (id : string) (s : TaskStorage) :
  on_accounts (getUser amb id) s
  = (task_initialize amb s, inr (JsMap.get id (users (initialize amb (accounts s))))).
Proof. unfold on_accounts, task_initialize. now rewrite getUser_eq. Qed.

Lemma task_initialize_set_tasks (amb amb' : Ambient) (f : JsMap.t Task.t -> JsMap.t Task.t)
    (s : TaskStorage) :
  task_initialize amb' (set_tasks f (task_initialize amb s))
  = set_tasks f (task_initialize amb s).
Proof.
  unfold task_initialize, set_tasks. cbn [accounts tasks]. now rewrite initialize_idem.
Qed.

End TaskStoreFacts.

(** Rewrites the store methods of a task handler into their effect on
    the initialized store. *)
Ltac run_tasks :=
  unfold task_handle, task_parse, the_user, task_bind, task_gets, task_modify,
    task_ret, task_throw;
  cbn beta iota zeta;
  repeat (first
    [ rewrite getTask_eq | rewrite getTaskWithAssignee_eq | rewrite createTask_eq
    | rewrite updateTask_eq | rewrite deleteTask_eq | rewrite getAllTasks_eq
    | rewrite getTasksByUser_eq | rewrite on_accounts_getUser
    | rewrite task_initialize_set_tasks | rewrite task_initialize_idem ];
    cbn beta iota zeta).

Section TaskRouteFacts.
Context `{TaskSchemas}.

Lemma may_touch_negb (user : UserPublic.t) (task : Task.t) :
  negb (UserRole_eqb (UserPublic.role user) ADMIN)
  && negb (Task.assignedTo task =? UserPublic.id user)%string
  = negb (may_touch user task).
Proof. unfold may_touch. now rewrite negb_orb. Qed.

(** [GET /api/tasks/:id], step by step. *)
Lemma getTaskById_eq (amb : Ambient) (req : Request.t) (s : TaskStorage) :
  getTaskById amb req s =
    let s0 := task_initialize amb s in
    match JsMap.get (Request.params_id req) (tasks s) with
    | None => (s0, inl (send_message 404 "Task not found"))
    | Some task =>
        match Request.user req with
        | None => (s0, inl (errorHandler OtherError))
        | Some user =>
            if may_touch user task
            then (s0, inr (with_assignee s0 task))
            else (s0, inl (send_message 403 "Not authorized to view this task"))
        end
    end.
Proof.
  unfold getTaskById. run_tasks.
  destruct (JsMap.get (Request.params_id req) (tasks s)) as [task|]; [|reflexivity].
  cbn [option_map]. destruct (Request.user req) as [user|]; [|reflexivity].
  cbn [with_assignee TaskWithAssignee.task]. rewrite may_touch_negb.
  now destruct (may_touch user task).
Qed.

(** [PATCH /api/tasks/:id/status], step by step. *)
Lemma updateTaskStatus_eq (amb : Ambient) (req : Request.t) (s : TaskStorage) :
  updateTaskStatus amb req s =
    match updateTaskStatusSchema_parse (Request.body req) with
    | None => (s, inl (errorHandler ZodError))
    | Some status =>
        let s0 := task_initialize amb s in
        match JsMap.get (Request.params_id req) (tasks s) with
        | None => (s0, inl (send_message 404 "Task not found"))
        | Some task =>
            match Request.user req with
            | None => (s0, inl (errorHandler OtherError))
            | Some user =>
                if may_touch user task then
                  let updated :=
                    spread_task task (TaskPatch.mk None None (Some status) None None None)
                      (now amb) in
                  let s1 := set_tasks (JsMap.set (Request.params_id req) updated) s0 in
                  (s1, inr (option_map (with_assignee s1)
                              (JsMap.get (Task.id task) (tasks s1))))
                else (s0, inl (send_message 403 "Not authorized to update this task"))
            end
        end
    end.
Proof.
  unfold updateTaskStatus. unfold task_handle, task_parse.
  destruct (updateTaskStatusSchema_parse (Request.body req)) as [status|]; [|reflexivity].
  run_tasks.
  destruct (JsMap.get (Request.params_id req) (tasks s)) as [task|] eqn:Hget;
    [|reflexivity].
  destruct (Request.user req) as [user|]; [|reflexivity].
  rewrite may_touch_negb. destruct (may_touch user task); [|reflexivity].
  cbn [negb]. run_tasks. cbn [tasks task_initialize]. rewrite Hget. run_tasks.
  reflexivity.
Qed.

(** [POST /api/tasks], step by step. *)
Lemma createTaskByAdmin_eq (tamb : TaskAmbient) (req : Request.t) (s : TaskStorage) :
  createTaskByAdmin tamb req s =
    match createTaskSchema_parse (Request.body req) with
    | None => (s, inl (errorHandler ZodError))
    | Some data =>
        let s0 := task_initialize (ambient tamb) s in
        match JsMap.get (CreateTaskInput.assignedTo data) (users (accounts s0)) with
        | None => (s0, inl (send_message 400 "Assignee not found"))
        | Some _ =>
            match Request.user req with
            | None => (s0, inl (errorHandler OtherError))
            | Some user =>
                let task :=
                  Task.mk (task_uuid tamb) (CreateTaskInput.title data)
                    (CreateTaskInput.description data) (CreateTaskInput.status data)
                    (CreateTaskInput.assignedTo data) (UserPublic.id user)
                    (dueDate_of (CreateTaskInput.dueDate data))
                    (now (ambient tamb)) (now (ambient tamb)) in
                let s1 := set_tasks (JsMap.set (task_uuid tamb) task) s0 in
                (s1, inr (Some (with_assignee s1 task)))
            end
        end
    end.
Proof.
  unfold createTaskByAdmin. unfold task_handle, task_parse.
  destruct (createTaskSchema_parse (Request.body req)) as [data|]; [|reflexivity].
  run_tasks. cbn [accounts task_initialize].
  destruct (JsMap.get (CreateTaskInput.assignedTo data) _) as [assignee|]; [|reflexivity].
  destruct (Request.user req) as [user|]; [|reflexivity].
  run_tasks. cbn [Task.id tasks set_tasks]. rewrite get_set_eq. cbn [option_map].
  assert (Hd : (if Js.truthy (Some (CreateTaskInput.description data))
                then CreateTaskInput.description data else "")
               = CreateTaskInput.description data).
  { cbn. destruct (String.eqb_spec (CreateTaskInput.description data) "") as [-> |];
      reflexivity. }
  assert (Hs : (if Js.truthy (Some (TaskStatus_name (CreateTaskInput.status data)))
                then CreateTaskInput.status data else TODO)
               = CreateTaskInput.status data).
  { now destruct (CreateTaskInput.status data). }
  rewrite Hd, Hs. reflexivity.
Qed.

(** [PATCH /api/tasks/:id], step by step. *)
Lemma updateTaskById_eq (amb : Ambient) (req : Request.t) (s : TaskStorage) :
  updateTaskById amb req s =
    match updateTaskSchema_parse (Request.body req) with
    | None => (s, inl (errorHandler ZodError))
    | Some data =>
        let s0 := task_initialize amb s in
        match JsMap.get (Request.params_id req) (tasks s) with
        | None => (s0, inl (send_message 404 "Task not found"))
        | Some task =>
            if assignee_missing (UpdateTaskInput.assignedTo data) (accounts s0)
            then (s0, inl (send_message 400 "Assignee not found"))
            else
              let updated := spread_task task (task_updateData data) (now amb) in
              let s1 := set_tasks (JsMap.set (Request.params_id req) updated) s0 in
              (s1, inr (option_map (with_assignee s1)
                          (JsMap.get (Task.id task) (tasks s1))))
        end
    end.
Proof.
  unfold updateTaskById. unfold task_handle, task_parse.
  destruct (updateTaskSchema_parse (Request.body req)) as [data|]; [|reflexivity].
  run_tasks.
  destruct (JsMap.get (Request.params_id req) (tasks s)) as [task|] eqn:Hget;
    [|reflexivity].
  unfold assignee_missing. cbn [accounts task_initialize].
  destruct (UpdateTaskInput.assignedTo data) as [assignedTo|];
    [destruct (Js.truthy (Some assignedTo))|]; cbn [andb].
  - run_tasks. cbn [accounts task_initialize]. rewrite initialize_idem.
    destruct (JsMap.get assignedTo _); [|reflexivity].
    run_tasks. cbn [tasks task_initialize]. rewrite Hget. run_tasks. reflexivity.
  - run_tasks. cbn [tasks task_initialize]. rewrite Hget. run_tasks. reflexivity.
  - run_tasks. cbn [tasks task_initialize]. rewrite Hget. run_tasks. reflexivity.
Qed.

(** [DELETE /api/tasks/:id], step by step. *)
Lemma deleteTaskById_eq (amb : Ambient) (req : Request.t) (s : TaskStorage) :
  deleteTaskById amb req s
  = (set_tasks (JsMap.delete (Request.params_id req)) (task_initialize amb s),
     if JsMap.has (Request.params_id req) (tasks s)
     then inr (send_message 200 "Task deleted successfully")
     else inl (send_message 404 "Task not found")).
Proof.
  unfold deleteTaskById. run_tasks. now destruct (JsMap.has _ _).
Qed.

End TaskRouteFacts.

Section GuardFacts.
Context `{Platform} {R : Type}.

(** When [authenticate] calls [next()], the store went through
    [ensureInitialized], the bearer token verified and the request
    carries the public part of the user that the token names. *)
Lemma authenticate_next (amb : Ambient) (req req' : Request.t) (st : MemStorage) :
  snd (authenticate amb req st) = Next req' ->
  exists user,
    authenticates amb req st user
    /\ req' = Request.with_user req (toPublicUser user)
    /\ fst (authenticate amb req st) = initialize amb st.
Proof.
  unfold authenticate, authenticate_try, authenticates.
  destruct (Request.authorization req) as [header|]; [|discriminate].
  destruct (Js.startsWith "Bearer " header) eqn:Hstarts;
    [|rewrite orb_true_r; discriminate].
  destruct (negb (Js.truthy (Some header)) || negb true); [discriminate|].
  destruct (verifyToken (now amb) (Js.substring 7 header)) as [decoded|] eqn:Hv;
    [|discriminate].
  unfold bind. rewrite getUser_eq.
  destruct (JsMap.get _ _) as [user|] eqn:Hg; [|discriminate].
  cbn [fst snd]. intros [= <-]. exists user. split; [|now split].
  now exists header, decoded.
Qed.

(** The three outcomes of [authenticate] on the whole store. *)
Lemma on_accounts_authenticate (amb : Ambient) (req : Request.t) (s : TaskStorage) :
  (exists res,
     snd (on_accounts_handler (authenticate amb req) s) = Respond res
     /\ Response.status res = 401
     /\ (fst (on_accounts_handler (authenticate amb req) s) = s
         \/ fst (on_accounts_handler (authenticate amb req) s) = task_initialize amb s))
  \/ (exists user,
        authenticates amb req (accounts s) user
        /\ on_accounts_handler (authenticate amb req) s
           = (task_initialize amb s,
              Next (Request.with_user req (toPublicUser user)))).
Proof.
  unfold on_accounts_handler, task_initialize.
  pose proof (authenticate_store amb req (accounts s)) as Hstore.
  pose proof (authenticate_respond amb req (accounts s)) as H401.
  pose proof (fun req' => authenticate_next amb req req' (accounts s)) as Hnext.
  destruct (authenticate amb req (accounts s)) as [st' [res|req']]; cbn [fst snd] in *.
  - left. exists res. split; [reflexivity|]. split; [now apply H401|].
    destruct Hstore as [-> | ->]; [left; now destruct s | now right].
  - right. destruct (Hnext req' eq_refl) as (user & Hauth & -> & ->).
    now exists user.
Qed.

End GuardFacts.

(** X16. The routes behind [authenticate] and behind [authenticate,
    requireAdmin]: whatever the handler is, it runs only when the bearer
    token verifies and names a stored user (whose role is ADMIN, for the
    second kind), and then on the initialized store with that user's
    public record attached to the request.  In every other case the
    answer is the 401 of [authenticate] or 403 "Admin access required",
    no task is touched, and the accounts are as they were or only
    initialized. *)
Theorem guards_cases `{Platform} {R : Type}
    (h : Request.t -> TaskStorage -> TaskStorage * R)
    (amb : Ambient) (req : Request.t) (s : TaskStorage) :
  let runs (result : TaskStorage * (Response.t + R)) (user : User.t) :=
    let req' := Request.with_user req (toPublicUser user) in
    authenticates amb req (accounts s) user
    /\ result = (fst (h req' (task_initialize amb s)),
                 inr (snd (h req' (task_initialize amb s)))) in
  let refuses (result : TaskStorage * (Response.t + R)) (res : Response.t) :=
    snd result = inl res
    /\ (fst result = s \/ fst result = task_initialize amb s) in
  ((exists res, refuses (behind_authenticate h amb req s) res /\ Response.status res = 401)
   \/ (exists user, runs (behind_authenticate h amb req s) user))
  /\ ((exists res,
         refuses (behind_requireAdmin h amb req s) res
         /\ (Response.status res = 401 \/ res = send_message 403 "Admin access required"))
      \/ (exists admin,
            runs (behind_requireAdmin h amb req s) admin /\ User.role admin = ADMIN)).
Proof.
  cbv zeta. unfold behind_authenticate, behind_requireAdmin.
  destruct (on_accounts_authenticate amb req s)
    as [(res & Hres & H401 & Hstore) | (user & Hauth & ->)].
  - destruct (on_accounts_handler (authenticate amb req) s) as [s' o].
    cbn [fst snd] in *. subst o. split; left; exists res; cbn [fst snd]; auto.
  - split.
    + right. exists user. split; [exact Hauth|]. now destruct (h _ _).
    + unfold requireAdmin.
      cbn [Request.user Request.with_user toPublicUser UserPublic.role].
      destruct (User.role user) eqn:Hrole; cbn [UserRole_eqb negb].
      * right. exists user. split; [|exact Hrole]. split; [exact Hauth|].
        now destruct (h _ _).
      * left. exists (send_message 403 "Admin access required").
        cbn [fst snd]. auto.
Qed.

Section ListingFacts.
Context {A : Type}.

Lemma In_firstn (n : nat) (x : A) (l : list A) : In x (firstn n l) -> In x l.
Proof.
  revert l. induction n as [|n IH]; intros [|y l]; simpl; try easy.
  intros [-> | Hin]; [now left | right; now apply IH].
Qed.

Lemma In_skipn (n : nat) (x : A) (l : list A) : In x (skipn n l) -> In x l.
Proof.
  revert l. induction n as [|n IH]; intros [|y l]; simpl; try easy.
  intros Hin. right. now apply IH.
Qed.

(** A slice holds only elements of the array, whatever the indices. *)
Lemma In_slice (start stop : JsNumber) (x : A) (l : list A) :
  In x (slice start stop l) -> In x l.
Proof. unfold slice. intros Hin. now apply In_firstn, In_skipn in Hin. Qed.

Lemma filter_perm (f : A -> bool) (l l' : list A) :
  Permutation l l' -> Permutation (filter f l) (filter f l').
Proof.
  induction 1 as [|x l l' _ IH|x y l|l l' l'' _ IH1 _ IH2]; simpl.
  - constructor.
  - destruct (f x); [now constructor | assumption].
  - destruct (f x), (f y); try reflexivity. apply perm_swap.
  - now transitivity (filter f l').
Qed.

(** [slice] from the start of an array that is no longer than the
    stop. *)
Lemma slice_whole (stop : Z) (l : list A) :
  (Z.of_nat (List.length l) <= stop)%Z -> slice (Finite 0) (Finite stop) l = l.
Proof.
  intros Hlen. unfold slice, slice_index. cbn [Z.ltb Z.compare].
  assert (Hs : (stop <? 0)%Z = false) by (apply Z.ltb_ge; lia). rewrite Hs.
  rewrite (Z.min_l 0) by lia. rewrite (Z.min_r stop) by lia. cbn [Z.to_nat skipn].
  rewrite Z.sub_0_r, Nat2Z.id. apply firstn_all.
Qed.

End ListingFacts.

Lemma filter_status_perm (status : option string) (l l' : list Task.t) :
  Permutation l l' -> Permutation (filter_status status l) (filter_status status l').
Proof.
  intros Hp. unfold filter_status. destruct status as [name|]; [|exact Hp].
  destruct (Js.truthy (Some name)); [now apply filter_perm | exact Hp].
Qed.

Lemma In_filter_status (status : option string) (task : Task.t) (l : list Task.t) :
  In task (filter_status status l) ->
  In task l
  /\ forall name, status = Some name -> name <> "" ->
                  TaskStatus_name (Task.status task) = name.
Proof.
  unfold filter_status. destruct status as [name|].
  - cbn [Js.truthy]. destruct (String.eqb_spec name "") as [-> | Hne]; cbn [negb].
    + intros Hin. split; [exact Hin|]. now intros ? [= <-].
    + intros Hin. apply filter_In in Hin as [Hin Hs]. split; [exact Hin|].
      intros ? [= <-] _. now apply String.eqb_eq.
  - intros Hin. split; [exact Hin | discriminate].
Qed.

(** X24. [GET /api/tasks/my] lists only tasks of the user of the
    request: the answer is the listing that [getTasksByUser] gives for
    the id of that user, with page 1 and limit 10 where the query gives
    none; every entry of the page is a stored task that is assigned to
    that user, has the status that a non-empty [status] names, and
    carries the public record of that user as assignee; [total] counts
    the stored tasks of the user with that status, whatever the page.
    When the limit is finite and not below [total], page 1 holds them
    all; when the limit is [Infinity], which [parseInt] makes of a long
    run of digits, the page is empty whatever the page number, because
    the offset [0 * Infinity] is [NaN]. *)
Theorem listMyTasks_only_own `{TaskSchemas} (amb : Ambient) (query : Query.t)
    (req : Request.t) (s : TaskStorage) (principal : UserPublic.t) :
  Request.user req = Some principal ->
  let userId := UserPublic.id principal in
  let own :=
    filter_status (Query.status query)
      (filter (assigned_to userId) (JsMap.values (tasks s))) in
  exists listing,
    listMyTasks amb query req s = (task_initialize amb s, inr listing)
    /\ getTasksByUser amb userId (or_default (Query.page query) 1)
         (or_default (Query.limit query) 10) (Query.status query) s
       = (task_initialize amb s, inr listing)
    /\ (forall entry,
          In entry (Paginated.data listing) ->
          In (TaskWithAssignee.task entry) (JsMap.values (tasks s))
          /\ Task.assignedTo (TaskWithAssignee.task entry) = userId
          /\ TaskWithAssignee.assignee entry
             = option_map toPublicUser
                 (JsMap.get userId (users (initialize amb (accounts s))))
          /\ forall name, Query.status query = Some name -> name <> "" ->
                          TaskStatus_name (Task.status (TaskWithAssignee.task entry))
                          = name)
    /\ Paginated.total listing = Z.of_nat (List.length own)
    /\ (forall limit,
          Paginated.page listing = Finite 1 ->
          Paginated.limit listing = Finite limit ->
          (Paginated.total listing <= limit)%Z ->
          Permutation (map TaskWithAssignee.task (Paginated.data listing)) own)
    /\ (Paginated.limit listing = PlusInfinity -> Paginated.data listing = []).
Proof.
  intros Huser. cbv zeta. unfold listMyTasks, task_handle, the_user. rewrite Huser.
  unfold task_bind at 1. unfold task_ret at 1. cbv zeta.
  rewrite getTasksByUser_eq. cbv zeta. eexists. split; [reflexivity|].
  split; [reflexivity|].
  cbn [Paginated.data Paginated.total Paginated.page Paginated.limit accounts
         task_initialize].
  set (userId := UserPublic.id principal).
  set (status := Query.status query).
  set (sorted := sort newest_task_first
                   (filter (assigned_to userId) (JsMap.values (tasks s)))).
  assert (Hperm : Permutation (filter_status status sorted)
                    (filter_status status
                       (filter (assigned_to userId) (JsMap.values (tasks s))))).
  { apply filter_status_perm, sort_perm. }
  split; [|split; [|split]].
  - intros entry Hin. apply in_map_iff in Hin as [task [<- Hin]].
    cbn [TaskWithAssignee.task TaskWithAssignee.assignee].
    apply In_slice, In_filter_status in Hin as [Hin Hstatus].
    apply (Permutation_in _ (sort_perm _ _)), filter_In in Hin as [Hin Hown].
    split; [exact Hin|]. split; [now apply String.eqb_eq|]. split; [reflexivity|].
    exact Hstatus.
  - f_equal. now apply Permutation_length.
  - intros limit -> -> Hfits. rewrite map_map. cbn [TaskWithAssignee.task]. rewrite map_id.
    cbn [js_mul js_pred js_add]. change ((1 - 1) * limit)%Z with 0%Z. cbn [Z.add].
    rewrite slice_whole by exact Hfits. exact Hperm.
  - intros ->. rewrite slice_empty; [reflexivity|].
    destruct (or_default (Query.page query) 1) as [[|[p|p|]|p]| | |]; reflexivity.
Qed.

Section TaskMapFacts.

Lemma wf_tasks_new : wf_tasks TaskStorage_new.
Proof. split; [constructor | intros k v []]. Qed.

Lemma wf_tasks_set (task : Task.t) (s : TaskStorage) :
  wf_tasks s -> wf_tasks (set_tasks (JsMap.set (Task.id task) task) s).
Proof.
  intros [Hu Hk]. split; cbn [tasks set_tasks];
    [now apply NoDup_set | now apply filed_under_set].
Qed.

Lemma wf_tasks_accounts (st : MemStorage) (s : TaskStorage) :
  wf_tasks s -> wf_tasks (mkTaskStorage st (tasks s)).
Proof. intros [Hu Hk]. now split. Qed.

(** A stored task is filed under its id. *)
Lemma task_id_of (id : string) (task : Task.t) (s : TaskStorage) :
  wf_tasks s -> JsMap.get id (tasks s) = Some task -> Task.id task = id.
Proof. intros Hwf Hget. apply (tasks_by_id s Hwf). now apply get_In. Qed.

End TaskMapFacts.

(** X25. Who may read a task through [GET /api/tasks/:id]: a request of
    an authenticated user only initializes the store; it is answered
    with a task only if that task is stored under the id of the path and
    the user is an administrator or the assignee, and then with that
    task and the public record of its assignee; a MEMBER who asks for a
    task of somebody else gets 403 "Not authorized to view this task",
    and an id that is not in the store 404 "Task not found". *)
Theorem getTaskById_authorization `{TaskSchemas} (amb : Ambient) (req : Request.t)
    (s : TaskStorage) (principal : UserPublic.t) :
  Request.user req = Some principal ->
  let s0 := task_initialize amb s in
  fst (getTaskById amb req s) = s0
  /\ (forall entry,
        snd (getTaskById amb req s) = inr entry ->
        JsMap.get (Request.params_id req) (tasks s) = Some (TaskWithAssignee.task entry)
        /\ (UserPublic.role principal = ADMIN
            \/ Task.assignedTo (TaskWithAssignee.task entry) = UserPublic.id principal)
        /\ entry = with_assignee s0 (TaskWithAssignee.task entry))
  /\ (forall task,
        JsMap.get (Request.params_id req) (tasks s) = Some task ->
        snd (getTaskById amb req s)
        = if may_touch principal task
          then inr (with_assignee s0 task)
          else inl (send_message 403 "Not authorized to view this task"))
  /\ (forall task,
        JsMap.get (Request.params_id req) (tasks s) = Some task ->
        UserPublic.role principal = MEMBER ->
        Task.assignedTo task <> UserPublic.id principal ->
        snd (getTaskById amb req s)
        = inl (send_message 403 "Not authorized to view this task"))
  /\ (JsMap.get (Request.params_id req) (tasks s) = None ->
      snd (getTaskById amb req s) = inl (send_message 404 "Task not found")).
Proof.
  intros Huser. cbv zeta. rewrite getTaskById_eq, Huser. cbv zeta.
  destruct (JsMap.get (Request.params_id req) (tasks s)) as [task|] eqn:Hget.
  - assert (Hcases : may_touch principal task = true ->
                     UserPublic.role principal = ADMIN
                     \/ Task.assignedTo task = UserPublic.id principal).
    { unfold may_touch. intros Hm. apply orb_prop in Hm as [Hm | Hm].
      - left. now destruct (UserPublic.role principal).
      - right. now apply String.eqb_eq. }
    split; [now destruct (may_touch principal task)|]. split; [|split; [|split]].
    + intros entry. destruct (may_touch principal task) eqn:Hm; [|discriminate].
      cbn [snd]. intros [= <-]. cbn [with_assignee TaskWithAssignee.task].
      split; [reflexivity|]. split; [now apply Hcases | reflexivity].
    + intros task' [= <-]. now destruct (may_touch principal task).
    + intros task' [= <-] Hrole Hother. unfold may_touch. rewrite Hrole.
      apply String.eqb_neq in Hother. now rewrite Hother.
    + discriminate.
  - split; [reflexivity|]. split; [|split; [|split]]; try discriminate.
    reflexivity.
Qed.

(** X26. What [PATCH /api/tasks/:id/status] can change, on a well-formed
    map of tasks: the accounts are only initialized, no task is added or
    removed, and every task stays as it is except the one under the id of
    the path, and that one only when the user of the request is an
    administrator or its assignee and the body names a status; it then
    gets that status and the instant of the request as [updatedAt], and
    keeps its id, title, description, assignee, creator, due date and
    creation time; the answer is the task as it then is.  The map of
    tasks stays well formed. *)
Theorem updateTaskStatus_changes_status_only `{TaskSchemas} (amb : Ambient)
    (req : Request.t) (s : TaskStorage) :
  wf_tasks s ->
  let s' := fst (updateTaskStatus amb req s) in
  wf_tasks s'
  /\ (accounts s' = accounts s \/ accounts s' = initialize amb (accounts s))
  /\ JsMap.keys (tasks s') = JsMap.keys (tasks s)
  /\ forall id task,
       JsMap.get id (tasks s) = Some task ->
       (JsMap.get id (tasks s') = Some task)
       \/ exists principal status,
            id = Request.params_id req
            /\ Request.user req = Some principal
            /\ may_touch principal task = true
            /\ updateTaskStatusSchema_parse (Request.body req) = Some status
            /\ let task' :=
                 Task.mk (Task.id task) (Task.title task) (Task.description task) status
                   (Task.assignedTo task) (Task.createdBy task) (Task.dueDate task)
                   (Task.createdAt task) (now amb) in
               JsMap.get id (tasks s') = Some task'
               /\ snd (updateTaskStatus amb req s) = inr (Some (with_assignee s' task')).
Proof.
  intros Hwf. cbv zeta. rewrite updateTaskStatus_eq.
  assert (Hsame : forall (s1 : TaskStorage) (r : Response.t + option TaskWithAssignee.t),
            tasks s1 = tasks s ->
            accounts s1 = accounts s \/ accounts s1 = initialize amb (accounts s) ->
            wf_tasks (fst (s1, r))
            /\ (accounts (fst (s1, r)) = accounts s
                \/ accounts (fst (s1, r)) = initialize amb (accounts s))
            /\ JsMap.keys (tasks (fst (s1, r))) = JsMap.keys (tasks s)
            /\ forall id task,
                 JsMap.get id (tasks s) = Some task ->
                 (JsMap.get id (tasks (fst (s1, r))) = Some task)
                 \/ exists principal status,
                      id = Request.params_id req
                      /\ Request.user req = Some principal
                      /\ may_touch principal task = true
                      /\ updateTaskStatusSchema_parse (Request.body req) = Some status
                      /\ let task' :=
                           Task.mk (Task.id task) (Task.title task) (Task.description task)
                             status (Task.assignedTo task) (Task.createdBy task)
                             (Task.dueDate task) (Task.createdAt task) (now amb) in
                         JsMap.get id (tasks (fst (s1, r))) = Some task'
                         /\ snd (s1, r) = inr (Some (with_assignee (fst (s1, r)) task'))).
  { intros s1 r Ht Ha. cbn [fst]. rewrite Ht. split.
    - destruct Hwf as [Hu Hk]. split; now rewrite Ht.
    - split; [exact Ha|]. split; [reflexivity|]. intros id task Hg. now left. }
  destruct (updateTaskStatusSchema_parse (Request.body req)) as [status|] eqn:Hparse;
    [|apply Hsame; auto].
  cbv zeta.
  destruct (JsMap.get (Request.params_id req) (tasks s)) as [task|] eqn:Hget;
    [|apply Hsame; auto].
  destruct (Request.user req) as [principal|] eqn:Huser; [|apply Hsame; auto].
  destruct (may_touch principal task) eqn:Hmay; [|apply Hsame; auto].
  pose proof (task_id_of _ _ _ Hwf Hget) as Hid.
  cbn [fst snd tasks accounts set_tasks task_initialize].
  split.
  - rewrite <- Hid at 1.
    apply (wf_tasks_set (spread_task task _ (now amb))), wf_tasks_accounts, Hwf.
  - split; [now right|]. split; [now apply keys_set_present with task|].
    intros id task0 Hg.
    destruct (String.eqb_spec (Request.params_id req) id) as [Heq | Hne].
    + subst id. rewrite Hget in Hg. injection Hg as <-. right.
      exists principal, status. split; [reflexivity|]. split; [reflexivity|].
      split; [exact Hmay|]. split; [reflexivity|].
      cbv zeta. split; [now rewrite get_set_eq|].
      match goal with
      | |- context [JsMap.get (Task.id task) (JsMap.set ?k ?v ?m)] =>
          replace (JsMap.get (Task.id task) (JsMap.set k v m)) with (Some v)
            by (rewrite Hid; now rewrite get_set_eq)
      end.
      reflexivity.
    + left. now rewrite (get_set_neq _ _ _ _ Hne).
Qed.

Section TaskExamples.
#[local] Existing Instance Demo.runtime.
#[local] Existing Instance Office.platform.
#[local] Existing Instance Office.schemas.
#[local] Existing Instance Office.task_schemas.

Lemma tasks2_wf : wf_tasks Office.tasks2.
Proof.
  split.
  - repeat constructor; cbn; intuition discriminate.
  - intros k v [[= <- <-] | [[= <- <-] | []]]; reflexivity.
Qed.

Lemma getTaskById_authorization_witness :
  snd (getTaskById (Demo.ambient 5000 "v")
         (Office.request_of Fixtures.alice_public Office.NoBody "task-2") Office.tasks2)
  = inl (send_message 403 "Not authorized to view this task")
  /\ snd (getTaskById (Demo.ambient 5000 "v")
            (Office.request_of Fixtures.alice_public Office.NoBody "task-1") Office.tasks2)
     = inr (TaskWithAssignee.mk Office.report_task (Some Fixtures.alice_public)).
Proof.
  split.
  - apply (proj1 (proj2 (proj2 (proj2
             (@getTaskById_authorization Demo.runtime Office.platform Office.task_schemas
                (Demo.ambient 5000 "v")
                (Office.request_of Fixtures.alice_public Office.NoBody "task-2")
                Office.tasks2 Fixtures.alice_public eq_refl)))) Office.audit_task);
      [reflexivity | reflexivity | discriminate].
  - rewrite (proj1 (proj2 (proj2
               (@getTaskById_authorization Demo.runtime Office.platform Office.task_schemas
                  (Demo.ambient 5000 "v")
                  (Office.request_of Fixtures.alice_public Office.NoBody "task-1")
                  Office.tasks2 Fixtures.alice_public eq_refl))) Office.report_task eq_refl).
    reflexivity.
Defined.

Lemma updateTaskStatus_changes_status_only_witness :
  let s' :=
    fst (updateTaskStatus (Demo.ambient 6000 "s")
           (Office.request_of Fixtures.alice_public (Office.StatusBody DONE) "task-1")
           Office.tasks2) in
  JsMap.keys (tasks s') = ["task-1"; "task-2"]
  /\ JsMap.get "task-2" (tasks s') = Some Office.audit_task
  /\ wf_tasks s'.
Proof.
  intros s'.
  destruct (@updateTaskStatus_changes_status_only Demo.runtime Office.platform Office.task_schemas
              (Demo.ambient 6000 "s")
              (Office.request_of Fixtures.alice_public (Office.StatusBody DONE) "task-1")
              Office.tasks2 tasks2_wf) as (Hwf & _ & Hkeys & Htasks).
  split; [exact Hkeys|]. split; [|exact Hwf].
  destruct (Htasks "task-2" Office.audit_task eq_refl)
    as [Hsame | (principal & status & Hid & _)]; [exact Hsame | discriminate Hid].
Defined.

End TaskExamples.

(** X27. A task made by an administrator, read by its assignee, then
    deleted, on well-formed accounts: [POST /api/tasks] with a body that
    the schema accepts and an assignee that the store holds answers with
    the new task, which has the id drawn for it, the administrator of the
    request as creator, the instant of the request as creation and
    update time, and the public record of the assignee attached; the
    accounts are only initialized, and the task is the only change to
    the map.  [GET /api/tasks/:id] for that id, asked by the assignee,
    then answers with the same task.  [DELETE /api/tasks/:id] for that id
    answers "Task deleted successfully"; afterwards the id is answered
    with 404 "Task not found", and the answers for the other ids are
    what they were before the task was made. *)
Theorem createTask_then_view `{TaskSchemas} (tamb : TaskAmbient) (amb' : Ambient)
    (req req' : Request.t) (s : TaskStorage) (data : CreateTaskInput.t)
    (admin : UserPublic.t) (assignee : User.t) :
  wf_store (accounts s) ->
  createTaskSchema_parse (Request.body req) = Some data ->
  Request.user req = Some admin ->
  JsMap.get (CreateTaskInput.assignedTo data)
    (users (initialize (ambient tamb) (accounts s))) = Some assignee ->
  Request.params_id req' = task_uuid tamb ->
  Request.user req' = Some (toPublicUser assignee) ->
  let created :=
    Task.mk (task_uuid tamb) (CreateTaskInput.title data)
      (CreateTaskInput.description data) (CreateTaskInput.status data)
      (CreateTaskInput.assignedTo data) (UserPublic.id admin)
      (dueDate_of (CreateTaskInput.dueDate data))
      (now (ambient tamb)) (now (ambient tamb)) in
  let entry := TaskWithAssignee.mk created (Some (toPublicUser assignee)) in
  let s1 := fst (createTaskByAdmin tamb req s) in
  let s2 := fst (deleteTaskById amb' req' s1) in
  createTaskByAdmin tamb req s
  = (set_tasks (JsMap.set (task_uuid tamb) created) (task_initialize (ambient tamb) s),
     inr (Some entry))
  /\ snd (getTaskById amb' req' s1) = inr entry
  /\ snd (deleteTaskById amb' req' s1) = inr (send_message 200 "Task deleted successfully")
  /\ snd (getTaskById amb' req' s2) = inl (send_message 404 "Task not found")
  /\ (forall id, id <> task_uuid tamb -> JsMap.get id (tasks s2) = JsMap.get id (tasks s)).
Proof.
  intros Hwf Hparse Hadmin Hassignee Hid Huser. cbv zeta.
  assert (Hcreate :
            createTaskByAdmin tamb req s
            = (set_tasks
                 (JsMap.set (task_uuid tamb)
                    (Task.mk (task_uuid tamb) (CreateTaskInput.title data)
                       (CreateTaskInput.description data) (CreateTaskInput.status data)
                       (CreateTaskInput.assignedTo data) (UserPublic.id admin)
                       (dueDate_of (CreateTaskInput.dueDate data))
                       (now (ambient tamb)) (now (ambient tamb))))
                 (task_initialize (ambient tamb) s),
               inr (Some (TaskWithAssignee.mk
                            (Task.mk (task_uuid tamb) (CreateTaskInput.title data)
                               (CreateTaskInput.description data)
                               (CreateTaskInput.status data)
                               (CreateTaskInput.assignedTo data) (UserPublic.id admin)
                               (dueDate_of (CreateTaskInput.dueDate data))
                               (now (ambient tamb)) (now (ambient tamb)))
                            (Some (toPublicUser assignee)))))).
  { rewrite createTaskByAdmin_eq, Hparse. cbv zeta.
    cbn [accounts task_initialize]. rewrite Hassignee, Hadmin.
    unfold with_assignee. cbn [Task.assignedTo accounts set_tasks task_initialize].
    now rewrite Hassignee. }
  split; [exact Hcreate|]. rewrite Hcreate. cbn [fst].
  rewrite deleteTaskById_eq, Hid. cbn [fst snd tasks set_tasks task_initialize].
  rewrite (has_of_get _ _ _ (get_set_eq _ _ _)).
  split; [|split; [reflexivity|split]].
  - rewrite getTaskById_eq, Hid, Huser. cbv zeta.
    cbn [tasks set_tasks task_initialize]. rewrite get_set_eq.
    assert (Hown : User.id assignee = CreateTaskInput.assignedTo data).
    { apply (users_by_id _ (wf_initialize (ambient tamb) _ Hwf)). now apply get_In. }
    unfold may_touch. cbn [Task.assignedTo toPublicUser UserPublic.id].
    rewrite Hown, String.eqb_refl, orb_true_r.
    unfold with_assignee. cbn [Task.assignedTo accounts set_tasks task_initialize].
    now rewrite initialize_idem, Hassignee.
  - rewrite getTaskById_eq, Hid. cbv zeta. cbn [tasks set_tasks task_initialize].
    now rewrite get_delete_eq.
  - intros id Hne. rewrite get_delete_neq by congruence.
    apply get_set_neq. congruence.
Qed.

(** X28. Deleting a user does not touch the tasks: after
    [DELETE /api/users/:id] the map of tasks is as it was, and when the
    user was deleted, every task that was assigned to that user is still
    stored and is handed out with no assignee. *)
Theorem deleteUser_leaves_tasks `{TaskSchemas} (amb amb' : Ambient) (req : Request.t)
    (s : TaskStorage) :
  let s' := fst (on_accounts_handler (deleteUserById amb req) s) in
  tasks s' = tasks s
  /\ (snd (on_accounts_handler (deleteUserById amb req) s)
      = send_message 200 "User deleted successfully" ->
      forall id task,
        JsMap.get id (tasks s) = Some task ->
        Task.assignedTo task = Request.params_id req ->
        snd (getTaskWithAssignee amb' id s')
        = inr (Some (TaskWithAssignee.mk task None))).
Proof.
  cbv zeta. unfold on_accounts_handler. rewrite deleteUserById_eq.
  destruct (match Request.user req with Some _ => _ | None => _ end);
    [split; [reflexivity | discriminate]|].
  cbv zeta. destruct (JsMap.has _ _); cbn [fst snd tasks];
    (split; [reflexivity|]); [|discriminate].
  intros _ id task Hget Hassigned. rewrite getTaskWithAssignee_eq.
  cbn [snd tasks task_initialize]. rewrite Hget. cbn [option_map].
  unfold with_assignee. cbn [accounts task_initialize]. rewrite Hassigned.
  rewrite initialize_initialized by initialized_now.
  cbn [users set_users set_refreshTokens]. now rewrite get_delete_eq.
Qed.

(** X29. The listing of [getAllTasks], for a finite limit of at least
    1: it holds the stored tasks that pass the status filter, each once;
    [total] is their number and [totalPages] the least number of pages of
    [limit] tasks that hold them all, but 1 when there is none; and the
    pages 1 to [totalPages], put one after the other, are the listing
    with the assignees attached: no task is left out and none comes
    twice.  With the limit [Infinity], which [parseInt] makes of a long
    run of digits, there is no such cover: [totalPages] is 1 and every
    page is empty, however many tasks there are.  [GET /api/tasks]
    answers with the page that [getAllTasks] gives for the query, with
    page 1 and limit 10 where the query gives none, and cannot fail. *)
Theorem getAllTasks_pages_cover `{TaskSchemas} (amb : Ambient) (limit : Z)
    (status : option string) (s : TaskStorage) :
  (1 <= limit)%Z ->
  let s0 := task_initialize amb s in
  let listing := filter_status status (sort newest_task_first (JsMap.values (tasks s))) in
  let pages := Nat.max 1 (Z.to_nat (- ((- Z.of_nat (List.length listing)) / limit))%Z) in
  Permutation listing (filter_status status (JsMap.values (tasks s)))
  /\ (forall page result,
        snd (getAllTasks amb page (Finite limit) status s) = inr result ->
        Paginated.totalPages result = Finite (Z.of_nat pages)
        /\ Paginated.total result = Z.of_nat (List.length listing))
  /\ (List.length listing <= pages * Z.to_nat limit)%nat
  /\ (pages = 1 \/ (pages - 1) * Z.to_nat limit < List.length listing)%nat
  /\ flat_map (fun p => page_data (getAllTasks amb (Finite (Z.of_nat p)) (Finite limit)
                                     status s))
       (seq 1 pages)
     = map (with_assignee s0) listing
  /\ (forall page,
        snd (getAllTasks amb page PlusInfinity status s)
        = inr (Paginated.mk [] (Z.of_nat (List.length listing)) page PlusInfinity
                 (Finite 1)))
  /\ (forall query,
        exists result,
          listTasks amb query s = (s0, inr result)
          /\ getAllTasks amb (or_default (Query.page query) 1)
               (or_default (Query.limit query) 10) (Query.status query) s
             = (s0, inr result)).
Proof.
  intros Hl. cbv zeta.
  set (listing := filter_status status (sort newest_task_first (JsMap.values (tasks s)))).
  destruct (ceil_div_covers (Z.of_nat (List.length listing)) limit) as [Hnn Hcov];
    [lia | lia |].
  set (needed := (- (- Z.of_nat (List.length listing) / limit))%Z) in *.
  assert (Hfits : (List.length listing <= Nat.max 1 (Z.to_nat needed) * Z.to_nat limit)%nat)
    by nia.
  assert (Hleast : (Nat.max 1 (Z.to_nat needed) = 1
                    \/ (Nat.max 1 (Z.to_nat needed) - 1) * Z.to_nat limit
                       < List.length listing)%nat).
  { pose proof (Z.mul_succ_div_gt (- Z.of_nat (List.length listing)) limit
                  ltac:(lia)) as Hgt.
    fold needed in Hnn. unfold needed in *.
    destruct (Z.eq_dec (- (- Z.of_nat (List.length listing) / limit)) 0) as [Hz0 | Hnz];
      [left; rewrite Hz0; reflexivity | right; nia]. }
  split; [apply filter_status_perm, sort_perm|].
  split; [|split; [exact Hfits | split; [exact Hleast | split; [|split]]]].
  - intros page result. rewrite getAllTasks_eq. cbv zeta. cbn [snd]. intros [= <-].
    cbn [Paginated.totalPages Paginated.total]. fold listing. split; [|reflexivity].
    unfold ceil_div. assert (Hz : (limit =? 0)%Z = false) by (apply Z.eqb_neq; lia).
    rewrite Hz. fold needed. unfold or_one.
    destruct needed as [|p|p] eqn:Hneeded; [reflexivity | f_equal; lia | lia].
  - rewrite <- seq_shift, flat_map_concat_map, map_map, <- flat_map_concat_map.
    rewrite (flat_map_ext _
               (fun i => map (with_assignee (task_initialize amb s))
                           (firstn (Z.to_nat limit) (skipn (i * Z.to_nat limit) listing)))).
    + rewrite flat_map_concat_map, <- map_map, <- concat_map, <- flat_map_concat_map.
      f_equal. apply pieces_cover; [lia | exact Hfits].
    + intros i. unfold page_data. rewrite getAllTasks_eq. cbv zeta.
      cbn [snd Paginated.data js_mul js_pred js_add]. fold listing.
      rewrite slice_firstn_skipn by nia. do 3 f_equal. nia.
  - intros page. rewrite getAllTasks_eq. cbv zeta. cbn [snd]. fold listing.
    do 2 f_equal. rewrite slice_empty; [reflexivity|].
    destruct page as [[|[p|p|]|p]| | |]; reflexivity.
  - intros query. unfold listTasks, task_handle. cbv zeta. rewrite getAllTasks_eq.
    cbv zeta. eexists. split; reflexivity.
Qed.

(** X30. [PATCH /api/tasks/:id] on a stored task, with a body that the
    schema accepts and a well-formed map of tasks: when the body names a
    non-empty assignee that is not a stored user, the answer is 400
    "Assignee not found" and only the initialization is left of the
    request; otherwise the task is overwritten with the properties of
    the body and answered, keeping its id, creator and creation time
    and getting the instant of the request as [updatedAt]; its assignee
    is then a stored user, or the one it had, or the empty string, which
    the check lets through. *)
Theorem updateTaskById_assignee `{TaskSchemas} (amb : Ambient) (req : Request.t)
    (s : TaskStorage) (data : UpdateTaskInput.t) (task : Task.t) :
  wf_tasks s ->
  updateTaskSchema_parse (Request.body req) = Some data ->
  JsMap.get (Request.params_id req) (tasks s) = Some task ->
  let s0 := task_initialize amb s in
  let updated := spread_task task (task_updateData data) (now amb) in
  let s1 := set_tasks (JsMap.set (Request.params_id req) updated) s0 in
  (assignee_missing (UpdateTaskInput.assignedTo data) (accounts s0) = true ->
   updateTaskById amb req s = (s0, inl (send_message 400 "Assignee not found")))
  /\ (assignee_missing (UpdateTaskInput.assignedTo data) (accounts s0) = false ->
      updateTaskById amb req s = (s1, inr (Some (with_assignee s1 updated)))
      /\ wf_tasks s1
      /\ Task.id updated = Task.id task
      /\ Task.createdBy updated = Task.createdBy task
      /\ Task.createdAt updated = Task.createdAt task
      /\ Task.updatedAt updated = now amb
      /\ (Task.assignedTo updated = Task.assignedTo task
          \/ Task.assignedTo updated = ""
          \/ exists user,
               JsMap.get (Task.assignedTo updated) (users (accounts s0)) = Some user)).
Proof.
  intros Hwf Hparse Hget. cbv zeta. rewrite updateTaskById_eq, Hparse. cbv zeta.
  rewrite Hget. pose proof (task_id_of _ _ _ Hwf Hget) as Hid. split.
  - now intros ->.
  - intros Hok. rewrite Hok. split; [|split].
    + f_equal. cbn [tasks set_tasks task_initialize]. rewrite Hid. now rewrite get_set_eq.
    + rewrite <- Hid at 1.
      apply (wf_tasks_set (spread_task task _ (now amb))), wf_tasks_accounts, Hwf.
    + repeat (split; [reflexivity|]).
      unfold spread_task, task_updateData. cbn [Task.assignedTo TaskPatch.assignedTo].
      unfold assignee_missing in Hok.
      destruct (UpdateTaskInput.assignedTo data) as [name|]; [|now left].
      cbn [Js.truthy] in Hok.
      destruct (String.eqb_spec name "") as [Hempty | Hne]; [right; now left|].
      cbn [negb andb] in Hok. right. right.
      destruct (JsMap.get name _) as [user|]; [now exists user | discriminate].
Qed.

Section TaskExamples2.
#[local] Existing Instance Demo.runtime.
#[local] Existing Instance Office.platform.
#[local] Existing Instance Office.schemas.
#[local] Existing Instance Office.task_schemas.

Lemma createTask_then_view_witness :
  snd (getTaskById (Demo.ambient 5000 "v")
         (Office.request_of Fixtures.alice_public Office.NoBody "task-1") Office.tasks1)
  = inr (TaskWithAssignee.mk Office.report_task (Some Fixtures.alice_public)).
Proof.
  assert (Hwf : wf_store Demo.store1) by (apply (@register_wf Demo.runtime Demo.platform), wf_new).
  apply (proj1 (proj2 (@createTask_then_view Demo.runtime Office.platform Office.task_schemas
                  (mkTaskAmbient (Demo.ambient 3000 "t1") "task-1") (Demo.ambient 5000 "v")
                  (Office.request_of Office.admin_public
                     (Office.CreateTaskBody Office.report) "")
                  (Office.request_of Fixtures.alice_public Office.NoBody "task-1")
                  (mkTaskStorage Demo.store1 JsMap.empty)
                  (CreateTaskInput.mk "Write the report" "quarterly" TODO "uuid-alice"
                     (Some (Some "9000")))
                  Office.admin_public Fixtures.alice_user
                  Hwf eq_refl eq_refl eq_refl eq_refl eq_refl))).
Defined.

Lemma getAllTasks_pages_cover_witness :
  flat_map (fun p => page_data (getAllTasks (Demo.ambient 5000 "l") (Finite (Z.of_nat p))
                                  (Finite 1) None Office.tasks2)) [1; 2]%nat
  = [TaskWithAssignee.mk Office.audit_task (Some Office.admin_public);
     TaskWithAssignee.mk Office.report_task (Some Fixtures.alice_public)].
Proof.
  destruct (@getAllTasks_pages_cover Demo.runtime Office.platform Office.task_schemas
              (Demo.ambient 5000 "l") 1 None Office.tasks2)
    as (_ & _ & _ & _ & Hcover & _); [discriminate|].
  exact Hcover.
Defined.

Lemma updateTaskById_assignee_witness :
  let unassign :=
    Office.request_of Office.admin_public
      (Office.UpdateTaskBody (UpdateTaskInput.mk None None None (Some "") None)) "task-1" in
  let reassign :=
    Office.request_of Office.admin_public
      (Office.UpdateTaskBody (UpdateTaskInput.mk None None None (Some "uuid-zed") None))
      "task-1" in
  option_map Task.assignedTo
    (JsMap.get "task-1" (tasks (fst (updateTaskById (Demo.ambient 6000 "u") unassign
                                       Office.tasks2))))
  = Some ""
  /\ updateTaskById (Demo.ambient 6000 "u") reassign Office.tasks2
     = (Office.tasks2, inl (send_message 400 "Assignee not found")).
Proof.
  intros unassign reassign. split.
  - destruct (@updateTaskById_assignee Demo.runtime Office.platform Office.task_schemas
                (Demo.ambient 6000 "u") unassign Office.tasks2
                (UpdateTaskInput.mk None None None (Some "") None) Office.report_task
                tasks2_wf eq_refl eq_refl) as [_ Hdone].
    destruct (Hdone eq_refl) as (Hres & _). rewrite Hres. reflexivity.
  - destruct (@updateTaskById_assignee Demo.runtime Office.platform Office.task_schemas
                (Demo.ambient 6000 "u") reassign Office.tasks2
                (UpdateTaskInput.mk None None None (Some "uuid-zed") None)
                Office.report_task tasks2_wf eq_refl eq_refl) as [Hrefused _].
    rewrite (Hrefused eq_refl). reflexivity.
Defined.

Lemma listMyTasks_only_own_witness :
  exists listing,
    listMyTasks (Demo.ambient 5000 "l") (Query.mk NaN NaN None)
      (Office.request_of Fixtures.alice_public Office.NoBody "") Office.tasks2
    = (Office.tasks2, inr listing)
    /\ Paginated.total listing = 1%Z.
Proof.
  destruct (@listMyTasks_only_own Demo.runtime Office.platform Office.task_schemas
              (Demo.ambient 5000 "l") (Query.mk NaN NaN None)
              (Office.request_of Fixtures.alice_public Office.NoBody "")
              Office.tasks2 Fixtures.alice_public eq_refl)
    as (listing & Hroute & _ & _ & Htotal & _).
  exists listing. split; [exact Hroute | exact Htotal].
Defined.

End TaskExamples2.
